(** * The 4D STEM notebook (Notebooks/EM/STEM/4D_STEM.ipynb)

    The notebook is a straight-line Python script, cut into cells, that
    drives external libraries (h5py, pyUSID, pycroscopy, scikit-learn,
    matplotlib) and installs one GUI callback.  The embedding threads an
    explicit [world] (disk contents, the open file handle, the artists of the
    two-panel figure, and the history of external calls) through an
    exception-and-state monad.  Python values the script computes with are
    modelled directly: integers as [Z], lists as [list], numpy arrays as a
    shape plus row-major data, HDF5 objects as paths into the file. *)

From stdpp Require Import base option list strings gmap numbers.
From Stdlib Require Import ZArith QArith Lia.

Local Open Scope Z_scope.

(** ** Exceptions and outcomes *)

Inductive exn : Type :=
| IndexError
| KeyError (key : string)
| ValueError
| TypeError
| OSError
| ExternalError (what : string).

Inductive outcome (A : Type) : Type :=
| Ok (a : A)
| Raise (e : exn).
Arguments Ok {A} a.
Arguments Raise {A} e.


(** ** Pure Python operations used by the script *)

Module Py.

(** [l[i]] on a list: negative indices count from the end. *)
Definition getitem {A} (l : list A) (i : Z) : outcome A :=
  let n := Z.of_nat (length l) in
  let j := if i <? 0 then n + i else i in
  if (0 <=? j) && (j <? n)
  then match l !! Z.to_nat j with
       | Some x => Ok x
       | None => Raise IndexError
       end
  else Raise IndexError.

(** [a, b = l]: exactly two items or ValueError. *)
Definition unpack2 {A} (l : list A) : outcome (A * A) :=
  match l with
  | [a; b] => Ok (a, b)
  | _ => Raise ValueError
  end.

(** [int(0.5 * n)]: halving, then truncation toward zero. *)
Definition int_half (n : Z) : Z := Z.quot n 2.

(** [round(x)] of Python 3 on a finite float, taken as the rational it
    denotes: nearest integer, ties to even. *)
Definition round (x : Q) : Z :=
  let n := Qnum x in
  let d := Z.pos (Qden x) in
  let f := n `div` d in
  match (2 * (n `mod` d)) ?= d with
  | Lt => f
  | Gt => f + 1
  | Eq => if Z.even f then f else f + 1
  end.

(** [int(round(x))] where [x] may be [None]. *)
Definition int_round (x : option Q) : outcome Z :=
  match x with
  | Some q => Ok (round q)
  | None => Raise TypeError
  end.

End Py.

(** ** numpy arrays: a shape and the row-major (C order) data *)

Section Arrays.

Context {num : Type}.

Record ndarray : Type := mk_array { shape : list Z; flat : list num }.

Definition prodZ (dims : list Z) : Z := foldr Z.mul 1 dims.

Definition size (a : ndarray) : Z := Z.of_nat (length (flat a)).

(** [np.reshape(a, newshape)]: one entry may be [-1] and is inferred. *)
Definition np_reshape (a : ndarray) (newshape : list Z) : outcome ndarray :=
  let known := filter (λ d, d ≠ -1) newshape in
  let unknowns := length (filter (λ d, d = -1) newshape) in
  if negb (forallb (λ d, 0 <=? d) known) then Raise ValueError
  else match unknowns with
       | O => if prodZ newshape =? size a
              then Ok (mk_array newshape (flat a))
              else Raise ValueError
       | S O => let k := prodZ known in
                if (k =? 0) || negb (size a `mod` k =? 0) then Raise ValueError
                else Ok (mk_array
                           (map (λ d, if decide (d = -1) then size a `div` k else d)
                                newshape)
                           (flat a))
       | _ => Raise ValueError
       end.

(** [a[i]]: the [i]-th item along the first axis. *)
Definition index0 (a : ndarray) (i : Z) : outcome ndarray :=
  match shape a with
  | [] => Raise IndexError
  | n :: rest =>
      let j := if i <? 0 then n + i else i in
      if (0 <=? j) && (j <? n)
      then Ok (mk_array rest
                 (take (Z.to_nat (prodZ rest))
                       (drop (Z.to_nat (j * prodZ rest)) (flat a))))
      else Raise IndexError
  end.

(** Split row-major data into consecutive blocks of [w] items. *)
Fixpoint chunks (fuel : nat) (w : nat) (l : list num) : list (list num) :=
  match fuel with
  | O => []
  | S fuel' => take w l :: chunks fuel' w (drop w l)
  end.

(** [a[:k]]: the first [k] items along the first axis (clipped). *)
Definition take_rows (a : ndarray) (k : Z) : outcome ndarray :=
  match shape a with
  | [] => Raise IndexError
  | n :: rest =>
      let k' := Z.min (Z.max k 0) n in
      Ok (mk_array (k' :: rest) (take (Z.to_nat (k' * prodZ rest)) (flat a)))
  end.

(** [a[:, :k]]: the first [k] items along the second axis (clipped). *)
Definition take_cols (a : ndarray) (k : Z) : outcome ndarray :=
  match shape a with
  | n :: m :: rest =>
      let k' := Z.min (Z.max k 0) m in
      let inner := prodZ rest in
      Ok (mk_array (n :: k' :: rest)
            (concat (map (take (Z.to_nat (k' * inner)))
                         (chunks (Z.to_nat n) (Z.to_nat (m * inner)) (flat a)))))
  | _ => Raise IndexError
  end.

(** [a.shape[i]] for a tuple index [i >= 0]. *)
Definition shape_at (a : ndarray) (i : nat) : outcome Z :=
  match shape a !! i with
  | Some d => Ok d
  | None => Raise IndexError
  end.

End Arrays.
Arguments ndarray num : clear implicits.

(** ** HDF5 objects, the display, and the world the script runs in *)

Abbreviation path := (list string).

(** Handles to processing objects of pycroscopy and scikit-learn. *)
Inductive estimator : Type := KMeans (n_clusters : Z).

Inductive process : Type :=
| SVD (h5_main : path) (num_components : Z)
| Cluster (h5_main : path) (est : estimator) (num_comps : Z).

(** External calls, as they are recorded in the history. *)
Inductive op : Type :=
| OpShell (cmd : string)
| OpImport
| OpDisplayHTML
| OpMagic (line : string)
| OpFileDialog
| OpPrint (text : string)
| OpFileOpen (file mode : string)
| OpFindDataset (name : string)
| OpUSIDataset (ds : path)
| OpGetItem (grp : path) (name : string)
| OpRead (ds : path)
| OpSubplots
| OpHold (axis : nat)
| OpSetTitle (axis : nat) (title : string)
| OpCmap
| OpImshow (axis : nat)
| OpAxvline (x : Z)
| OpAxhline (y : Z)
| OpConnect
| OpSetXData (x : Z)
| OpSetYData (y : Z)
| OpSetData
| OpDraw (fig : nat)
| OpInit (p : process)
| OpCompute (p : process)
| OpPlotScree (ds : path)
| OpPlotMapStack (title : string) (num_comps : Z)
| OpPlotClusterLabels (num_clusters : Z)
| OpPlotClusterDendrogram (num_comps num_clusters last : Z)
| OpFileClose.

(** A matplotlib mouse event: display position and, inside an axes, data
    coordinates. *)
Record mouse_event : Type :=
  { ev_x : Z; ev_y : Z; ev_xdata : option Q; ev_ydata : option Q }.

Section World.

Context {num : Type}.

(** An h5py dataset; [ds_usid] holds the sizes of the position and of the
    spectroscopic dimensions when the dataset is a USID main dataset. *)
Record dataset : Type :=
  { ds_array : ndarray num; ds_usid : option (list N * list N) }.

Inductive h5obj : Type :=
| H5Group
| H5Dataset (d : dataset).

(** What pyUSID's [USIDataset] caches about a main dataset. *)
Record usidataset : Type :=
  { usid_path : path; pos_dim_sizes : list Z; spec_dim_sizes : list Z }.

(** The artists of the two-panel figure, the number of figures created so
    far and the figures redrawn on request. *)
Record display : Type :=
  { main_map : option (ndarray num);
    main_vert_line : option Z;
    main_hor_line : option Z;
    img_zoom : option (ndarray num);
    figures : nat;
    drawn : list nat }.

Record world : Type :=
  { disk : gmap string (gmap path h5obj);
    handle : option (string * string);
    screen : display;
    trace : list op }.

Definition log (o : op) (w : world) : world :=
  {| disk := disk w; handle := handle w; screen := screen w;
     trace := trace w ++ [o] |}.

Definition with_disk (d : gmap string (gmap path h5obj)) (w : world) : world :=
  {| disk := d; handle := handle w; screen := screen w; trace := trace w |}.

Definition with_handle (h : option (string * string)) (w : world) : world :=
  {| disk := disk w; handle := h; screen := screen w; trace := trace w |}.

Definition with_screen (s : display) (w : world) : world :=
  {| disk := disk w; handle := handle w; screen := s; trace := trace w |}.

Definition show_main (a : ndarray num) (s : display) : display :=
  {| main_map := Some a; main_vert_line := main_vert_line s;
     main_hor_line := main_hor_line s; img_zoom := img_zoom s;
     figures := figures s; drawn := drawn s |}.

Definition show_zoom (a : ndarray num) (s : display) : display :=
  {| main_map := main_map s; main_vert_line := main_vert_line s;
     main_hor_line := main_hor_line s; img_zoom := Some a;
     figures := figures s; drawn := drawn s |}.

Definition place_vert (x : Z) (s : display) : display :=
  {| main_map := main_map s; main_vert_line := Some x;
     main_hor_line := main_hor_line s; img_zoom := img_zoom s;
     figures := figures s; drawn := drawn s |}.

Definition place_hor (y : Z) (s : display) : display :=
  {| main_map := main_map s; main_vert_line := main_vert_line s;
     main_hor_line := Some y; img_zoom := img_zoom s;
     figures := figures s; drawn := drawn s |}.

Definition add_figure (s : display) : display :=
  {| main_map := main_map s; main_vert_line := main_vert_line s;
     main_hor_line := main_hor_line s; img_zoom := img_zoom s;
     figures := S (figures s); drawn := drawn s |}.

Definition redraw (fig : nat) (s : display) : display :=
  {| main_map := main_map s; main_vert_line := main_vert_line s;
     main_hor_line := main_hor_line s; img_zoom := img_zoom s;
     figures := figures s; drawn := drawn s ++ [fig] |}.

(** The behaviour of the external libraries the script does not fix:
    whether an opaque call raises, what the user picks, what the USID
    search returns, what SVD and clustering compute and write, and whether
    an event lies inside the axes of the mean-response map. *)
Class Library : Type :=
  { lib_raises : op → world → option exn;
    lib_file_dialog : world → string;
    lib_find_dataset : gmap path h5obj → string → list path;
    lib_compute : process → gmap path h5obj → outcome path * gmap path h5obj;
    lib_in_axes : world → mouse_event → bool }.

(** ** The monad: state passing, with exceptions that keep the state *)

Definition M (A : Type) : Type := world → outcome A * world.

#[export] Instance M_ret : MRet M := λ A a w, (Ok a, w).

#[export] Instance M_bind : MBind M := λ A B k m w,
  match m w with
  | (Ok a, w1) => k a w1
  | (Raise e, w1) => (Raise e, w1)
  end.

(** A primitive given by its action on the world. *)
Definition effect {A} (f : world → outcome A * world) : M A := f.

Definition lift {A} (o : outcome A) : M A := effect (λ w, (o, w)).

Definition raise {A} (e : exn) : M A := lift (Raise e).

Definition emit (o : op) : M unit := effect (λ w, (Ok tt, log o w)).

Definition update_screen (f : display → display) : M unit :=
  effect (λ w, (Ok tt, with_screen (f (screen w)) w)).

End World.
Arguments dataset num : clear implicits.
Arguments h5obj num : clear implicits.
Arguments display num : clear implicits.
Arguments world num : clear implicits.
Arguments Library num : clear implicits.
Arguments M num A : clear implicits.

(** ** The external operations, on the world *)

Section Operations.

Context {num : Type} `{L : Library num}.

(** A call whose result the script does not use and that may raise. *)
Definition external (o : op) : M num unit :=
  effect (λ w, match lib_raises o w with
               | Some e => (Raise e, log o w)
               | None => (Ok tt, log o w)
               end).

(** A call that creates a new pyplot figure and returns it. *)
Definition new_figure (o : op) : M num nat :=
  external o;;
  effect (λ w, (Ok (S (figures (screen w))), with_screen (add_figure (screen w)) w)).

(** [px.io_utils.file_dialog(...)] *)
Definition file_dialog : M num string :=
  external OpFileDialog;;
  effect (λ w, (Ok (lib_file_dialog w), w)).

(** [h5py.File(name, mode=mode)] *)
Definition h5py_File (name mode : string) : M num string :=
  emit (OpFileOpen name mode);;
  effect (λ w, match disk w !! name with
       | Some _ =>
           if String.eqb mode "r" || String.eqb mode "r+" || String.eqb mode "a"
           then (Ok name, with_handle (Some (name, mode)) w)
           else if String.eqb mode "w"
           then (Ok name,
                 with_handle (Some (name, mode)) (with_disk (<[name := ∅]> (disk w)) w))
           else if String.eqb mode "w-" || String.eqb mode "x"
           then (Raise OSError, w)
           else (Raise ValueError, w)
       | None =>
           if String.eqb mode "r" || String.eqb mode "r+"
           then (Raise OSError, w)
           else if String.eqb mode "w" || String.eqb mode "a"
                   || String.eqb mode "w-" || String.eqb mode "x"
           then (Ok name,
                 with_handle (Some (name, mode)) (with_disk (<[name := ∅]> (disk w)) w))
           else (Raise ValueError, w)
       end).

(** [h5_file.close()] *)
Definition h5_close (h5_file : string) : M num unit :=
  emit OpFileClose;;
  effect (λ w, (Ok tt, with_handle None w)).

(** The contents behind the open handle; a closed handle raises. *)
Definition current_file : M num (gmap path (h5obj num)) :=
  effect (λ w, match handle w with
               | Some (name, _) =>
                   match disk w !! name with
                   | Some f => (Ok f, w)
                   | None => (Raise OSError, w)
                   end
               | None => (Raise ValueError, w)
               end).

Definition deref (ds : path) : M num (dataset num) :=
  f ← current_file;
  match f !! ds with
  | Some (H5Dataset d) => mret d
  | Some H5Group => raise TypeError
  | None => raise (KeyError (String.concat "/" ds))
  end.

(** [usid.hdf_utils.find_dataset(h5_file, name)] *)
Definition find_dataset (h5_file name : string) : M num (list path) :=
  external (OpFindDataset name);;
  f ← current_file;
  mret (lib_find_dataset f name).

(** [usid.USIDataset(ds)] *)
Definition USIDataset (ds : path) : M num usidataset :=
  external (OpUSIDataset ds);;
  d ← deref ds;
  match ds_usid d with
  | Some (pos, spec) =>
      mret {| usid_path := ds; pos_dim_sizes := Z.of_N <$> pos;
              spec_dim_sizes := Z.of_N <$> spec |}
  | None => raise TypeError
  end.

(** [ds.parent]: the group that holds [ds]. *)
Definition parent (ds : path) : path := removelast ds.

(** [grp[name]] *)
Definition group_getitem (grp : path) (name : string) : M num path :=
  emit (OpGetItem grp name);;
  f ← current_file;
  match f !! (grp ++ [name]) with
  | Some _ => mret (grp ++ [name])
  | None => raise (KeyError name)
  end.

(** [ds[i]], [np.asarray(ds)], [ds[:, :k]], [ds[:k]] and [ds.shape[i]] *)
Definition read_item (ds : path) (i : Z) : M num (ndarray num) :=
  emit (OpRead ds);; d ← deref ds; lift (index0 (ds_array d) i).

Definition read_all (ds : path) : M num (ndarray num) :=
  emit (OpRead ds);; d ← deref ds; mret (ds_array d).

Definition read_cols (ds : path) (k : Z) : M num (ndarray num) :=
  emit (OpRead ds);; d ← deref ds; lift (take_cols (ds_array d) k).

Definition read_rows (ds : path) (k : Z) : M num (ndarray num) :=
  emit (OpRead ds);; d ← deref ds; lift (take_rows (ds_array d) k).

Definition ds_shape_at (ds : path) (i : nat) : M num Z :=
  emit (OpRead ds);; d ← deref ds; lift (shape_at (ds_array d) i).

(** [px.processing.SVD(...)] and [px.processing.Cluster(...)] *)
Definition init (p : process) : M num process :=
  external (OpInit p);; mret p.

(** [proc.compute()]: the library works on the open file and returns the
    group that holds its results; the file must be writable. *)
Definition compute (p : process) : M num path :=
  emit (OpCompute p);;
  effect (λ w, match handle w with
       | Some (name, mode) =>
           if String.eqb mode "r" then (Raise OSError, w)
           else match disk w !! name with
                | Some f =>
                    let '(res, f') := lib_compute p f in
                    (res, with_disk (<[name := f']> (disk w)) w)
                | None => (Raise OSError, w)
                end
       | None => (Raise ValueError, w)
       end).

(** matplotlib artists of the two-panel figure *)
Definition imshow_main (a : ndarray num) : M num unit :=
  external (OpImshow 0);; update_screen (show_main a).

Definition imshow_zoom (a : ndarray num) : M num unit :=
  external (OpImshow 1);; update_screen (show_zoom a).

Definition axvline (x : Z) : M num unit :=
  external (OpAxvline x);; update_screen (place_vert x).

Definition axhline (y : Z) : M num unit :=
  external (OpAxhline y);; update_screen (place_hor y).

Definition set_xdata (x : Z) : M num unit :=
  emit (OpSetXData x);; update_screen (place_vert x).

Definition set_ydata (y : Z) : M num unit :=
  emit (OpSetYData y);; update_screen (place_hor y).

Definition set_data (a : ndarray num) : M num unit :=
  emit OpSetData;; update_screen (show_zoom a).

Definition canvas_draw (fig : nat) : M num unit :=
  emit (OpDraw fig);; update_screen (redraw fig).

Definition in_axes (event : mouse_event) : M num bool :=
  effect (λ w, (Ok (lib_in_axes w event), w)).

(** [a.transpose([2, 0, 1])] *)
Definition transpose_201 (a : ndarray num) : outcome (ndarray num) :=
  match shape a with
  | [n0; n1; n2] =>
      let outer := Z.to_nat (n0 * n1) in
      let inner := Z.to_nat n2 in
      Ok (mk_array [n2; n0; n1]
            (concat (map (λ k, omap (λ i, flat a !! (i * inner + k)%nat) (seq 0 outer))
                         (seq 0 inner))))
  | _ => Raise ValueError
  end.

End Operations.

(** ** The notebook, cell by cell *)

(** Names bound by the cell "Get reference to Raw measurement". *)
Record raw_info : Type :=
  { h5_main : usidataset;
    num_rows : Z;
    num_cols : Z;
    num_sensor_rows : Z;
    num_sensor_cols : Z }.

(** Names bound by the SVD cell and by the clustering cell. *)
Record svd_info : Type := { h5_u : path; h5_v : path; h5_s : path }.

Record cluster_info : Type :=
  { h5_labels : path; h5_centroids : path; num_comps_for_clustering : Z }.

(** The global namespace once every cell has run. *)
Record globals : Type :=
  { h5_file : string;
    raw : raw_info;
    svd : svd_info;
    clusters : cluster_info;
    fig : nat }.

Definition num_svd_comps : Z := 256.
Definition num_plot_comps : Z := 16.
Definition spectral_components : Z := 128.
Definition num_clusters : Z := 32.

(** The scan position the spec names for the pixel (row, col) of the
    mean-response map: its row-major index in the rows x columns grid. *)
Definition clicked_position (r : raw_info) (row col : Z) : Z :=
  row * num_cols r + col.

(** The ronchigram of a scan position: that row of the position x pixel
    matrix, reshaped to sensor-rows x sensor-columns. *)
Definition ronchigram_at {num} (r : raw_info) (matrix : ndarray num) (pos : Z)
    : outcome (ndarray num) :=
  match index0 matrix pos with
  | Ok row => np_reshape row [num_sensor_rows r; num_sensor_cols r]
  | Raise e => Raise e
  end.

Definition newline : string := String (Ascii.ascii_of_nat 10) EmptyString.

Section Notebook.

Context {num : Type} `{L : Library num}.

Definition cell_install : M num unit :=
  emit (OpShell "conda install --yes --prefix {sys.prefix} numpy scipy matplotlib scikit-learn Ipython ipywidgets h5py");;
  emit (OpShell "{sys.executable} -m pip install -U --no-deps pyUSID==0.0.4");;
  emit (OpShell "{sys.executable} -m pip install -U --no-deps pycroscopy==0.60.1").

Definition cell_imports : M num unit :=
  external OpImport;;
  external OpDisplayHTML;;
  external (OpMagic "matplotlib notebook").

Definition cell_open : M num string :=
  h5_path ← file_dialog;
  emit (OpPrint ("Working on:" +:+ newline +:+ h5_path));;
  h5py_File h5_path "r+".

(** The cell also binds [h5_pos_inds] and [h5_spec_inds], attributes of the
    USID dataset that no later line reads. *)
Definition cell_get_raw (h5_file : string) : M num raw_info :=
  found ← find_dataset h5_file "Raw_Data";
  h5_main ← lift (Py.getitem found (-1));
  h5_main ← USIDataset h5_main;
  '(num_rows, num_cols) ← lift (Py.unpack2 (pos_dim_sizes h5_main));
  '(num_sensor_rows, num_sensor_cols) ← lift (Py.unpack2 (spec_dim_sizes h5_main));
  mret {| h5_main := h5_main; num_rows := num_rows; num_cols := num_cols;
          num_sensor_rows := num_sensor_rows; num_sensor_cols := num_sensor_cols |}.

(** The click callback of the cell "Visualize the Raw Ronchigrams".  It reads
    the globals [h5_main], [num_rows], [num_sensor_rows], [num_sensor_cols]
    and [fig] when it is called. *)
Definition move_zoom_box (r : raw_info) (fig : nat) (event : mouse_event) : M num unit :=
  inside ← in_axes event;
  if negb inside then mret tt
  else
    coarse_col ← lift (Py.int_round (ev_xdata event));
    coarse_row ← lift (Py.int_round (ev_ydata event));
    set_xdata coarse_col;;
    set_ydata coarse_row;;
    let coarse_pos := coarse_row * num_rows r + coarse_col in
    row ← read_item (usid_path (h5_main r)) coarse_pos;
    current_ronch ← lift (np_reshape row [num_sensor_rows r; num_sensor_cols r]);
    set_data current_ronch;;
    canvas_draw fig.

Definition cell_visualize (r : raw_info) : M num nat :=
  let coarse_row := Py.int_half (num_rows r) in
  let coarse_col := Py.int_half (num_cols r) in
  let coarse_pos := coarse_row * num_rows r + coarse_col in
  row ← read_item (usid_path (h5_main r)) coarse_pos;
  current_ronch ← lift (np_reshape row [num_sensor_rows r; num_sensor_cols r]);
  fig ← new_figure OpSubplots;
  external (OpHold 0);;
  external (OpSetTitle 0 "Mean Response");;
  h5_mean ← group_getitem (parent (usid_path (h5_main r))) "Spectroscopic_Mean";
  mean ← read_all h5_mean;
  mean_map ← lift (np_reshape mean [num_rows r; num_cols r]);
  external OpCmap;;
  imshow_main mean_map;;
  axvline coarse_col;;
  axhline coarse_row;;
  external (OpSetTitle 1 "Ronchigram at current pixel");;
  external OpCmap;;
  imshow_zoom current_ronch;;
  external OpConnect;;
  mret fig.

Definition cell_svd (r : raw_info) : M num svd_info :=
  proc ← init (SVD (usid_path (h5_main r)) num_svd_comps);
  h5_svd_group ← compute proc;
  h5_u ← group_getitem h5_svd_group "U";
  h5_v ← group_getitem h5_svd_group "V";
  h5_s ← group_getitem h5_svd_group "S";
  mret {| h5_u := h5_u; h5_v := h5_v; h5_s := h5_s |}.

Definition cell_plot_scree (s : svd_info) : M num nat :=
  new_figure (OpPlotScree (h5_s s)).

Definition cell_plot_abundance (r : raw_info) (s : svd_info) : M num nat :=
  u ← read_cols (h5_u s) num_plot_comps;
  stacked ← lift (np_reshape u [num_rows r; num_cols r; -1]);
  loadings ← lift (transpose_201 stacked);
  external OpCmap;;
  new_figure (OpPlotMapStack "Abundance Maps" num_plot_comps).

Definition cell_plot_endmembers (r : raw_info) (s : svd_info) : M num nat :=
  v ← read_rows (h5_v s) num_plot_comps;
  eigenvectors ← lift (np_reshape v [-1; num_sensor_rows r; num_sensor_cols r]);
  external OpCmap;;
  new_figure (OpPlotMapStack "Endmembers" num_plot_comps).

Definition cell_cluster (s : svd_info) : M num cluster_info :=
  let estimator := KMeans num_clusters in
  proc ← init (Cluster (h5_u s) estimator spectral_components);
  h5_kmeans_group ← compute proc;
  h5_labels ← group_getitem h5_kmeans_group "Labels";
  h5_centroids ← group_getitem h5_kmeans_group "Mean_Response";
  n ← ds_shape_at h5_centroids 1;
  mret {| h5_labels := h5_labels; h5_centroids := h5_centroids;
          num_comps_for_clustering := n |}.

Definition cell_plot_labels (r : raw_info) (c : cluster_info) : M num (ndarray num * nat) :=
  labels ← read_all (h5_labels c);
  label_mat ← lift (np_reshape labels [num_rows r; num_cols r]);
  fig ← new_figure (OpPlotClusterLabels num_clusters);
  mret (label_mat, fig).

Definition cell_plot_dendrogram (r : raw_info) (s : svd_info) (c : cluster_info)
    (label_mat : ndarray num) : M num nat :=
  u ← read_cols (h5_u s) spectral_components;
  e_vals ← lift (np_reshape u [num_rows r; num_cols r; -1]);
  new_figure (OpPlotClusterDendrogram (num_comps_for_clustering c) num_clusters num_clusters).

Definition cell_close (h5_file : string) : M num unit :=
  h5_close h5_file.

(** The first five cells: up to the two-panel figure and its callback. *)
Definition through_visualize : M num (raw_info * nat) :=
  cell_install;;
  cell_imports;;
  h5_file ← cell_open;
  r ← cell_get_raw h5_file;
  fig ← cell_visualize r;
  mret (r, fig).

(** Running the cells from top to bottom. *)
Definition notebook : M num globals :=
  cell_install;;
  cell_imports;;
  h5_file ← cell_open;
  r ← cell_get_raw h5_file;
  fig ← cell_visualize r;
  s ← cell_svd r;
  fig ← cell_plot_scree s;
  fig ← cell_plot_abundance r s;
  fig ← cell_plot_endmembers r s;
  c ← cell_cluster s;
  '(label_mat, fig) ← cell_plot_labels r c;
  fig ← cell_plot_dendrogram r s c label_mat;
  cell_close h5_file;;
  mret {| h5_file := h5_file; raw := r; svd := s; clusters := c; fig := fig |}.

End Notebook.

(** ** A small concrete world: a 2 x 3 scan of 2 x 2 ronchigrams *)

Module Toy.

Definition channel (c : string) : path := ["Measurement_000"; c].

Definition raw_old : path := channel "Channel_000" ++ ["Raw_Data"].
Definition raw_new : path := channel "Channel_001" ++ ["Raw_Data"].
Definition mean_new : path := channel "Channel_001" ++ ["Spectroscopic_Mean"].
Definition svd_group : path := channel "Channel_001" ++ ["Raw_Data-SVD_000"].
Definition kmeans_group : path := svd_group ++ ["U-Cluster_000"].

(** Row [i] of the raw matrix holds [10 i .. 10 i + 3]. *)
Definition raw_matrix : ndarray Z :=
  mk_array [6; 4]
    [0; 1; 2; 3; 10; 11; 12; 13; 20; 21; 22; 23;
     30; 31; 32; 33; 40; 41; 42; 43; 50; 51; 52; 53].

Definition raw_dataset : dataset Z :=
  {| ds_array := raw_matrix; ds_usid := Some ([2; 3]%N, [2; 2]%N) |}.

Definition plain (a : ndarray Z) : dataset Z :=
  {| ds_array := a; ds_usid := None |}.

Definition stem_file : gmap path (h5obj Z) :=
  <[ raw_old := H5Dataset (plain (mk_array [1; 1] [7])) ]>
  (<[ raw_new := H5Dataset raw_dataset ]>
  (<[ mean_new := H5Dataset (plain (mk_array [6] [100; 200; 300; 400; 500; 600])) ]>
  (<[ channel "Channel_000" := H5Group ]>
  (<[ channel "Channel_001" := H5Group ]>
  (<[ ["Measurement_000"] := H5Group ]> ∅))))).

(** What the toy SVD and the toy k-means add to a file; objects that are
    already there are kept. *)
Definition svd_results (f : gmap path (h5obj Z)) : gmap path (h5obj Z) :=
  f ∪
  (<[ svd_group ++ ["U"] :=
       H5Dataset (plain (mk_array [6; 2] [1; 2; 3; 4; 5; 6; 7; 8; 9; 10; 11; 12])) ]>
  (<[ svd_group ++ ["V"] :=
       H5Dataset (plain (mk_array [2; 4] [1; 0; 0; 0; 0; 1; 0; 0])) ]>
  (<[ svd_group ++ ["S"] := H5Dataset (plain (mk_array [2] [9; 4])) ]>
  (<[ svd_group := H5Group ]> ∅)))).

Definition kmeans_results (f : gmap path (h5obj Z)) : gmap path (h5obj Z) :=
  f ∪
  (<[ kmeans_group ++ ["Labels"] :=
       H5Dataset (plain (mk_array [6] [0; 1; 0; 1; 1; 0])) ]>
  (<[ kmeans_group ++ ["Mean_Response"] :=
       H5Dataset (plain (mk_array [2; 2] [1; 2; 3; 4])) ]>
  (<[ kmeans_group := H5Group ]> ∅))).

#[global] Instance library : Library Z :=
  {| lib_raises := λ _ _, None;
     lib_file_dialog := λ _, "stem.h5";
     lib_find_dataset := λ f name,
       if String.eqb name "Raw_Data"
       then filter (λ p, is_Some (f !! p)) [raw_old; raw_new]
       else [];
     lib_compute := λ p f,
       match p with
       | SVD _ _ => (Ok svd_group, svd_results f)
       | Cluster _ _ _ => (Ok kmeans_group, kmeans_results f)
       end;
     lib_in_axes := λ _ ev,
       (0 <=? ev_x ev) && (ev_x ev <? 100) && (0 <=? ev_y ev) && (ev_y ev <? 100) |}.

Definition blank : display Z :=
  {| main_map := None; main_vert_line := None; main_hor_line := None;
     img_zoom := None; figures := 0; drawn := [] |}.

Definition start : world Z :=
  {| disk := {[ "stem.h5" := stem_file ]}; handle := None;
     screen := blank; trace := [] |}.

(** The same session over a file that holds no dataset at all. *)
Definition start_empty : world Z :=
  {| disk := {[ "stem.h5" := ∅ ]}; handle := None;
     screen := blank; trace := [] |}.

(** The session once the first five cells have run: the file is open and
    the two-panel figure is on screen. *)
Definition viewing : world Z := (through_visualize start).2.

(** The raw dataset as the script binds it. *)
Definition raw_bound : raw_info :=
  {| h5_main := {| usid_path := raw_new; pos_dim_sizes := [2; 3];
                   spec_dim_sizes := [2; 2] |};
     num_rows := 2; num_cols := 3; num_sensor_rows := 2; num_sensor_cols := 2 |}.

(** The global names when every cell has run. *)
Definition bound : globals :=
  {| h5_file := "stem.h5";
     raw := raw_bound;
     svd := {| h5_u := svd_group ++ ["U"]; h5_v := svd_group ++ ["V"];
               h5_s := svd_group ++ ["S"] |};
     clusters := {| h5_labels := kmeans_group ++ ["Labels"];
                    h5_centroids := kmeans_group ++ ["Mean_Response"];
                    num_comps_for_clustering := 2 |};
     fig := 6 |}.

(** A click in the mean-response map at data coordinates x = 0, y = 1. *)
Definition click_row1_col0 : mouse_event :=
  {| ev_x := 10; ev_y := 60; ev_xdata := Some (0 # 1)%Q; ev_ydata := Some (1 # 1)%Q |}.

(** A click outside the axes of the mean-response map. *)
Definition click_outside : mouse_event :=
  {| ev_x := 150; ev_y := 60; ev_xdata := None; ev_ydata := None |}.

End Toy.

(** ** Sessions over scans of other shapes *)

Module Grid.

(** The position x pixel matrix of [n] positions of 2 x 2 ronchigrams: row
    [i] holds [10 i .. 10 i + 3]. *)
Definition matrix (n : nat) : ndarray Z :=
  mk_array [Z.of_nat n; 4]
    (flat_map (λ i, [10 * i; 10 * i + 1; 10 * i + 2; 10 * i + 3])
              (seqZ 0 (Z.of_nat n))).

Definition raw_dataset (nr nc : N) : dataset Z :=
  {| ds_array := matrix (N.to_nat (nr * nc));
     ds_usid := Some ([nr; nc], [2; 2]%N) |}.

Definition file (nr nc : N) : gmap path (h5obj Z) :=
  {[ Toy.raw_new := H5Dataset (raw_dataset nr nc) ]}.

(** A session with the file open and nothing on screen yet. *)
Definition opened (nr nc : N) : world Z :=
  {| disk := {[ "stem.h5" := file nr nc ]}; handle := Some ("stem.h5", "r+");
     screen := Toy.blank; trace := [] |}.

(** The same session after the file was closed. *)
Definition closed (nr nc : N) : world Z :=
  {| disk := {[ "stem.h5" := file nr nc ]}; handle := None;
     screen := Toy.blank; trace := [] |}.

Definition info (nr nc : N) : raw_info :=
  {| h5_main := {| usid_path := Toy.raw_new;
                   pos_dim_sizes := [Z.of_N nr; Z.of_N nc];
                   spec_dim_sizes := [2; 2] |};
     num_rows := Z.of_N nr; num_cols := Z.of_N nc;
     num_sensor_rows := 2; num_sensor_cols := 2 |}.

(** A click inside the map on the centre of the pixel (row, col). *)
Definition click (row col : Z) : mouse_event :=
  {| ev_x := 10; ev_y := 10;
     ev_xdata := Some (inject_Z col); ev_ydata := Some (inject_Z row) |}.

(** A line scan: the positions have one dimension only. *)
Definition line_dataset (n : N) : dataset Z :=
  {| ds_array := matrix (N.to_nat n); ds_usid := Some ([n], [2; 2]%N) |}.

Definition line_scan (n : N) : world Z :=
  {| disk := {[ "stem.h5" := {[ Toy.raw_new := H5Dataset (line_dataset n) ]} ]};
     handle := Some ("stem.h5", "r+"); screen := Toy.blank; trace := [] |}.

(** A session with the file of [Toy.start] open. *)
Definition toy_opened : world Z :=
  {| disk := {[ "stem.h5" := Toy.stem_file ]}; handle := Some ("stem.h5", "r+");
     screen := Toy.blank; trace := [] |}.

(** A session in which the user picks a file that is not there. *)
Definition no_such_file : world Z :=
  {| disk := ∅; handle := None; screen := Toy.blank; trace := [] |}.

(** Libraries as [Toy.library], but the SVD routine leaves a group without
    its member V. *)
Definition svd_without_v (f : gmap path (h5obj Z)) : gmap path (h5obj Z) :=
  f ∪
  (<[ Toy.svd_group ++ ["U"] := H5Dataset (Toy.plain (mk_array [1; 1] [1])) ]>
  (<[ Toy.svd_group := H5Group ]> ∅)).

Definition library_without_v : Library Z :=
  {| lib_raises := λ _ _, None;
     lib_file_dialog := λ _, "stem.h5";
     lib_find_dataset := λ _ _, [];
     lib_compute := λ _ f, (Ok Toy.svd_group, svd_without_v f);
     lib_in_axes := λ _ _, true |}.

(** Libraries as [Toy.library], but over a matplotlib whose axes have no
    [hold] any more: the call fails. *)
Definition library_without_hold : Library Z :=
  {| lib_raises := λ o _, match o with
                           | OpHold _ => Some (ExternalError "AttributeError")
                           | _ => None
                           end;
     lib_file_dialog := lib_file_dialog (Library := Toy.library);
     lib_find_dataset := lib_find_dataset (Library := Toy.library);
     lib_compute := lib_compute (Library := Toy.library);
     lib_in_axes := lib_in_axes (Library := Toy.library) |}.

End Grid.

(** * Vocabulary of the properties *)

(** ** The calls of a run *)

(** The source-level name of a recorded call. *)
Definition call_name (o : op) : string :=
  match o with
  | OpShell _ => "!shell"
  | OpImport => "import"
  | OpDisplayHTML => "display"
  | OpMagic _ => "%magic"
  | OpFileDialog => "px.io_utils.file_dialog"
  | OpPrint _ => "print"
  | OpFileOpen _ _ => "h5py.File"
  | OpFindDataset _ => "usid.hdf_utils.find_dataset"
  | OpUSIDataset _ => "usid.USIDataset"
  | OpGetItem _ _ => "group[name]"
  | OpRead _ => "dataset read"
  | OpSubplots => "plt.subplots"
  | OpHold _ => "axes.hold"
  | OpSetTitle _ _ => "axes.set_title"
  | OpCmap => "px.plot_utils.cmap_jet_white_center"
  | OpImshow _ => "axes.imshow"
  | OpAxvline _ => "axes.axvline"
  | OpAxhline _ => "axes.axhline"
  | OpConnect => "canvas.mpl_connect"
  | OpSetXData _ => "line.set_xdata"
  | OpSetYData _ => "line.set_ydata"
  | OpSetData => "image.set_data"
  | OpDraw _ => "canvas.draw"
  | OpInit (SVD _ _) => "px.processing.SVD"
  | OpInit (Cluster _ _ _) => "px.processing.Cluster"
  | OpCompute _ => "proc.compute"
  | OpPlotScree _ => "usid.plot_utils.plot_scree"
  | OpPlotMapStack _ _ => "usid.plot_utils.plot_map_stack"
  | OpPlotClusterLabels _ => "px.viz.cluster_utils.plot_cluster_labels"
  | OpPlotClusterDendrogram _ _ _ => "px.viz.cluster_utils.plot_cluster_dendrogram"
  | OpFileClose => "h5_file.close"
  end.

(** The calls of the notebook in source order. *)
Definition schedule : list string :=
  ["!shell"; "!shell"; "!shell";
   "import"; "display"; "%magic";
   "px.io_utils.file_dialog"; "print"; "h5py.File";
   "usid.hdf_utils.find_dataset"; "usid.USIDataset";
   "dataset read"; "plt.subplots"; "axes.hold"; "axes.set_title";
   "group[name]"; "dataset read"; "px.plot_utils.cmap_jet_white_center";
   "axes.imshow"; "axes.axvline"; "axes.axhline"; "axes.set_title";
   "px.plot_utils.cmap_jet_white_center"; "axes.imshow"; "canvas.mpl_connect";
   "px.processing.SVD"; "proc.compute"; "group[name]"; "group[name]"; "group[name]";
   "usid.plot_utils.plot_scree";
   "dataset read"; "px.plot_utils.cmap_jet_white_center";
   "usid.plot_utils.plot_map_stack";
   "dataset read"; "px.plot_utils.cmap_jet_white_center";
   "usid.plot_utils.plot_map_stack";
   "px.processing.Cluster"; "proc.compute"; "group[name]"; "group[name]";
   "dataset read";
   "dataset read"; "px.viz.cluster_utils.plot_cluster_labels";
   "dataset read"; "px.viz.cluster_utils.plot_cluster_dendrogram";
   "h5_file.close"].

(** The calls each cell records when it runs to its end. *)
Definition install_ops : list op :=
  [OpShell "conda install --yes --prefix {sys.prefix} numpy scipy matplotlib scikit-learn Ipython ipywidgets h5py";
   OpShell "{sys.executable} -m pip install -U --no-deps pyUSID==0.0.4";
   OpShell "{sys.executable} -m pip install -U --no-deps pycroscopy==0.60.1"].

Definition imports_ops : list op :=
  [OpImport; OpDisplayHTML; OpMagic "matplotlib notebook"].

Definition open_ops (name : string) : list op :=
  [OpFileDialog; OpPrint ("Working on:" +:+ newline +:+ name); OpFileOpen name "r+"].

Definition get_raw_ops (ds : path) : list op :=
  [OpFindDataset "Raw_Data"; OpUSIDataset ds].

Definition visualize_ops (r : raw_info) : list op :=
  [OpRead (usid_path (h5_main r)); OpSubplots; OpHold 0; OpSetTitle 0 "Mean Response";
   OpGetItem (parent (usid_path (h5_main r))) "Spectroscopic_Mean";
   OpRead (parent (usid_path (h5_main r)) ++ ["Spectroscopic_Mean"]);
   OpCmap; OpImshow 0;
   OpAxvline (Py.int_half (num_cols r)); OpAxhline (Py.int_half (num_rows r));
   OpSetTitle 1 "Ronchigram at current pixel"; OpCmap; OpImshow 1; OpConnect].

Definition svd_ops (r : raw_info) (g : path) : list op :=
  [OpInit (SVD (usid_path (h5_main r)) 256);
   OpCompute (SVD (usid_path (h5_main r)) 256);
   OpGetItem g "U"; OpGetItem g "V"; OpGetItem g "S"].

Definition svd_plot_ops (s : svd_info) : list op :=
  [OpPlotScree (h5_s s);
   OpRead (h5_u s); OpCmap; OpPlotMapStack "Abundance Maps" 16;
   OpRead (h5_v s); OpCmap; OpPlotMapStack "Endmembers" 16].

Definition cluster_ops (s : svd_info) (g : path) : list op :=
  [OpInit (Cluster (h5_u s) (KMeans 32) 128);
   OpCompute (Cluster (h5_u s) (KMeans 32) 128);
   OpGetItem g "Labels"; OpGetItem g "Mean_Response";
   OpRead (g ++ ["Mean_Response"])].

Definition cluster_plot_ops (s : svd_info) (c : cluster_info) : list op :=
  [OpRead (h5_labels c); OpPlotClusterLabels 32;
   OpRead (h5_u s); OpPlotClusterDendrogram (num_comps_for_clustering c) 32 32].

Section Vocabulary.

Context {num : Type} `{L : Library num}.

Implicit Types w : world num.

(** ** The open file and what it holds *)

(** The file behind the open handle. *)
Definition file_at w (name mode : string) (f : gmap path (h5obj num)) : Prop :=
  handle w = Some (name, mode) ∧ disk w !! name = Some f.

(** An object is in the file behind the open handle. *)
Definition present w (p : path) : Prop :=
  ∃ name mode f, file_at w name mode f ∧ is_Some (f !! p).

(** Reading through a dataset handle. *)
Definition holds w (ds : path) (d : dataset num) : Prop :=
  ∃ name mode f, file_at w name mode f ∧ f !! ds = Some (H5Dataset d).

(** ** Histories *)

(** The world after a list of calls has been recorded, oldest first. *)
Definition logs (ops : list op) w : world num := foldl (λ w o, log o w) w ops.

(** [m] performs the calls of [sched] in order; when it raises it has
    performed an initial segment of them and nothing else. *)
Definition linear {A} (m : M num A) (sched : list string) : Prop :=
  ∀ w, ∃ ops,
    trace (m w).2 = trace w ++ ops ∧
    match (m w).1 with
    | Ok _ => call_name <$> ops = sched
    | Raise _ => call_name <$> ops `prefix_of` sched
    end.



(** ** A complete run of the notebook *)

Definition raw_path (g : globals) : path := usid_path (h5_main (raw g)).

Definition mean_path (g : globals) : path :=
  parent (raw_path g) ++ ["Spectroscopic_Mean"].

(** Every call of a complete run, oldest first. *)
Definition before_close (g : globals) (gs gk : path) : list op :=
  install_ops ++ imports_ops ++ open_ops (h5_file g) ++ get_raw_ops (raw_path g)
  ++ visualize_ops (raw g) ++ svd_ops (raw g) gs ++ svd_plot_ops (svd g)
  ++ cluster_ops (svd g) gk ++ cluster_plot_ops (svd g) (clusters g).

Definition notebook_ops (g : globals) (gs gk : path) : list op :=
  before_close g gs gk ++ [OpFileClose].

(** The two-panel figure as the visualization cell leaves it. *)
Definition two_panel (g : globals) (mean_map zoom : ndarray num) (s : display num)
    : display num :=
  show_zoom zoom
    (place_hor (Py.int_half (num_rows (raw g)))
       (place_vert (Py.int_half (num_cols (raw g)))
          (show_main mean_map (add_figure s)))).

(** What is known of a run that reached the end: [f0] is the file as it
    was opened, [f1] and [f2] the file after SVD and after clustering, [gs]
    and [gk] the groups the two computations returned. *)
Record complete_run (w : world num) (g : globals) (w' : world num)
    (f0 f1 f2 : gmap path (h5obj num)) (gs gk : path)
    (d_raw d_mean d_labels d_centroids : dataset num)
    (row zoom mean_map label_mat : ndarray num) : Prop :=
  { run_picked :
      h5_file g = lib_file_dialog (log OpFileDialog (logs (install_ops ++ imports_ops) w));
    run_opened : disk w !! h5_file g = Some f0;
    run_found : list.last (lib_find_dataset f0 "Raw_Data") = Some (raw_path g);
    run_raw : f0 !! raw_path g = Some (H5Dataset d_raw);
    run_dims :
      ds_usid d_raw =
        Some (Z.to_N <$> [num_rows (raw g); num_cols (raw g)],
              Z.to_N <$> [num_sensor_rows (raw g); num_sensor_cols (raw g)]);
    run_rows : 0 ≤ num_rows (raw g);
    run_cols : 0 ≤ num_cols (raw g);
    run_sensor_rows : 0 ≤ num_sensor_rows (raw g);
    run_sensor_cols : 0 ≤ num_sensor_cols (raw g);
    run_row :
      index0 (ds_array d_raw)
        (Py.int_half (num_rows (raw g)) * num_rows (raw g)
         + Py.int_half (num_cols (raw g))) = Ok row;
    run_zoom :
      np_reshape row [num_sensor_rows (raw g); num_sensor_cols (raw g)] = Ok zoom;
    run_mean : f0 !! mean_path g = Some (H5Dataset d_mean);
    run_mean_map :
      np_reshape (ds_array d_mean) [num_rows (raw g); num_cols (raw g)] = Ok mean_map;
    run_svd : lib_compute (SVD (raw_path g) 256) f0 = (Ok gs, f1);
    run_svd_names :
      svd g = {| h5_u := gs ++ ["U"]; h5_v := gs ++ ["V"]; h5_s := gs ++ ["S"] |};
    run_u : is_Some (f1 !! (gs ++ ["U"]));
    run_v : is_Some (f1 !! (gs ++ ["V"]));
    run_s : is_Some (f1 !! (gs ++ ["S"]));
    run_cluster :
      lib_compute (Cluster (gs ++ ["U"]) (KMeans 32) 128) f1 = (Ok gk, f2);
    run_labels_name : h5_labels (clusters g) = gk ++ ["Labels"];
    run_centroids_name : h5_centroids (clusters g) = gk ++ ["Mean_Response"];
    run_labels : f2 !! (gk ++ ["Labels"]) = Some (H5Dataset d_labels);
    run_label_mat :
      np_reshape (ds_array d_labels) [num_rows (raw g); num_cols (raw g)]
        = Ok label_mat;
    run_centroids : f2 !! (gk ++ ["Mean_Response"]) = Some (H5Dataset d_centroids);
    run_ncomps :
      shape_at (ds_array d_centroids) 1 = Ok (num_comps_for_clustering (clusters g));
    run_disk : disk w' = <[h5_file g := f2]> (disk w);
    run_handle : handle w' = None;
    run_screen :
      screen w' =
        Nat.iter 5 add_figure (two_panel g mean_map zoom (screen w));
    run_trace : trace w' = trace w ++ notebook_ops g gs gk }.

(** ** What stays on disk *)

(** Modelled from the spec: the external SVD and k-means routines of
    pycroscopy, which are not part of the notebook.  The spec says of them
    that they write new groups and datasets into the file they are given;
    so every object of the file is still there, unchanged, after a
    computation (whether it returned or raised). *)
Definition adds_only : Prop :=
  ∀ (p : process) (f : gmap path (h5obj num)), f ⊆ (lib_compute p f).2.

(** Every file holds at least the objects it held, unchanged. *)
Definition grows w w' : Prop :=
  ∀ name f, disk w !! name = Some f → ∃ f', disk w' !! name = Some f' ∧ f ⊆ f'.

Definition keeps {A} (m : M num A) : Prop := ∀ w, grows w (m w).2.

End Vocabulary.

Section Sessions.

Context {num : Type}.

Implicit Types w : world num.

(** An array whose data has as many items as its shape says. *)
Definition well_formed (a : ndarray num) : Prop :=
  Forall (λ d, 0 ≤ d) (shape a) ∧ length (flat a) = Z.to_nat (prodZ (shape a)).

(** The world once the callback has moved the crosshair to column [x] and
    row [y]. *)
Definition crosshair_at (x y : Z) w : world num :=
  with_screen (place_hor y (place_vert x (screen w)))
    (logs [OpSetXData x; OpSetYData y] w).

(** [w'] is a later state of the session [w] in which the files, the handle,
    the mean-response map and the number of figures are as they were. *)
Definition same_session w w' : Prop :=
  disk w' = disk w ∧ handle w' = handle w ∧
  main_map (screen w') = main_map (screen w) ∧
  figures (screen w') = figures (screen w) ∧
  trace w `prefix_of` trace w'.

(** A step that stays within the session, whatever it returns or raises. *)
Definition quiet {A} (m : M num A) : Prop := ∀ w, same_session w (m w).2.

End Sessions.

Section CallbackParts.

Context {num : Type} `{L : Library num}.

(** The part of the callback that follows the moving of the crosshair. *)
Definition show_ronchigram (r : raw_info) (fig : nat) (pos : Z) : M num unit :=
  row ← read_item (usid_path (h5_main r)) pos;
  current_ronch ← lift (np_reshape row [num_sensor_rows r; num_sensor_cols r]);
  set_data current_ronch;;
  canvas_draw fig.

(** No external call fails on its own account. *)
Definition calm : Prop := ∀ o (w : world num), lib_raises o w = None.

End CallbackParts.

(** ** Calls that the libraries may fail *)

Section Consultations.

Context {num : Type} `{L : Library num}.

Implicit Types w : world num.






End Consultations.

Section Returned.

Context {num : Type}.


End Returned.

(** * Properties *)

(** ** Python and numpy facts *)

Example round_ties_to_even :
  Py.round (1 # 2) = 0 ∧ Py.round (3 # 2) = 2 ∧ Py.round (5 # 2) = 2 ∧
  Py.round (-1 # 2) = 0 ∧ Py.round (-3 # 2) = -2 ∧
  Py.round (12 # 5) = 2 ∧ Py.round (-13 # 5) = -3.
Proof. by vm_compute. Qed.

Example int_half_truncates :
  Py.int_half 3 = 1 ∧ Py.int_half 4 = 2 ∧ Py.int_half (-3) = -1.
Proof. by vm_compute. Qed.

Example getitem_from_the_end :
  Py.getitem [10; 20; 30] (-1) = Ok 30 ∧ Py.getitem [10; 20; 30] (-3) = Ok 10 ∧
  Py.getitem [10; 20; 30] (-4) = Raise IndexError ∧
  Py.getitem [10; 20; 30] 3 = Raise IndexError.
Proof. by vm_compute. Qed.

Example reshape_infers_one_axis :
  np_reshape (mk_array [6] [1; 2; 3; 4; 5; 6]) [2; -1]
    = Ok (mk_array [2; 3] [1; 2; 3; 4; 5; 6]) ∧
  np_reshape (mk_array [6] [1; 2; 3; 4; 5; 6]) [4; 2] = Raise ValueError ∧
  np_reshape (mk_array [6] [1; 2; 3; 4; 5; 6]) [-1; -1] = Raise ValueError.
Proof. by vm_compute. Qed.

Example slices_clip :
  take_cols (mk_array [2; 3] [1; 2; 3; 4; 5; 6]) 2 = Ok (mk_array [2; 2] [1; 2; 4; 5]) ∧
  take_cols (mk_array [2; 3] [1; 2; 3; 4; 5; 6]) 16
    = Ok (mk_array [2; 3] [1; 2; 3; 4; 5; 6]) ∧
  take_rows (mk_array [3; 2] [1; 2; 3; 4; 5; 6]) 2 = Ok (mk_array [2; 2] [1; 2; 3; 4]) ∧
  index0 (mk_array [3; 2] [1; 2; 3; 4; 5; 6]) (-1) = Ok (mk_array [2] [5; 6]) ∧
  index0 (mk_array [3; 2] [1; 2; 3; 4; 5; 6]) 3 = Raise IndexError.
Proof. by vm_compute. Qed.

Example transpose_moves_last_axis_first :
  transpose_201 (mk_array [1; 2; 3] [1; 2; 3; 4; 5; 6])
    = Ok (mk_array [3; 1; 2] [1; 4; 2; 5; 3; 6]).
Proof. by vm_compute. Qed.

Lemma getitem_minus_one {A} (l : list A) (x : A) :
  Py.getitem (l ++ [x]) (-1) = Ok x.
Proof.
  unfold Py.getitem. rewrite length_app. cbn [length].
  replace (-1 <? 0) with true by reflexivity.
  replace (Z.of_nat (length l + 1) + -1) with (Z.of_nat (length l)) by lia.
  rewrite Nat2Z.id.
  replace (0 <=? Z.of_nat (length l)) with true by (symmetry; apply Z.leb_le; lia).
  replace (Z.of_nat (length l) <? Z.of_nat (length l + 1))
    with true by (symmetry; apply Z.ltb_lt; lia).
  cbn [andb]. by rewrite list_lookup_middle.
Qed.

Lemma getitem_minus_one_last {A} (l : list A) (x : A) :
  Py.getitem l (-1) = Ok x → list.last l = Some x.
Proof.
  destruct (decide (l = [])) as [-> | Hne]; [discriminate |].
  destruct (exists_last Hne) as (l' & y & ->).
  rewrite getitem_minus_one, last_snoc. congruence.
Qed.

Lemma getitem_nil {A} (i : Z) : Py.getitem (@nil A) i = Raise IndexError.
Proof.
  unfold Py.getitem. cbn [length].
  destruct (i <? 0) eqn:Hi.
  - apply Z.ltb_lt in Hi.
    replace (0 <=? Z.of_nat 0 + i) with false; [done |].
    symmetry. apply Z.leb_gt. lia.
  - apply Z.ltb_ge in Hi.
    replace (i <? Z.of_nat 0) with false; [by rewrite andb_false_r |].
    symmetry. apply Z.ltb_ge. lia.
Qed.

Lemma unpack2_Ok {A} (l : list A) (a b : A) :
  Py.unpack2 l = Ok (a, b) → l = [a; b].
Proof.
  destruct l as [| x [| y [| z l]]]; cbn; intros H; by simplify_eq.
Qed.

Lemma np_reshape_flat {num} (a : ndarray num) (newshape : list Z) (b : ndarray num) :
  np_reshape a newshape = Ok b → flat b = flat a.
Proof.
  unfold np_reshape. intros H.
  repeat case_match; by simplify_eq.
Qed.

Lemma np_reshape_2d {num} (a : ndarray num) (n m : Z) (b : ndarray num) :
  0 ≤ n → 0 ≤ m →
  np_reshape a [n; m] = Ok b →
  b = mk_array [n; m] (flat a) ∧ n * m = size a.
Proof.
  intros Hn Hm. unfold np_reshape. cbn.
  repeat case_decide; cbn; try lia.
  destruct (Z.leb_spec 0 n); [| lia].
  destruct (Z.leb_spec 0 m); [| lia].
  cbn. rewrite Z.mul_1_r.
  destruct (Z.eqb_spec (n * m) (size a)); [| discriminate].
  intros [= <-]. done.
Qed.

(** ** Successful steps, read backwards *)

Section Steps.

Context {num : Type} `{L : Library num}.

Implicit Types w : world num.

Lemma bind_Ok {A B} (m : M num A) (k : A → M num B) w b w' :
  (m ≫= k) w = (Ok b, w') →
  ∃ a w1, m w = (Ok a, w1) ∧ k a w1 = (Ok b, w').
Proof.
  unfold mbind, M_bind. destruct (m w) as [[a | e] w1]; [eauto | discriminate].
Qed.

Lemma run_eq {A} (m : M num A) w (o : outcome A) :
  (m w).1 = o → m w = (o, (m w).2).
Proof. destruct (m w). cbn. by intros ->. Qed.

Lemma bind_Raise {A B} (m : M num A) (k : A → M num B) w e w' :
  m w = (Raise e, w') → (m ≫= k) w = (Raise e, w').
Proof. unfold mbind, M_bind. by intros ->. Qed.

Lemma bind_step {A B} (m : M num A) (k : A → M num B) w a w1 :
  m w = (Ok a, w1) → (m ≫= k) w = k a w1.
Proof. unfold mbind, M_bind. by intros ->. Qed.

Lemma ret_Ok {A} (a b : A) w w' :
  mret (M := M num) a w = (Ok b, w') → b = a ∧ w' = w.
Proof. unfold mret, M_ret. by intros [= -> ->]. Qed.

Lemma lift_Ok {A} (o : outcome A) (a : A) w w' :
  lift o w = (Ok a, w') → o = Ok a ∧ w' = w.
Proof. unfold lift, effect. by intros [= -> ->]. Qed.

Lemma emit_Ok o u w w' : emit o w = (Ok u, w') → w' = log o w.
Proof. unfold emit, effect. by intros [= <-]. Qed.

Lemma external_Ok o u w w' :
  external o w = (Ok u, w') → w' = log o w ∧ lib_raises o w = None.
Proof.
  unfold external, effect. destruct (lib_raises o w); [discriminate |].
  by intros [= <-].
Qed.

Lemma update_screen_Ok f u w w' :
  update_screen f w = (Ok u, w') → w' = with_screen (f (screen w)) w.
Proof. unfold update_screen, effect. by intros [= <-]. Qed.

Lemma new_figure_Ok o n w w' :
  new_figure o w = (Ok n, w') →
  n = S (figures (screen w)) ∧
  w' = with_screen (add_figure (screen w)) (log o w).
Proof.
  unfold new_figure. intros (u & w1 & H1 & H2)%bind_Ok.
  apply external_Ok in H1 as [-> _].
  unfold effect in H2. by simplify_eq.
Qed.

Lemma current_file_Ok f w w' :
  current_file w = (Ok f, w') → w' = w ∧ ∃ name mode, file_at w name mode f.
Proof.
  unfold current_file, effect, file_at.
  destruct (handle w) as [[name mode] |]; [| discriminate].
  destruct (disk w !! name) as [f' |] eqn:Hf; [| discriminate].
  intros [= -> ->]. eauto.
Qed.

Lemma deref_Ok ds d w w' :
  deref ds w = (Ok d, w') →
  w' = w ∧ ∃ name mode f, file_at w name mode f ∧ f !! ds = Some (H5Dataset d).
Proof.
  unfold deref. intros (f & w1 & H1 & H2)%bind_Ok.
  apply current_file_Ok in H1 as (-> & name & mode & Hf).
  destruct (f !! ds) as [[| d'] |] eqn:Hds; try discriminate.
  apply ret_Ok in H2 as [-> ->]. eauto 10.
Qed.

Lemma file_dialog_Ok name w w' :
  file_dialog w = (Ok name, w') →
  w' = log OpFileDialog w ∧ name = lib_file_dialog w'.
Proof.
  unfold file_dialog. intros (u & w1 & H1 & H2)%bind_Ok.
  apply external_Ok in H1 as [-> _]. unfold effect in H2. by simplify_eq.
Qed.

(** Opening in mode r+ needs an existing file and leaves the disk alone. *)
Lemma h5py_File_rplus_Ok name h w w' :
  h5py_File name "r+" w = (Ok h, w') →
  h = name ∧ is_Some (disk w !! name) ∧
  w' = with_handle (Some (name, "r+")) (log (OpFileOpen name "r+") w).
Proof.
  unfold h5py_File. intros (u & w1 & H1 & H2)%bind_Ok.
  apply emit_Ok in H1 as ->. unfold effect in H2. cbn in H2.
  destruct (disk w !! name) eqn:Hd; [| discriminate].
  by simplify_eq.
Qed.

Lemma h5_close_Ok h u w w' :
  h5_close h w = (Ok u, w') → w' = with_handle None (log OpFileClose w).
Proof.
  unfold h5_close. intros (u' & w1 & H1 & H2)%bind_Ok.
  apply emit_Ok in H1 as ->. unfold effect in H2. by simplify_eq.
Qed.

Lemma find_dataset_Ok h name found w w' :
  find_dataset h name w = (Ok found, w') →
  w' = log (OpFindDataset name) w ∧
  ∃ file mode f, file_at w file mode f ∧ found = lib_find_dataset f name.
Proof.
  unfold find_dataset. intros (u & w1 & H1 & (f & w2 & H2 & H3)%bind_Ok)%bind_Ok.
  apply external_Ok in H1 as [-> _].
  apply current_file_Ok in H2 as (-> & file & mode & Hf).
  apply ret_Ok in H3 as [-> ->]. eauto 10.
Qed.

Lemma USIDataset_Ok ds u w w' :
  USIDataset ds w = (Ok u, w') →
  w' = log (OpUSIDataset ds) w ∧ usid_path u = ds ∧
  ∃ name mode f d pos spec,
    file_at w name mode f ∧ f !! ds = Some (H5Dataset d) ∧
    ds_usid d = Some (pos, spec) ∧
    pos_dim_sizes u = Z.of_N <$> pos ∧ spec_dim_sizes u = Z.of_N <$> spec.
Proof.
  unfold USIDataset. intros (x & w1 & H1 & (d & w2 & H2 & H3)%bind_Ok)%bind_Ok.
  apply external_Ok in H1 as [-> _].
  apply deref_Ok in H2 as (-> & name & mode & f & Hf & Hd).
  destruct (ds_usid d) as [[pos spec] |] eqn:Hu; [| discriminate].
  apply ret_Ok in H3 as [-> ->]. cbn. split_and!; [done.. |].
  by exists name, mode, f, d, pos, spec.
Qed.

Lemma group_getitem_Ok grp name p w w' :
  group_getitem grp name w = (Ok p, w') →
  w' = log (OpGetItem grp name) w ∧ p = grp ++ [name] ∧ present w p.
Proof.
  unfold group_getitem. intros (u & w1 & H1 & (f & w2 & H2 & H3)%bind_Ok)%bind_Ok.
  apply emit_Ok in H1 as ->.
  apply current_file_Ok in H2 as (-> & file & mode & Hf).
  destruct (f !! (grp ++ [name])) eqn:Hp; [| discriminate].
  apply ret_Ok in H3 as [-> ->]. split_and!; [done.. |].
  exists file, mode, f. by rewrite Hp.
Qed.

Lemma holds_same w1 w2 ds d :
  handle w1 = handle w2 → disk w1 = disk w2 → holds w1 ds d → holds w2 ds d.
Proof. unfold holds, file_at. by intros -> ->. Qed.

Lemma present_same w1 w2 p :
  handle w1 = handle w2 → disk w1 = disk w2 → present w1 p → present w2 p.
Proof. unfold present, file_at. by intros -> ->. Qed.

Lemma present_written w name mode f d p :
  handle w = Some (name, mode) → disk w = <[name := f]> d →
  present w p → is_Some (f !! p).
Proof.
  intros Hh Hd (n1 & m1 & f1 & [Hh1 Hd1] & Hin).
  rewrite Hh in Hh1. rewrite Hd in Hd1. simplify_eq.
  rewrite lookup_insert_eq in Hd1. by simplify_eq.
Qed.

Lemma holds_written w name mode f d0 ds d :
  handle w = Some (name, mode) → disk w = <[name := f]> d0 →
  holds w ds d → f !! ds = Some (H5Dataset d).
Proof.
  intros Hh Hd (n1 & m1 & f1 & [Hh1 Hd1] & Hin).
  rewrite Hh in Hh1. rewrite Hd in Hd1. simplify_eq.
  rewrite lookup_insert_eq in Hd1. by simplify_eq.
Qed.

Lemma holds_lookup w name mode f ds d :
  handle w = Some (name, mode) → disk w !! name = Some f →
  holds w ds d → f !! ds = Some (H5Dataset d).
Proof.
  intros Hh Hd (n1 & m1 & f1 & [Hh1 Hd1] & Hin).
  rewrite Hh in Hh1. by simplify_eq.
Qed.

Lemma holds_present w ds d : holds w ds d → present w ds.
Proof.
  intros (name & mode & f & Hf & Hd). exists name, mode, f. by rewrite Hd.
Qed.

Lemma read_item_Ok ds i a w w' :
  read_item ds i w = (Ok a, w') →
  w' = log (OpRead ds) w ∧ ∃ d, holds w ds d ∧ index0 (ds_array d) i = Ok a.
Proof.
  unfold read_item. intros (u & w1 & H1 & (d & w2 & H2 & H3)%bind_Ok)%bind_Ok.
  apply emit_Ok in H1 as ->.
  apply deref_Ok in H2 as (-> & name & mode & f & Hf & Hd).
  apply lift_Ok in H3 as [H3 ->]. split; [done |]. exists d. split; [| done].
  by exists name, mode, f.
Qed.

Lemma read_all_Ok ds a w w' :
  read_all ds w = (Ok a, w') →
  w' = log (OpRead ds) w ∧ ∃ d, holds w ds d ∧ a = ds_array d.
Proof.
  unfold read_all. intros (u & w1 & H1 & (d & w2 & H2 & H3)%bind_Ok)%bind_Ok.
  apply emit_Ok in H1 as ->.
  apply deref_Ok in H2 as (-> & name & mode & f & Hf & Hd).
  apply ret_Ok in H3 as [-> ->]. split; [done |]. exists d. split; [| done].
  by exists name, mode, f.
Qed.

Lemma read_cols_Ok ds k a w w' :
  read_cols ds k w = (Ok a, w') →
  w' = log (OpRead ds) w ∧ ∃ d, holds w ds d ∧ take_cols (ds_array d) k = Ok a.
Proof.
  unfold read_cols. intros (u & w1 & H1 & (d & w2 & H2 & H3)%bind_Ok)%bind_Ok.
  apply emit_Ok in H1 as ->.
  apply deref_Ok in H2 as (-> & name & mode & f & Hf & Hd).
  apply lift_Ok in H3 as [H3 ->]. split; [done |]. exists d. split; [| done].
  by exists name, mode, f.
Qed.

Lemma read_rows_Ok ds k a w w' :
  read_rows ds k w = (Ok a, w') →
  w' = log (OpRead ds) w ∧ ∃ d, holds w ds d ∧ take_rows (ds_array d) k = Ok a.
Proof.
  unfold read_rows. intros (u & w1 & H1 & (d & w2 & H2 & H3)%bind_Ok)%bind_Ok.
  apply emit_Ok in H1 as ->.
  apply deref_Ok in H2 as (-> & name & mode & f & Hf & Hd).
  apply lift_Ok in H3 as [H3 ->]. split; [done |]. exists d. split; [| done].
  by exists name, mode, f.
Qed.

Lemma ds_shape_at_Ok ds i n w w' :
  ds_shape_at ds i w = (Ok n, w') →
  w' = log (OpRead ds) w ∧ ∃ d, holds w ds d ∧ shape_at (ds_array d) i = Ok n.
Proof.
  unfold ds_shape_at. intros (u & w1 & H1 & (d & w2 & H2 & H3)%bind_Ok)%bind_Ok.
  apply emit_Ok in H1 as ->.
  apply deref_Ok in H2 as (-> & name & mode & f & Hf & Hd).
  apply lift_Ok in H3 as [H3 ->]. split; [done |]. exists d. split; [| done].
  by exists name, mode, f.
Qed.

Lemma init_Ok p q w w' :
  init p w = (Ok q, w') → q = p ∧ w' = log (OpInit p) w.
Proof.
  unfold init. intros (u & w1 & H1 & H2)%bind_Ok.
  apply external_Ok in H1 as [-> _]. by apply ret_Ok in H2 as [-> ->].
Qed.

(** A computation that returns went through a writable handle; what it
    wrote replaces the contents of that one file. *)
Lemma compute_Ok p g w w' :
  compute p w = (Ok g, w') →
  ∃ name mode f f', file_at w name mode f ∧ mode ≠ "r" ∧
    lib_compute p f = (Ok g, f') ∧
    w' = with_disk (<[name := f']> (disk w)) (log (OpCompute p) w).
Proof.
  unfold compute. intros (u & w1 & H1 & H2)%bind_Ok.
  apply emit_Ok in H1 as ->. unfold effect in H2. cbn in H2.
  destruct (handle w) as [[name mode] |] eqn:Hh; [| discriminate].
  destruct (String.eqb_spec mode "r") as [-> | Hmode]; [discriminate |].
  destruct (disk w !! name) as [f |] eqn:Hd; [| discriminate].
  destruct (lib_compute p f) as [res f'] eqn:Hc.
  simplify_eq. exists name, mode, f, f'. by rewrite Hc.
Qed.

End Steps.

(** Peel one successful step off a run. *)
Ltac peel H :=
  let a := fresh "a" in
  let w := fresh "w" in
  let H1 := fresh "Hstep" in
  apply bind_Ok in H as (a & w & H1 & H); cbn beta in H.

(** Restate what was read in intermediate worlds about the world [w], which
    has the same handle and the same disk. *)
Ltac rebase w :=
  repeat match goal with
    | H : holds ?w1 _ _ |- _ =>
        lazymatch w1 with
        | w => fail
        | _ => apply (holds_same w1 w _ _ eq_refl eq_refl) in H
        end
    | H : present ?w1 _ |- _ =>
        lazymatch w1 with
        | w => fail
        | _ => apply (present_same w1 w _ eq_refl eq_refl) in H
        end
    end.

Ltac backwards :=
  repeat match goal with
    | H : (_ ≫= _) _ = (Ok _, _) |- _ => peel H
    | H : (let '(_, _) := ?x in _) _ = (Ok _, _) |- _ => destruct x
    | H : mret _ _ = (Ok _, _) |- _ => apply ret_Ok in H as [H ->]; simplify_eq
    | H : lift _ _ = (Ok _, _) |- _ => apply lift_Ok in H as [H ->]
    | H : emit _ _ = (Ok _, _) |- _ => apply emit_Ok in H as ->
    | H : external _ _ = (Ok _, _) |- _ => apply external_Ok in H as [-> _]
    | H : update_screen _ _ = (Ok _, _) |- _ => apply update_screen_Ok in H as ->
    | H : new_figure _ _ = (Ok _, _) |- _ => apply new_figure_Ok in H as [-> ->]
    | H : init _ _ = (Ok _, _) |- _ => apply init_Ok in H as [-> ->]
    | H : file_dialog _ = (Ok _, _) |- _ => apply file_dialog_Ok in H as [-> ->]
    | H : h5py_File _ "r+" _ = (Ok _, _) |- _ =>
        let E := fresh "Hexists" in apply h5py_File_rplus_Ok in H as (-> & E & ->)
    | H : h5_close _ _ = (Ok _, _) |- _ => apply h5_close_Ok in H as ->
    | H : compute _ _ = (Ok _, _) |- _ =>
        let name := fresh "name" in
        let mode := fresh "mode" in
        let f := fresh "f" in
        let f' := fresh "f'" in
        let Hf := fresh "Hfile" in
        let Hm := fresh "Hmode" in
        let Hc := fresh "Hcompute" in
        apply compute_Ok in H as (name & mode & f & f' & Hf & Hm & Hc & ->)
    | H : find_dataset _ _ _ = (Ok _, _) |- _ =>
        let file := fresh "file" in
        let mode := fresh "mode" in
        let f := fresh "f" in
        let Hf := fresh "Hfile" in
        apply find_dataset_Ok in H as (-> & file & mode & f & Hf & ->)
    | H : USIDataset _ _ = (Ok _, _) |- _ =>
        let Hp := fresh "Hpath" in
        let Hu := fresh "Husid" in
        apply USIDataset_Ok in H as (-> & Hp & Hu)
    | H : group_getitem _ _ _ = (Ok _, _) |- _ =>
        let Hm := fresh "Hmember" in
        apply group_getitem_Ok in H as (-> & -> & Hm)
    | H : read_item _ _ _ = (Ok _, _) |- _ =>
        let d := fresh "d" in
        let Hd := fresh "Hholds" in
        let Hr := fresh "Hread" in
        apply read_item_Ok in H as (-> & d & Hd & Hr)
    | H : read_all _ _ = (Ok _, _) |- _ =>
        let d := fresh "d" in
        let Hd := fresh "Hholds" in
        apply read_all_Ok in H as (-> & d & Hd & ->)
    | H : read_cols _ _ _ = (Ok _, _) |- _ =>
        let d := fresh "d" in
        let Hd := fresh "Hholds" in
        let Hr := fresh "Hread" in
        apply read_cols_Ok in H as (-> & d & Hd & Hr)
    | H : read_rows _ _ _ = (Ok _, _) |- _ =>
        let d := fresh "d" in
        let Hd := fresh "Hholds" in
        let Hr := fresh "Hread" in
        apply read_rows_Ok in H as (-> & d & Hd & Hr)
    | H : ds_shape_at _ _ _ = (Ok _, _) |- _ =>
        let d := fresh "d" in
        let Hd := fresh "Hholds" in
        let Hr := fresh "Hread" in
        apply ds_shape_at_Ok in H as (-> & d & Hd & Hr)
    end.

(** ** What each cell does when it runs to its end *)

Section Cells.

Context {num : Type} `{L : Library num}.

Implicit Types w : world num.

Lemma trace_logs ops w : trace (logs ops w) = trace w ++ ops.
Proof.
  revert w. induction ops as [| o ops IH]; intros w; cbn.
  - by rewrite app_nil_r.
  - unfold logs in IH. rewrite IH. cbn. by rewrite <- app_assoc.
Qed.

Lemma disk_logs ops w : disk (logs ops w) = disk w.
Proof.
  revert w. induction ops as [| o ops IH]; intros w; cbn; [done |].
  unfold logs in IH. by rewrite IH.
Qed.

Lemma handle_logs ops w : handle (logs ops w) = handle w.
Proof.
  revert w. induction ops as [| o ops IH]; intros w; cbn; [done |].
  unfold logs in IH. by rewrite IH.
Qed.

Lemma screen_logs ops w : screen (logs ops w) = screen w.
Proof.
  revert w. induction ops as [| o ops IH]; intros w; cbn; [done |].
  unfold logs in IH. by rewrite IH.
Qed.

Lemma cell_install_Ok u w w' :
  cell_install w = (Ok u, w') → w' = logs install_ops w.
Proof. unfold cell_install. intros H. backwards. done. Qed.

Lemma cell_imports_Ok u w w' :
  cell_imports w = (Ok u, w') → w' = logs imports_ops w.
Proof. unfold cell_imports. intros H. backwards. done. Qed.

Lemma cell_open_Ok name w w' :
  cell_open w = (Ok name, w') →
  name = lib_file_dialog (log OpFileDialog w) ∧
  is_Some (disk w !! name) ∧
  w' = with_handle (Some (name, "r+")) (logs (open_ops name) w).
Proof. unfold cell_open. intros H. backwards. done. Qed.

Lemma cell_get_raw_Ok h r w w' :
  cell_get_raw h w = (Ok r, w') →
  (∃ name mode f d,
      file_at w name mode f ∧
      list.last (lib_find_dataset f "Raw_Data") = Some (usid_path (h5_main r)) ∧
      f !! usid_path (h5_main r) = Some (H5Dataset d) ∧
      ds_usid d = Some (Z.to_N <$> [num_rows r; num_cols r],
                        Z.to_N <$> [num_sensor_rows r; num_sensor_cols r]) ∧
      (0 ≤ num_rows r ∧ 0 ≤ num_cols r) ∧
      (0 ≤ num_sensor_rows r ∧ 0 ≤ num_sensor_cols r)) ∧
  w' = logs (get_raw_ops (usid_path (h5_main r))) w.
Proof.
  unfold cell_get_raw. intros H. backwards. cbn.
  destruct Husid as (name & mode' & f' & d & pos & spec & [Hh Hd] & Hin & Hu & Hp & Hs).
  destruct Hfile as [Hh0 Hd0]. cbn in Hh, Hd.
  repeat match goal with
         | E : Py.unpack2 _ = Ok _ |- _ => apply unpack2_Ok in E
         | E : Py.getitem _ _ = Ok _ |- _ => apply getitem_minus_one_last in E
         end.
  repeat match goal with
         | E1 : ?x = Z.of_N <$> _, E2 : ?x = [_; _] |- _ => rewrite E1 in E2; clear E1
         end.
  simplify_eq. split; [| done].
  destruct pos as [| p1 [| p2 [| ? ?]]]; try discriminate.
  destruct spec as [| s1 [| s2 [| ? ?]]]; try discriminate.
  cbn in *. simplify_eq.
  eexists _, _, _, d. split_and!; [by split | done | done | | lia | lia | lia | lia].
  by rewrite Hu, !N2Z.id.
Qed.

Lemma cell_visualize_Ok r fig w w' :
  cell_visualize r w = (Ok fig, w') →
  ∃ d_raw row zoom d_mean mean_map,
    holds w (usid_path (h5_main r)) d_raw ∧
    index0 (ds_array d_raw)
      (Py.int_half (num_rows r) * num_rows r + Py.int_half (num_cols r)) = Ok row ∧
    np_reshape row [num_sensor_rows r; num_sensor_cols r] = Ok zoom ∧
    holds w (parent (usid_path (h5_main r)) ++ ["Spectroscopic_Mean"]) d_mean ∧
    np_reshape (ds_array d_mean) [num_rows r; num_cols r] = Ok mean_map ∧
    fig = S (figures (screen w)) ∧
    w' = with_screen
           (show_zoom zoom
              (place_hor (Py.int_half (num_rows r))
                 (place_vert (Py.int_half (num_cols r))
                    (show_main mean_map (add_figure (screen w))))))
           (logs (visualize_ops r) w).
Proof.
  unfold cell_visualize, imshow_main, imshow_zoom, axvline, axhline.
  intros H. backwards. rebase w.
  eexists _, _, _, _, _. split_and!; try eassumption; done.
Qed.

Lemma cell_svd_Ok r s w w' :
  cell_svd r w = (Ok s, w') →
  ∃ name mode f g f',
    file_at w name mode f ∧ mode ≠ "r" ∧
    lib_compute (SVD (usid_path (h5_main r)) 256) f = (Ok g, f') ∧
    s = {| h5_u := g ++ ["U"]; h5_v := g ++ ["V"]; h5_s := g ++ ["S"] |} ∧
    is_Some (f' !! (g ++ ["U"])) ∧ is_Some (f' !! (g ++ ["V"])) ∧
    is_Some (f' !! (g ++ ["S"])) ∧
    w' = with_disk (<[name := f']> (disk w)) (logs (svd_ops r g) w).
Proof.
  unfold cell_svd. intros H. backwards.
  eexists _, _, _, _, _. split_and!; try eassumption; try done.
  all: match goal with
       | Hp : present ?w1 ?p |- is_Some (_ !! ?p) =>
           eapply (present_written w1); [| reflexivity | exact Hp]; apply Hfile
       end.
Qed.

Lemma cell_plot_scree_Ok s fig w w' :
  cell_plot_scree s w = (Ok fig, w') →
  w' = with_screen (add_figure (screen w)) (logs [OpPlotScree (h5_s s)] w).
Proof. unfold cell_plot_scree. intros H. backwards. done. Qed.

Lemma cell_plot_abundance_Ok r s fig w w' :
  cell_plot_abundance r s w = (Ok fig, w') →
  w' = with_screen (add_figure (screen w))
         (logs [OpRead (h5_u s); OpCmap; OpPlotMapStack "Abundance Maps" 16] w).
Proof. unfold cell_plot_abundance. intros H. backwards. done. Qed.

Lemma cell_plot_endmembers_Ok r s fig w w' :
  cell_plot_endmembers r s w = (Ok fig, w') →
  w' = with_screen (add_figure (screen w))
         (logs [OpRead (h5_v s); OpCmap; OpPlotMapStack "Endmembers" 16] w).
Proof. unfold cell_plot_endmembers. intros H. backwards. done. Qed.

Lemma cell_cluster_Ok s c w w' :
  cell_cluster s w = (Ok c, w') →
  ∃ name mode f g f' d_centroids,
    file_at w name mode f ∧ mode ≠ "r" ∧
    lib_compute (Cluster (h5_u s) (KMeans 32) 128) f = (Ok g, f') ∧
    h5_labels c = g ++ ["Labels"] ∧
    h5_centroids c = g ++ ["Mean_Response"] ∧
    is_Some (f' !! (g ++ ["Labels"])) ∧
    f' !! (g ++ ["Mean_Response"]) = Some (H5Dataset d_centroids) ∧
    shape_at (ds_array d_centroids) 1 = Ok (num_comps_for_clustering c) ∧
    w' = with_disk (<[name := f']> (disk w)) (logs (cluster_ops s g) w).
Proof.
  unfold cell_cluster. intros H. backwards.
  eexists _, _, _, _, _, _. split_and!; try eassumption; try done.
  - match goal with
    | Hp : present ?w1 ?p |- is_Some (_ !! ?p) =>
        eapply (present_written w1); [| reflexivity | exact Hp]; apply Hfile
    end.
  - match goal with
    | Hp : holds ?w1 ?p _ |- _ !! ?p = _ =>
        eapply (holds_written w1); [| reflexivity | exact Hp]; apply Hfile
    end.
Qed.

Lemma cell_plot_labels_Ok r c label_mat fig w w' :
  cell_plot_labels r c w = (Ok (label_mat, fig), w') →
  (∃ d_labels, holds w (h5_labels c) d_labels ∧
     np_reshape (ds_array d_labels) [num_rows r; num_cols r] = Ok label_mat) ∧
  fig = S (figures (screen w)) ∧
  w' = with_screen (add_figure (screen w))
         (logs [OpRead (h5_labels c); OpPlotClusterLabels 32] w).
Proof.
  unfold cell_plot_labels. intros H. backwards. rebase w. eauto.
Qed.

Lemma cell_plot_dendrogram_Ok r s c label_mat fig w w' :
  cell_plot_dendrogram r s c label_mat w = (Ok fig, w') →
  fig = S (figures (screen w)) ∧
  w' = with_screen (add_figure (screen w))
         (logs [OpRead (h5_u s);
                OpPlotClusterDendrogram (num_comps_for_clustering c) 32 32] w).
Proof.
  unfold cell_plot_dendrogram. intros H. backwards. done.
Qed.

Lemma cell_close_Ok h u w w' :
  cell_close h w = (Ok u, w') → w' = with_handle None (logs [OpFileClose] w).
Proof. unfold cell_close. intros H. backwards. done. Qed.


(** A run that reaches the end went through every cell. *)
Lemma notebook_Ok w g w' :
  notebook w = (Ok g, w') →
  ∃ f0 f1 f2 gs gk d_raw d_mean d_labels d_centroids row zoom mean_map label_mat,
    complete_run w g w' f0 f1 f2 gs gk d_raw d_mean d_labels d_centroids
      row zoom mean_map label_mat.
Proof.
  unfold notebook. intros H.
  peel H. apply cell_install_Ok in Hstep as ->.
  peel H. apply cell_imports_Ok in Hstep as ->.
  peel H. apply cell_open_Ok in Hstep as (Hname & [f0 Hf0] & ->).
  peel H. rename a1 into name, a2 into r.
  apply cell_get_raw_Ok in Hstep
    as ((n & m & f & d_raw & [Hh Hd] & Hlast & Hraw & Hdims & [? ?] & [? ?]) & ->).
  cbn in Hh, Hd, Hf0. injection Hh as <- <-. rewrite Hf0 in Hd. injection Hd as <-.
  peel H.
  apply cell_visualize_Ok in Hstep
    as (d1 & row & zoom & d_mean & mean_map & Hraw' & Hrow & Hzoom & Hmean & Hmm & _ & ->).
  eapply holds_lookup in Hraw'; [| reflexivity | exact Hf0].
  eapply holds_lookup in Hmean; [| reflexivity | exact Hf0].
  rewrite Hraw in Hraw'. injection Hraw' as <-.
  peel H. rename a2 into s.
  apply cell_svd_Ok in Hstep
    as (n1 & m1 & fa & gs & f1 & [Hh1 Hd1] & _ & Hsvd & -> & Hu & Hv & Hs & ->).
  cbn in Hh1, Hd1. injection Hh1 as <- <-. rewrite Hf0 in Hd1. injection Hd1 as <-.
  peel H. apply cell_plot_scree_Ok in Hstep as ->.
  peel H. apply cell_plot_abundance_Ok in Hstep as ->.
  peel H. apply cell_plot_endmembers_Ok in Hstep as ->.
  peel H. rename a5 into c.
  apply cell_cluster_Ok in Hstep
    as (n2 & m2 & fb & gk & f2 & d_c & [Hh2 Hd2] & _ & Hcl & Hln & Hcn & Hl & Hc & Hnc & ->).
  cbn in Hh2, Hd2. injection Hh2 as <- <-.
  rewrite lookup_insert_eq in Hd2. injection Hd2 as <-.
  peel H. destruct a5 as [label_mat fig5].
  apply cell_plot_labels_Ok in Hstep as ((d_l & Hhl & Hlm) & _ & ->).
  eapply holds_lookup in Hhl; [| reflexivity | cbn; apply lookup_insert_eq].
  peel H. apply cell_plot_dendrogram_Ok in Hstep as [-> ->].
  peel H. apply cell_close_Ok in Hstep as ->.
  apply ret_Ok in H as [-> ->].
  exists f0, f1, f2, gs, gk, d_raw, d_mean, d_l, d_c, row, zoom, mean_map, label_mat.
  constructor; cbn; try done.
  - by rewrite <- Hln.
  - apply insert_insert_eq.
  - rewrite <- !app_assoc. reflexivity.
Qed.

End Cells.

(** ** The order of the calls does not depend on the data *)

Section Linear.

Context {num : Type} `{L : Library num}.

Implicit Types w : world num.

Lemma linear_bind {A B} (m : M num A) (k : A → M num B) s1 s2 s :
  linear m s1 → (∀ a, linear (k a) s2) → s = s1 ++ s2 → linear (m ≫= k) s.
Proof.
  intros Hm Hk -> w. destruct (Hm w) as (ops1 & Ht1 & Hs1).
  unfold mbind, M_bind. destruct (m w) as [[a | e] w1]; cbn in *.
  - destruct (Hk a w1) as (ops2 & Ht2 & Hs2). exists (ops1 ++ ops2).
    rewrite Ht2, Ht1, <- app_assoc, fmap_app. split; [done |].
    destruct (k a w1).1; rewrite <- Hs1.
    + by rewrite Hs2.
    + by apply prefix_app.
  - exists ops1. split; [done |]. by apply prefix_app_r.
Qed.

Lemma linear_silent {A} (m : M num A) :
  (∀ w, trace (m w).2 = trace w) → linear m [].
Proof.
  intros Hm w. exists []. rewrite app_nil_r. split; [apply Hm |].
  by destruct (m w).1.
Qed.

Lemma linear_ret {A} (a : A) : linear (mret (M := M num) a) [].
Proof. by apply linear_silent. Qed.

Lemma linear_lift {A} (o : outcome A) : linear (lift (num := num) o) [].
Proof. by apply linear_silent. Qed.

Lemma linear_emit o n : call_name o = n → linear (emit (num := num) o) [n].
Proof. intros <- w. by exists [o]. Qed.

Lemma linear_external o n : call_name o = n → linear (external o) [n].
Proof.
  intros <- w. exists [o]. unfold external, effect.
  destruct (lib_raises o w); cbn; (split; [done |]); [by exists [] | done].
Qed.

Lemma linear_update_screen f : linear (update_screen (num := num) f) [].
Proof. by apply linear_silent. Qed.

Lemma linear_current_file : linear (current_file (num := num)) [].
Proof.
  apply linear_silent. intros w. unfold current_file, effect.
  by repeat case_match.
Qed.

Lemma linear_deref ds : linear (deref (num := num) ds) [].
Proof.
  unfold deref. eapply linear_bind; [apply linear_current_file | | done].
  intros f. repeat case_match; apply linear_lift || apply linear_ret.
Qed.

Lemma linear_sched {A} (m : M num A) s s' : linear m s' → s' = s → linear m s.
Proof. by intros H <-. Qed.

End Linear.

Create HintDb linear.

#[export] Hint Resolve linear_ret linear_lift linear_update_screen
  linear_current_file linear_deref : linear.

(** Decompose a straight-line program into its calls; the schedule of the
    goal is still to be determined. *)
Ltac straight :=
  repeat first
    [ match goal with
      | |- linear (emit ?o) _ =>
          let n := eval cbv in (call_name o) in exact (linear_emit o n eq_refl)
      | |- linear (external ?o) _ =>
          let n := eval cbv in (call_name o) in exact (linear_external o n eq_refl)
      end
    | solve [auto 1 with linear]
    | eapply linear_bind; [| intros ? | reflexivity]
    | match goal with
      | |- linear (let '(_, _) := ?x in _) _ => destruct x
      | |- linear (match ?x with _ => _ end) _ => destruct x
      end
    | solve [apply linear_silent; intros ?; unfold effect; cbn;
             repeat case_match; reflexivity] ].

Ltac scheduled := eapply linear_sched; [straight | reflexivity].

Section LinearCells.

Context {num : Type} `{L : Library num}.

Lemma linear_new_figure o n : call_name o = n → linear (new_figure o) [n].
Proof.
  intros <-. unfold new_figure.
  eapply linear_bind; [by apply linear_external | intros ? | reflexivity].
  by apply linear_silent.
Qed.

Lemma linear_file_dialog : linear file_dialog ["px.io_utils.file_dialog"].
Proof. unfold file_dialog. scheduled. Qed.

Lemma linear_h5py_File name mode : linear (h5py_File (num := num) name mode) ["h5py.File"].
Proof. unfold h5py_File. scheduled. Qed.

Lemma linear_h5_close h : linear (h5_close (num := num) h) ["h5_file.close"].
Proof. unfold h5_close. scheduled. Qed.

Lemma linear_find_dataset h name :
  linear (find_dataset h name) ["usid.hdf_utils.find_dataset"].
Proof. unfold find_dataset. scheduled. Qed.

Lemma linear_USIDataset ds : linear (USIDataset ds) ["usid.USIDataset"].
Proof. unfold USIDataset. scheduled. Qed.

Lemma linear_group_getitem grp name : linear (group_getitem (num := num) grp name) ["group[name]"].
Proof. unfold group_getitem. scheduled. Qed.

Lemma linear_read_item ds i : linear (read_item (num := num) ds i) ["dataset read"].
Proof. unfold read_item. scheduled. Qed.

Lemma linear_read_all ds : linear (read_all (num := num) ds) ["dataset read"].
Proof. unfold read_all. scheduled. Qed.

Lemma linear_read_cols ds k : linear (read_cols (num := num) ds k) ["dataset read"].
Proof. unfold read_cols. scheduled. Qed.

Lemma linear_read_rows ds k : linear (read_rows (num := num) ds k) ["dataset read"].
Proof. unfold read_rows. scheduled. Qed.

Lemma linear_ds_shape_at ds i : linear (ds_shape_at (num := num) ds i) ["dataset read"].
Proof. unfold ds_shape_at. scheduled. Qed.

Lemma linear_compute p : linear (compute p) ["proc.compute"].
Proof. unfold compute. scheduled. Qed.

End LinearCells.

Ltac figures :=
  match goal with
  | |- linear (new_figure ?o) _ =>
      let n := eval cbv in (call_name o) in exact (linear_new_figure o n eq_refl)
  end.

#[export] Hint Resolve linear_file_dialog linear_h5py_File linear_compute
  linear_h5_close linear_find_dataset linear_USIDataset linear_group_getitem
  linear_read_item linear_read_all linear_read_cols linear_read_rows
  linear_ds_shape_at : linear.

(** Membership in an explicit list of calls, decided entry by entry. *)
Ltac scan H :=
  repeat (apply elem_of_cons in H as [H | H];
          [first [discriminate H | by simplify_eq] |]);
  by apply elem_of_nil in H.

Section LinearNotebook.

Context {num : Type} `{L : Library num}.

(** Whatever the libraries do and whatever the world holds, the calls of a
    run are the calls of [schedule], in that order, up to the point where
    the run ends. *)
Lemma notebook_linear : linear notebook schedule.
Proof.
  unfold notebook, cell_install, cell_imports, cell_open, cell_get_raw,
    cell_visualize, cell_svd, cell_plot_scree, cell_plot_abundance,
    cell_plot_endmembers, cell_cluster, cell_plot_labels, cell_plot_dendrogram,
    cell_close, imshow_main, imshow_zoom, axvline, axhline, init.
  eapply linear_sched; [repeat first [progress straight | figures] | reflexivity].
Qed.





End LinearNotebook.

(** ** What a run leaves on disk *)

Section Frame.

Context {num : Type} `{L : Library num}.

Implicit Types w : world num.

Lemma grows_refl w : grows w w.
Proof. intros name f Hf. by exists f. Qed.

Lemma grows_trans w1 w2 w3 : grows w1 w2 → grows w2 w3 → grows w1 w3.
Proof.
  intros H12 H23 name f Hf.
  destruct (H12 name f Hf) as (f2 & Hf2 & Hsub2).
  destruct (H23 name f2 Hf2) as (f3 & Hf3 & Hsub3).
  exists f3. split; [done |]. by etrans.
Qed.

Lemma keeps_bind {A B} (m : M num A) (k : A → M num B) :
  keeps m → (∀ a, keeps (k a)) → keeps (m ≫= k).
Proof.
  intros Hm Hk w. specialize (Hm w). unfold mbind, M_bind.
  destruct (m w) as [[a | e] w1]; cbn in *; [| done].
  eapply grows_trans; [exact Hm | apply Hk].
Qed.

Lemma keeps_same_disk {A} (m : M num A) :
  (∀ w, disk (m w).2 = disk w) → keeps m.
Proof. intros Hm w name f Hf. exists f. by rewrite Hm. Qed.

Lemma keeps_compute p : adds_only → keeps (compute p).
Proof.
  intros Hadd. unfold compute. apply keeps_bind; [by apply keeps_same_disk |].
  intros _ w name f Hf. unfold effect.
  destruct (handle w) as [[file mode] |]; [| by exists f].
  destruct (String.eqb mode "r"); [by exists f |].
  destruct (disk w !! file) as [f0 |] eqn:Hfile; [| by exists f].
  specialize (Hadd p f0). destruct (lib_compute p f0) as [res f1]. cbn in *.
  destruct (decide (file = name)) as [-> | Hne].
  - exists f1. rewrite lookup_insert_eq. by simplify_eq.
  - exists f. by rewrite lookup_insert_ne.
Qed.

End Frame.

(** Steps other than [compute] leave the disk as it is. *)
Ltac same_disk :=
  apply keeps_same_disk; intros ?;
  unfold new_figure, file_dialog, h5py_File, h5_close, find_dataset, USIDataset,
    group_getitem, read_item, read_all, read_cols, read_rows, ds_shape_at, init,
    deref, current_file, external, emit, update_screen, lift, raise, effect,
    mbind, M_bind, mret, M_ret;
  cbn; repeat case_match; simplify_eq; reflexivity.

Ltac framed Hadd :=
  repeat match goal with
    | |- keeps (_ ≫= _) => apply keeps_bind; [| intros ?]
    | |- keeps (let '(_, _) := ?x in _) => destruct x
    | |- keeps (match ?x with _ => _ end) => destruct x
    | |- keeps (compute _) => apply keeps_compute; exact Hadd
    | |- keeps _ => solve [same_disk]
    | |- keeps _ =>
        progress unfold USIDataset, read_item, read_all, read_cols, read_rows,
          ds_shape_at, deref
    end.

Section FrameNotebook.

Context {num : Type} `{L : Library num}.

(** No step of the notebook removes or alters an object of a file, provided
    the two computations only add. *)
Lemma notebook_keeps : adds_only → keeps notebook.
Proof.
  intros Hadd.
  unfold notebook, cell_install, cell_imports, cell_open, cell_get_raw,
    cell_visualize, cell_svd, cell_plot_scree, cell_plot_abundance,
    cell_plot_endmembers, cell_cluster, cell_plot_labels, cell_plot_dendrogram,
    cell_close, imshow_main, imshow_zoom, axvline, axhline.
  framed Hadd.
Qed.

End FrameNotebook.

(** * The click callback *)

Section Callback.

Context {num : Type} `{L : Library num}.

Implicit Types w : world num.

(** What a click inside the map does when the callback returns: the
    crosshair moves to the rounded data coordinates and the zoomed panel shows
    the ronchigram at index [row * num_rows + col]. *)
Lemma move_zoom_box_shows r fig ev w w' :
  lib_in_axes w ev = true →
  move_zoom_box r fig ev w = (Ok tt, w') →
  ∃ x y d zoom,
    ev_xdata ev = Some x ∧ ev_ydata ev = Some y ∧
    holds w (usid_path (h5_main r)) d ∧
    ronchigram_at r (ds_array d) (Py.round y * num_rows r + Py.round x) = Ok zoom ∧
    img_zoom (screen w') = Some zoom ∧
    main_vert_line (screen w') = Some (Py.round x) ∧
    main_hor_line (screen w') = Some (Py.round y) ∧
    main_map (screen w') = main_map (screen w).
Proof.
  intros Hin. unfold move_zoom_box, in_axes, set_xdata, set_ydata, set_data,
    canvas_draw.
  intros H. peel H. unfold effect in Hstep. injection Hstep as <- <-.
  rewrite Hin in H. cbn in H.
  destruct (ev_xdata ev) as [x |] eqn:Hx; [| by apply bind_Ok in H as (? & ? & [? _]%lift_Ok & _)].
  destruct (ev_ydata ev) as [y |] eqn:Hy;
    [| by apply bind_Ok in H as (? & ? & _ & (? & ? & [? _]%lift_Ok & _)%bind_Ok)].
  backwards. rebase w. cbn in *. simplify_eq.
  match goal with
  | E : np_reshape _ _ = Ok ?zoom |- _ => exists x, y, d, zoom
  end.
  split_and!; try done.
  unfold ronchigram_at. by rewrite Hread.
Qed.

(** On a square scan grid the index the callback uses is the clicked
    position. *)
Lemma square_grid_position r row col :
  num_rows r = num_cols r →
  row * num_rows r + col = clicked_position r row col.
Proof. unfold clicked_position. by intros ->. Qed.

End Callback.

(** C1, evaluated on the 2 x 3 scan: the click at data coordinates x = 0,
    y = 1 lies inside the mean-response map and rounds to row 1, column 0,
    whose row-major position in the 2 x 3 grid is 3.  The callback returns
    and leaves in the zoomed panel the ronchigram of position 2 (the index
    [row * num_rows + col]), which is not the ronchigram of position 3. *)
Theorem C1_click_shows_other_position :
  lib_in_axes Toy.viewing Toy.click_row1_col0 = true ∧
  Py.int_round (ev_ydata Toy.click_row1_col0) = Ok 1 ∧
  Py.int_round (ev_xdata Toy.click_row1_col0) = Ok 0 ∧
  clicked_position Toy.raw_bound 1 0 = 3 ∧
  ronchigram_at Toy.raw_bound Toy.raw_matrix (clicked_position Toy.raw_bound 1 0)
    = Ok (mk_array [2; 2] [30; 31; 32; 33]) ∧
  ronchigram_at Toy.raw_bound Toy.raw_matrix 2
    = Ok (mk_array [2; 2] [20; 21; 22; 23]) ∧
  ∃ w', move_zoom_box Toy.raw_bound 1 Toy.click_row1_col0 Toy.viewing = (Ok tt, w') ∧
        img_zoom (screen w') = Some (mk_array [2; 2] [20; 21; 22; 23]) ∧
        main_hor_line (screen w') = Some 1 ∧
        main_vert_line (screen w') = Some 0.
Proof.
  split_and!; try (vm_compute; reflexivity).
  exists (move_zoom_box Toy.raw_bound 1 Toy.click_row1_col0 Toy.viewing).2.
  split_and!; [apply run_eq | ..]; vm_compute; reflexivity.
Qed.

(** Once the file is closed the callback can no longer read it: a click
    inside the map moves the crosshair, then the read raises and the zoomed
    panel keeps the ronchigram it showed. *)
Remark click_after_close :
  (move_zoom_box Toy.raw_bound 6 Toy.click_row1_col0 (notebook Toy.start).2).1
    = Raise ValueError ∧
  img_zoom (screen (move_zoom_box Toy.raw_bound 6 Toy.click_row1_col0
                      (notebook Toy.start).2).2)
    = Some (mk_array [2; 2] [30; 31; 32; 33]).
Proof. split; vm_compute; reflexivity. Qed.

(** C9: a button press outside the axes of the mean-response map makes the
    callback return at once; nothing of the world changes, so the crosshair
    lines and the zoomed image stay as they were. *)
Theorem C9_click_outside_changes_nothing {num : Type} `{L : Library num}
    (r : raw_info) (fig : nat) (ev : mouse_event) (w : world num) :
  lib_in_axes w ev = false →
  move_zoom_box r fig ev w = (Ok tt, w).
Proof.
  intros Hout. unfold move_zoom_box, in_axes.
  erewrite bind_step; [| reflexivity]. by rewrite Hout.
Qed.

Lemma C9_click_outside_witness :
  lib_in_axes Toy.viewing Toy.click_outside = false ∧
  move_zoom_box Toy.raw_bound 1 Toy.click_outside Toy.viewing = (Ok tt, Toy.viewing).
Proof.
  split; [vm_compute; reflexivity |].
  apply (C9_click_outside_changes_nothing (L := Toy.library)).
  vm_compute. reflexivity.
Defined.


(** * Complete runs *)

(** Unpack what is known of a run that reached the end. *)
Ltac complete_run H :=
  apply notebook_Ok in H
    as (f0 & f1 & f2 & gs & gk & d_raw & d_mean & d_labels & d_centroids
        & row & zoom & mean_map & label_mat & H);
  destruct H.

(** C2: in a run that reaches its end, the SVD routine was constructed over
    the raw dataset (the last 'Raw_Data' dataset of the opened file, a USID
    main dataset) with 256 components and computed; the group [gs] it
    returned holds members 'U', 'V' and 'S', which the notebook fetched in
    that order, bound to [h5_u], [h5_v] and [h5_s], and used afterwards. *)
Theorem C2_svd_call_and_members {num : Type} `{L : Library num}
    (w : world num) (g : globals) (w' : world num) :
  notebook w = (Ok g, w') →
  ∃ f0 f1 gs d_raw before after,
    disk w !! h5_file g = Some f0 ∧
    list.last (lib_find_dataset f0 "Raw_Data") = Some (raw_path g) ∧
    f0 !! raw_path g = Some (H5Dataset d_raw) ∧
    is_Some (ds_usid d_raw) ∧
    lib_compute (SVD (raw_path g) 256) f0 = (Ok gs, f1) ∧
    trace w' = trace w ++ before
               ++ [OpInit (SVD (raw_path g) 256); OpCompute (SVD (raw_path g) 256);
                   OpGetItem gs "U"; OpGetItem gs "V"; OpGetItem gs "S"]
               ++ after ∧
    svd g = {| h5_u := gs ++ ["U"]; h5_v := gs ++ ["V"]; h5_s := gs ++ ["S"] |} ∧
    is_Some (f1 !! (gs ++ ["U"])) ∧
    is_Some (f1 !! (gs ++ ["V"])) ∧
    is_Some (f1 !! (gs ++ ["S"])) ∧
    OpPlotScree (gs ++ ["S"]) ∈ after ∧
    OpRead (gs ++ ["U"]) ∈ after ∧
    OpRead (gs ++ ["V"]) ∈ after.
Proof.
  intros H. complete_run H.
  exists f0, f1, gs, d_raw.
  exists (install_ops ++ imports_ops ++ open_ops (h5_file g)
          ++ get_raw_ops (raw_path g) ++ visualize_ops (raw g)).
  exists (svd_plot_ops (svd g) ++ cluster_ops (svd g) gk
          ++ cluster_plot_ops (svd g) (clusters g) ++ [OpFileClose]).
  assert (Hnames : svd_plot_ops (svd g) =
                   [OpPlotScree (gs ++ ["S"]);
                    OpRead (gs ++ ["U"]); OpCmap; OpPlotMapStack "Abundance Maps" 16;
                    OpRead (gs ++ ["V"]); OpCmap; OpPlotMapStack "Endmembers" 16])
    by (by rewrite run_svd_names0).
  split_and!;
    try match goal with
      | |- is_Some (ds_usid _) => by rewrite run_dims0
      | |- trace _ = _ =>
          rewrite run_trace0; unfold notebook_ops, before_close, svd_ops, raw_path;
          by rewrite <- !app_assoc
      | |- _ ∈ _ => rewrite Hnames; set_solver
      | |- _ => done
      end.
Qed.

Lemma C2_svd_witness :
  notebook Toy.start = (Ok Toy.bound, (notebook Toy.start).2) ∧
  ∃ f0 f1 gs d_raw before after,
    disk Toy.start !! h5_file Toy.bound = Some f0 ∧
    list.last (lib_find_dataset f0 "Raw_Data") = Some (raw_path Toy.bound) ∧
    f0 !! raw_path Toy.bound = Some (H5Dataset d_raw) ∧
    is_Some (ds_usid d_raw) ∧
    lib_compute (SVD (raw_path Toy.bound) 256) f0 = (Ok gs, f1) ∧
    trace (notebook Toy.start).2 = trace Toy.start ++ before
               ++ [OpInit (SVD (raw_path Toy.bound) 256);
                   OpCompute (SVD (raw_path Toy.bound) 256);
                   OpGetItem gs "U"; OpGetItem gs "V"; OpGetItem gs "S"]
               ++ after ∧
    svd Toy.bound
      = {| h5_u := gs ++ ["U"]; h5_v := gs ++ ["V"]; h5_s := gs ++ ["S"] |} ∧
    is_Some (f1 !! (gs ++ ["U"])) ∧
    is_Some (f1 !! (gs ++ ["V"])) ∧
    is_Some (f1 !! (gs ++ ["S"])) ∧
    OpPlotScree (gs ++ ["S"]) ∈ after ∧
    OpRead (gs ++ ["U"]) ∈ after ∧
    OpRead (gs ++ ["V"]) ∈ after.
Proof.
  assert (Hrun : notebook Toy.start = (Ok Toy.bound, (notebook Toy.start).2))
    by (apply run_eq; vm_compute; reflexivity).
  split; [exact Hrun |].
  exact (C2_svd_call_and_members Toy.start Toy.bound (notebook Toy.start).2 Hrun).
Defined.

(** C3: in a run that reaches its end, k-means with 32 clusters was handed
    to the clustering routine over the SVD dataset 'U' with [num_comps = 128]
    (the first 128 components) and computed; the group [gk] it returned holds
    'Labels' and 'Mean_Response', which the notebook fetched and read.
    'Labels' holds one value per scan position and was reshaped to
    rows x columns. *)
Theorem C3_cluster_call_and_members {num : Type} `{L : Library num}
    (w : world num) (g : globals) (w' : world num) :
  notebook w = (Ok g, w') →
  ∃ f1 f2 gs gk d_labels d_centroids before after,
    h5_u (svd g) = gs ++ ["U"] ∧
    is_Some (f1 !! (gs ++ ["U"])) ∧
    lib_compute (Cluster (gs ++ ["U"]) (KMeans 32) 128) f1 = (Ok gk, f2) ∧
    trace w' = trace w ++ before
               ++ [OpInit (Cluster (gs ++ ["U"]) (KMeans 32) 128);
                   OpCompute (Cluster (gs ++ ["U"]) (KMeans 32) 128);
                   OpGetItem gk "Labels"; OpGetItem gk "Mean_Response"]
               ++ after ∧
    h5_labels (clusters g) = gk ++ ["Labels"] ∧
    h5_centroids (clusters g) = gk ++ ["Mean_Response"] ∧
    f2 !! (gk ++ ["Labels"]) = Some (H5Dataset d_labels) ∧
    f2 !! (gk ++ ["Mean_Response"]) = Some (H5Dataset d_centroids) ∧
    size (ds_array d_labels) = num_rows (raw g) * num_cols (raw g) ∧
    np_reshape (ds_array d_labels) [num_rows (raw g); num_cols (raw g)]
      = Ok (mk_array [num_rows (raw g); num_cols (raw g)] (flat (ds_array d_labels))) ∧
    OpRead (gk ++ ["Labels"]) ∈ after ∧
    OpRead (gk ++ ["Mean_Response"]) ∈ after.
Proof.
  intros H. complete_run H.
  destruct (np_reshape_2d _ _ _ _ run_rows0 run_cols0 run_label_mat0) as [-> Hsize].
  exists f1, f2, gs, gk, d_labels, d_centroids.
  exists (install_ops ++ imports_ops ++ open_ops (h5_file g)
          ++ get_raw_ops (raw_path g) ++ visualize_ops (raw g)
          ++ svd_ops (raw g) gs ++ svd_plot_ops (svd g)).
  exists ([OpRead (gk ++ ["Mean_Response"])]
          ++ cluster_plot_ops (svd g) (clusters g) ++ [OpFileClose]).
  assert (Hu : h5_u (svd g) = gs ++ ["U"]) by (by rewrite run_svd_names0).
  split_and!;
    try match goal with
      | |- trace _ = _ =>
          rewrite run_trace0; unfold notebook_ops, before_close, cluster_ops;
          rewrite Hu; by rewrite <- !app_assoc
      | |- _ ∈ _ => unfold cluster_plot_ops; rewrite run_labels_name0; set_solver
      | |- _ => done
      end.
Qed.

Lemma C3_cluster_witness :
  notebook Toy.start = (Ok Toy.bound, (notebook Toy.start).2) ∧
  ∃ f1 f2 gs gk d_labels d_centroids before after,
    h5_u (svd Toy.bound) = gs ++ ["U"] ∧
    is_Some (f1 !! (gs ++ ["U"])) ∧
    lib_compute (Cluster (gs ++ ["U"]) (KMeans 32) 128) f1 = (Ok gk, f2) ∧
    trace (notebook Toy.start).2 = trace Toy.start ++ before
               ++ [OpInit (Cluster (gs ++ ["U"]) (KMeans 32) 128);
                   OpCompute (Cluster (gs ++ ["U"]) (KMeans 32) 128);
                   OpGetItem gk "Labels"; OpGetItem gk "Mean_Response"]
               ++ after ∧
    h5_labels (clusters Toy.bound) = gk ++ ["Labels"] ∧
    h5_centroids (clusters Toy.bound) = gk ++ ["Mean_Response"] ∧
    f2 !! (gk ++ ["Labels"]) = Some (H5Dataset d_labels) ∧
    f2 !! (gk ++ ["Mean_Response"]) = Some (H5Dataset d_centroids) ∧
    size (ds_array d_labels) = num_rows (raw Toy.bound) * num_cols (raw Toy.bound) ∧
    np_reshape (ds_array d_labels) [num_rows (raw Toy.bound); num_cols (raw Toy.bound)]
      = Ok (mk_array [num_rows (raw Toy.bound); num_cols (raw Toy.bound)]
              (flat (ds_array d_labels))) ∧
    OpRead (gk ++ ["Labels"]) ∈ after ∧
    OpRead (gk ++ ["Mean_Response"]) ∈ after.
Proof.
  assert (Hrun : notebook Toy.start = (Ok Toy.bound, (notebook Toy.start).2))
    by (apply run_eq; vm_compute; reflexivity).
  split; [exact Hrun |].
  exact (C3_cluster_call_and_members Toy.start Toy.bound (notebook Toy.start).2 Hrun).
Defined.

Ltac pick :=
  repeat first [apply sublist_nil | apply sublist_skip | apply sublist_cons].

(** C4: in a run that reaches its end the handle is released, and the
    explicit close is the last call of the run: opening the file, fetching
    the raw dataset, SVD, clustering and every plotting call come before it,
    in this order, and nothing comes after it. *)
Theorem C4_close_is_last {num : Type} `{L : Library num}
    (w : world num) (g : globals) (w' : world num) :
  notebook w = (Ok g, w') →
  handle w' = None ∧
  ∃ gs gk,
    trace w' = trace w ++ before_close g gs gk ++ [OpFileClose] ∧
    (OpFileClose ∉ before_close g gs gk) ∧
    [OpFileOpen (h5_file g) "r+"; OpFindDataset "Raw_Data"; OpUSIDataset (raw_path g);
     OpSubplots; OpImshow 0; OpImshow 1;
     OpCompute (SVD (raw_path g) 256);
     OpPlotScree (h5_s (svd g));
     OpPlotMapStack "Abundance Maps" 16; OpPlotMapStack "Endmembers" 16;
     OpCompute (Cluster (h5_u (svd g)) (KMeans 32) 128);
     OpPlotClusterLabels 32;
     OpPlotClusterDendrogram (num_comps_for_clustering (clusters g)) 32 32]
      `sublist_of` before_close g gs gk.
Proof.
  intros H. complete_run H. split; [done |]. exists gs, gk.
  split_and!.
  - by rewrite run_trace0.
  - intros Hin. unfold before_close in Hin. cbn in Hin. scan Hin.
  - unfold before_close. cbn. pick.
Qed.

Lemma C4_close_witness :
  notebook Toy.start = (Ok Toy.bound, (notebook Toy.start).2) ∧
  handle (notebook Toy.start).2 = None ∧
  ∃ gs gk,
    trace (notebook Toy.start).2
      = trace Toy.start ++ before_close Toy.bound gs gk ++ [OpFileClose] ∧
    (OpFileClose ∉ before_close Toy.bound gs gk) ∧
    [OpFileOpen (h5_file Toy.bound) "r+"; OpFindDataset "Raw_Data";
     OpUSIDataset (raw_path Toy.bound);
     OpSubplots; OpImshow 0; OpImshow 1;
     OpCompute (SVD (raw_path Toy.bound) 256);
     OpPlotScree (h5_s (svd Toy.bound));
     OpPlotMapStack "Abundance Maps" 16; OpPlotMapStack "Endmembers" 16;
     OpCompute (Cluster (h5_u (svd Toy.bound)) (KMeans 32) 128);
     OpPlotClusterLabels 32;
     OpPlotClusterDendrogram (num_comps_for_clustering (clusters Toy.bound)) 32 32]
      `sublist_of` before_close Toy.bound gs gk.
Proof.
  assert (Hrun : notebook Toy.start = (Ok Toy.bound, (notebook Toy.start).2))
    by (apply run_eq; vm_compute; reflexivity).
  split; [exact Hrun |].
  exact (C4_close_is_last Toy.start Toy.bound (notebook Toy.start).2 Hrun).
Defined.

(** C8: in a run that reaches its end, the left panel shows the dataset
    stored in the file as 'Spectroscopic_Mean' next to the raw dataset: its
    values as they are stored, one per scan position, laid out as rows x
    columns.  The notebook fetches and reads that dataset right before the
    image is drawn; the values shown do not depend on the raw data. *)
Theorem C8_left_panel_shows_stored_mean {num : Type} `{L : Library num}
    (w : world num) (g : globals) (w' : world num) :
  notebook w = (Ok g, w') →
  ∃ f0 d_mean before after,
    disk w !! h5_file g = Some f0 ∧
    f0 !! (parent (raw_path g) ++ ["Spectroscopic_Mean"]) = Some (H5Dataset d_mean) ∧
    main_map (screen w')
      = Some (mk_array [num_rows (raw g); num_cols (raw g)] (flat (ds_array d_mean))) ∧
    size (ds_array d_mean) = num_rows (raw g) * num_cols (raw g) ∧
    trace w' = trace w ++ before
               ++ [OpGetItem (parent (raw_path g)) "Spectroscopic_Mean";
                   OpRead (parent (raw_path g) ++ ["Spectroscopic_Mean"]);
                   OpCmap; OpImshow 0]
               ++ after.
Proof.
  intros H. complete_run H.
  destruct (np_reshape_2d _ _ _ _ run_rows0 run_cols0 run_mean_map0) as [-> Hsize].
  exists f0, d_mean.
  exists (install_ops ++ imports_ops ++ open_ops (h5_file g)
          ++ get_raw_ops (raw_path g)
          ++ [OpRead (raw_path g); OpSubplots; OpHold 0; OpSetTitle 0 "Mean Response"]).
  eexists. split_and!; [done | done | by rewrite run_screen0 | done |].
  rewrite run_trace0. unfold notebook_ops, before_close, visualize_ops, raw_path.
  rewrite <- !app_assoc. cbn. reflexivity.
Qed.

Lemma C8_left_panel_witness :
  notebook Toy.start = (Ok Toy.bound, (notebook Toy.start).2) ∧
  ∃ f0 d_mean before after,
    disk Toy.start !! h5_file Toy.bound = Some f0 ∧
    f0 !! (parent (raw_path Toy.bound) ++ ["Spectroscopic_Mean"])
      = Some (H5Dataset d_mean) ∧
    main_map (screen (notebook Toy.start).2)
      = Some (mk_array [num_rows (raw Toy.bound); num_cols (raw Toy.bound)]
                (flat (ds_array d_mean))) ∧
    size (ds_array d_mean) = num_rows (raw Toy.bound) * num_cols (raw Toy.bound) ∧
    trace (notebook Toy.start).2 = trace Toy.start ++ before
               ++ [OpGetItem (parent (raw_path Toy.bound)) "Spectroscopic_Mean";
                   OpRead (parent (raw_path Toy.bound) ++ ["Spectroscopic_Mean"]);
                   OpCmap; OpImshow 0]
               ++ after.
Proof.
  assert (Hrun : notebook Toy.start = (Ok Toy.bound, (notebook Toy.start).2))
    by (apply run_eq; vm_compute; reflexivity).
  split; [exact Hrun |].
  exact (C8_left_panel_shows_stored_mean Toy.start Toy.bound (notebook Toy.start).2 Hrun).
Defined.

(** C10: when the search for 'Raw_Data' returns several datasets, a run
    that reaches its end has worked on the last of them: it is the one
    upgraded to a USID dataset and the one SVD is computed on, and no other
    dataset is. *)
Theorem C10_last_raw_data_is_used {num : Type} `{L : Library num}
    (w : world num) (g : globals) (w' : world num)
    (f : gmap path (h5obj num)) (first : path) (middle : list path) (final : path) :
  notebook w = (Ok g, w') →
  disk w !! h5_file g = Some f →
  lib_find_dataset f "Raw_Data" = first :: middle ++ [final] →
  raw_path g = final ∧
  ∃ ops,
    trace w' = trace w ++ ops ∧
    OpUSIDataset final ∈ ops ∧
    OpCompute (SVD final 256) ∈ ops ∧
    (∀ ds, OpUSIDataset ds ∈ ops → ds = final) ∧
    (∀ ds n, OpCompute (SVD ds n) ∈ ops → ds = final).
Proof.
  intros H Hfile Hfound. complete_run H.
  rewrite run_opened0 in Hfile. injection Hfile as <-.
  assert (Hraw : raw_path g = final).
  { rewrite Hfound, app_comm_cons, last_snoc in run_found0. congruence. }
  split; [done |]. exists (notebook_ops g gs gk). rewrite <- Hraw.
  split_and!; [done | | | |].
  - by apply (list_elem_of_lookup_2 _ 10).
  - by apply (list_elem_of_lookup_2 _ 26).
  - intros ds Hin. unfold notebook_ops, before_close in Hin. cbn in Hin. scan Hin.
  - intros ds n Hin. unfold notebook_ops, before_close in Hin. cbn in Hin. scan Hin.
Qed.

Lemma C10_last_raw_data_witness :
  notebook Toy.start = (Ok Toy.bound, (notebook Toy.start).2) ∧
  disk Toy.start !! h5_file Toy.bound = Some Toy.stem_file ∧
  lib_find_dataset Toy.stem_file "Raw_Data" = Toy.raw_old :: [] ++ [Toy.raw_new] ∧
  raw_path Toy.bound = Toy.raw_new ∧
  ∃ ops,
    trace (notebook Toy.start).2 = trace Toy.start ++ ops ∧
    OpUSIDataset Toy.raw_new ∈ ops ∧
    OpCompute (SVD Toy.raw_new 256) ∈ ops ∧
    (∀ ds, OpUSIDataset ds ∈ ops → ds = Toy.raw_new) ∧
    (∀ ds n, OpCompute (SVD ds n) ∈ ops → ds = Toy.raw_new).
Proof.
  assert (Hrun : notebook Toy.start = (Ok Toy.bound, (notebook Toy.start).2))
    by (apply run_eq; vm_compute; reflexivity).
  assert (Hfile : disk Toy.start !! h5_file Toy.bound = Some Toy.stem_file)
    by (apply lookup_singleton_eq).
  assert (Hfound : lib_find_dataset Toy.stem_file "Raw_Data"
                   = Toy.raw_old :: [] ++ [Toy.raw_new])
    by (vm_compute; reflexivity).
  split; [exact Hrun |]. split; [exact Hfile |]. split; [exact Hfound |].
  exact (C10_last_raw_data_is_used Toy.start Toy.bound (notebook Toy.start).2
           Toy.stem_file Toy.raw_old [] Toy.raw_new Hrun Hfile Hfound).
Defined.

(** ** Every run, complete or not *)

(** The toy run makes exactly the calls of the schedule. *)
Example toy_run_follows_schedule :
  call_name <$> trace (notebook Toy.start).2 = schedule.
Proof. vm_compute. reflexivity. Qed.

Lemma schedule_cluster_position (i : nat) :
  schedule !! i = Some "px.processing.Cluster" → i = 37%nat.
Proof.
  intros H. assert (Hlt : (i < 47)%nat) by (by apply lookup_lt_Some in H).
  do 47 (destruct i as [| i]; [vm_compute in H; first [discriminate H | reflexivity] |]).
  lia.
Qed.

(** In any initial segment of the schedule that has reached the
    construction of the clustering routine, the SVD routine was constructed
    and computed before. *)
Lemma cluster_after_svd (ops : list op) (i : nat) (p : process) :
  call_name <$> ops `prefix_of` schedule →
  ops !! i = Some (OpInit p) →
  call_name (OpInit p) = "px.processing.Cluster" →
  (26 < i)%nat ∧
  ∃ raw n c, ops !! 25%nat = Some (OpInit (SVD raw n)) ∧
             ops !! 26%nat = Some (OpCompute c).
Proof.
  intros [rest Hs] Hi Hname.
  assert (Hnames : ∀ j o, ops !! j = Some o → schedule !! j = Some (call_name o)).
  { intros j o Hj. rewrite Hs. apply lookup_app_l_Some.
    by rewrite list_lookup_fmap, Hj. }
  pose proof (Hnames _ _ Hi) as Hsi. rewrite Hname in Hsi.
  apply schedule_cluster_position in Hsi as ->. split; [lia |].
  apply lookup_lt_Some in Hi.
  destruct (lookup_lt_is_Some_2 ops 25) as [o25 H25]; [lia |].
  destruct (lookup_lt_is_Some_2 ops 26) as [o26 H26]; [lia |].
  pose proof (Hnames _ _ H25) as N25. pose proof (Hnames _ _ H26) as N26.
  change (schedule !! 25%nat) with (Some "px.processing.SVD") in N25.
  change (schedule !! 26%nat) with (Some "proc.compute") in N26.
  assert (∃ raw n, o25 = OpInit (SVD raw n)) as (raw & n & ->).
  { destruct o25; cbn in N25; try discriminate N25.
    match goal with
    | |- ∃ raw n, OpInit ?q = _ => destruct q; [eauto | discriminate N25]
    end. }
  assert (∃ c, o26 = OpCompute c) as (c & ->).
  { destruct o26; cbn in N26; try discriminate N26; [| eauto].
    match goal with
    | E : context [match ?q with SVD _ _ => _ | Cluster _ _ _ => _ end] |- _ =>
        destruct q; discriminate N26
    end. }
  eauto.
Qed.

(** C6: the calls of any run, whatever the libraries do, are an initial
    segment of one fixed schedule, in which the SVD routine is constructed
    and computed before the clustering routine is constructed.  In a run that
    reaches its end the two computations are the only ones; the first is the
    SVD of the raw dataset and the second is the clustering of the member 'U'
    of the group that this SVD returned. *)
Theorem C6_svd_then_cluster_on_U {num : Type} `{L : Library num}
    (w : world num) (g : globals) (w' : world num) :
  notebook w = (Ok g, w') →
  (∀ w0 : world num, ∃ ops,
      trace (notebook w0).2 = trace w0 ++ ops ∧
      call_name <$> ops `prefix_of` schedule ∧
      ∀ i p, ops !! i = Some (OpInit p) →
             call_name (OpInit p) = "px.processing.Cluster" →
             (26 < i)%nat ∧
             ∃ raw n c, ops !! 25%nat = Some (OpInit (SVD raw n)) ∧
                        ops !! 26%nat = Some (OpCompute c)) ∧
  ∃ f0 f1 f2 gs gk before between after,
    disk w !! h5_file g = Some f0 ∧
    lib_compute (SVD (raw_path g) 256) f0 = (Ok gs, f1) ∧
    is_Some (f1 !! (gs ++ ["U"])) ∧
    lib_compute (Cluster (gs ++ ["U"]) (KMeans 32) 128) f1 = (Ok gk, f2) ∧
    trace w' = trace w ++ before
               ++ [OpCompute (SVD (raw_path g) 256)] ++ between
               ++ [OpCompute (Cluster (gs ++ ["U"]) (KMeans 32) 128)] ++ after ∧
    (∀ p, OpCompute p ∉ before ++ between ++ after).
Proof.
  intros H. split.
  - intros w0. destruct (notebook_linear w0) as (ops & Htrace & Hsched).
    exists ops. split; [done |].
    assert (Hprefix : call_name <$> ops `prefix_of` schedule).
    { destruct (notebook w0).1; [by rewrite Hsched | done]. }
    split; [done |]. intros i p. by apply cluster_after_svd.
  - complete_run H. exists f0, f1, f2, gs, gk.
    exists (install_ops ++ imports_ops ++ open_ops (h5_file g)
            ++ get_raw_ops (raw_path g) ++ visualize_ops (raw g)
            ++ [OpInit (SVD (raw_path g) 256)]).
    exists ([OpGetItem gs "U"; OpGetItem gs "V"; OpGetItem gs "S"]
            ++ svd_plot_ops (svd g)
            ++ [OpInit (Cluster (gs ++ ["U"]) (KMeans 32) 128)]).
    exists ([OpGetItem gk "Labels"; OpGetItem gk "Mean_Response";
             OpRead (gk ++ ["Mean_Response"])]
            ++ cluster_plot_ops (svd g) (clusters g) ++ [OpFileClose]).
    assert (Hu : h5_u (svd g) = gs ++ ["U"]) by (by rewrite run_svd_names0).
    split_and!; [done | done | done | done | |].
    + rewrite run_trace0. unfold notebook_ops, before_close, svd_ops, cluster_ops,
        raw_path. rewrite Hu, <- !app_assoc. reflexivity.
    + intros p Hin. cbn in Hin. scan Hin.
Qed.

Lemma C6_svd_then_cluster_witness :
  notebook Toy.start = (Ok Toy.bound, (notebook Toy.start).2) ∧
  (∀ w0 : world Z, ∃ ops,
      trace (notebook w0).2 = trace w0 ++ ops ∧
      call_name <$> ops `prefix_of` schedule ∧
      ∀ i p, ops !! i = Some (OpInit p) →
             call_name (OpInit p) = "px.processing.Cluster" →
             (26 < i)%nat ∧
             ∃ raw n c, ops !! 25%nat = Some (OpInit (SVD raw n)) ∧
                        ops !! 26%nat = Some (OpCompute c)) ∧
  ∃ f0 f1 f2 gs gk before between after,
    disk Toy.start !! h5_file Toy.bound = Some f0 ∧
    lib_compute (SVD (raw_path Toy.bound) 256) f0 = (Ok gs, f1) ∧
    is_Some (f1 !! (gs ++ ["U"])) ∧
    lib_compute (Cluster (gs ++ ["U"]) (KMeans 32) 128) f1 = (Ok gk, f2) ∧
    trace (notebook Toy.start).2 = trace Toy.start ++ before
               ++ [OpCompute (SVD (raw_path Toy.bound) 256)] ++ between
               ++ [OpCompute (Cluster (gs ++ ["U"]) (KMeans 32) 128)] ++ after ∧
    (∀ p, OpCompute p ∉ before ++ between ++ after).
Proof.
  assert (Hrun : notebook Toy.start = (Ok Toy.bound, (notebook Toy.start).2))
    by (apply run_eq; vm_compute; reflexivity).
  split; [exact Hrun |].
  exact (C6_svd_then_cluster_on_U Toy.start Toy.bound (notebook Toy.start).2 Hrun).
Defined.

(** ** Failures of the libraries end the run *)

Section Propagation.

Context {num : Type} `{L : Library num}.

Implicit Types w : world num.









End Propagation.


Section PropagationNotebook.

Context {num : Type} `{L : Library num}.


End PropagationNotebook.

(** ** A run returns only if every step returned *)

Section ReturnedCells.

Context {num : Type} `{L : Library num}.

Implicit Types w : world num.





End ReturnedCells.



(** A library call that fails, at work: over a matplotlib without [hold]
    the run stops at that call, with the first figure created, nothing shown
    in it and the file left open. *)
Remark removed_hold_stops_the_run :
  let run := notebook (L := Grid.library_without_hold) Toy.start in
  run.1 = Raise (ExternalError "AttributeError") ∧
  list.last (trace run.2) = Some (OpHold 0) ∧
  figures (screen run.2) = 1%nat ∧
  main_map (screen run.2) = None ∧
  handle run.2 = Some ("stem.h5", "r+").
Proof. by vm_compute. Qed.

(** The toy SVD and k-means only add to the file. *)
Lemma toy_adds_only : adds_only (L := Toy.library).
Proof.
  intros [ ? ? | ? ? ? ] f; cbn; apply map_union_subseteq_l.
Qed.

(** C7: the file is opened once, in mode r+, which needs the file to exist
    and leaves its contents alone.  Given that the external SVD and k-means
    routines only add objects to the file they work on, no run (complete or
    not) removes or alters an object of any file; a run that reaches its end
    leaves the opened file with everything it held, the raw dataset
    included and unchanged, together with the members 'U', 'V', 'S' of the
    SVD group and 'Labels', 'Mean_Response' of the k-means group; other
    files are as they were. *)
Theorem C7_results_added_raw_kept {num : Type} `{L : Library num}
    (w : world num) (g : globals) (w' : world num) :
  adds_only →
  notebook w = (Ok g, w') →
  (∀ w0 : world num, grows w0 (notebook w0).2) ∧
  ∃ f0 f2 gs gk d_raw ops,
    trace w' = trace w ++ ops ∧
    OpFileOpen (h5_file g) "r+" ∈ ops ∧
    (∀ name mode, OpFileOpen name mode ∈ ops → name = h5_file g ∧ mode = "r+") ∧
    disk w !! h5_file g = Some f0 ∧
    disk w' = <[h5_file g := f2]> (disk w) ∧
    f0 ⊆ f2 ∧
    f0 !! raw_path g = Some (H5Dataset d_raw) ∧
    f2 !! raw_path g = Some (H5Dataset d_raw) ∧
    svd g = {| h5_u := gs ++ ["U"]; h5_v := gs ++ ["V"]; h5_s := gs ++ ["S"] |} ∧
    is_Some (f2 !! (gs ++ ["U"])) ∧
    is_Some (f2 !! (gs ++ ["V"])) ∧
    is_Some (f2 !! (gs ++ ["S"])) ∧
    h5_labels (clusters g) = gk ++ ["Labels"] ∧
    h5_centroids (clusters g) = gk ++ ["Mean_Response"] ∧
    is_Some (f2 !! (gk ++ ["Labels"])) ∧
    is_Some (f2 !! (gk ++ ["Mean_Response"])).
Proof.
  intros Hadd H. split; [intros w0; by apply notebook_keeps |].
  complete_run H.
  assert (H01 : f0 ⊆ f1).
  { pose proof (Hadd (SVD (raw_path g) 256) f0) as Hs. by rewrite run_svd0 in Hs. }
  assert (H12 : f1 ⊆ f2).
  { pose proof (Hadd (Cluster (gs ++ ["U"]) (KMeans 32) 128) f1) as Hs.
    by rewrite run_cluster0 in Hs. }
  assert (Hkept : ∀ p, is_Some (f1 !! p) → is_Some (f2 !! p)).
  { intros p [x Hx]. exists x. by eapply lookup_weaken. }
  exists f0, f2, gs, gk, d_raw, (notebook_ops g gs gk).
  split_and!;
    try match goal with
      | |- OpFileOpen _ _ ∈ _ => by apply (list_elem_of_lookup_2 _ 8)
      | |- ∀ name mode, _ ∈ _ → _ =>
          intros name mode Hin; unfold notebook_ops, before_close in Hin;
          cbn in Hin; scan Hin
      | |- f0 ⊆ f2 => by etrans
      | |- f2 !! raw_path g = _ =>
          apply (lookup_weaken f0 f2 _ _ run_raw0); by etrans
      | |- is_Some (f2 !! (gs ++ _)) => by apply Hkept
      | |- is_Some (f2 !! (gk ++ ["Labels"])) => by rewrite run_labels0
      | |- is_Some (f2 !! (gk ++ ["Mean_Response"])) => by rewrite run_centroids0
      | |- _ => done
      end.
Qed.

Lemma C7_results_added_witness :
  adds_only (L := Toy.library) ∧
  notebook Toy.start = (Ok Toy.bound, (notebook Toy.start).2) ∧
  (∀ w0 : world Z, grows w0 (notebook w0).2) ∧
  ∃ f0 f2 gs gk d_raw ops,
    trace (notebook Toy.start).2 = trace Toy.start ++ ops ∧
    OpFileOpen (h5_file Toy.bound) "r+" ∈ ops ∧
    (∀ name mode, OpFileOpen name mode ∈ ops →
                  name = h5_file Toy.bound ∧ mode = "r+") ∧
    disk Toy.start !! h5_file Toy.bound = Some f0 ∧
    disk (notebook Toy.start).2 = <[h5_file Toy.bound := f2]> (disk Toy.start) ∧
    f0 ⊆ f2 ∧
    f0 !! raw_path Toy.bound = Some (H5Dataset d_raw) ∧
    f2 !! raw_path Toy.bound = Some (H5Dataset d_raw) ∧
    svd Toy.bound
      = {| h5_u := gs ++ ["U"]; h5_v := gs ++ ["V"]; h5_s := gs ++ ["S"] |} ∧
    is_Some (f2 !! (gs ++ ["U"])) ∧
    is_Some (f2 !! (gs ++ ["V"])) ∧
    is_Some (f2 !! (gs ++ ["S"])) ∧
    h5_labels (clusters Toy.bound) = gk ++ ["Labels"] ∧
    h5_centroids (clusters Toy.bound) = gk ++ ["Mean_Response"] ∧
    is_Some (f2 !! (gk ++ ["Labels"])) ∧
    is_Some (f2 !! (gk ++ ["Mean_Response"])).
Proof.
  assert (Hrun : notebook Toy.start = (Ok Toy.bound, (notebook Toy.start).2))
    by (apply run_eq; vm_compute; reflexivity).
  split; [exact toy_adds_only |]. split; [exact Hrun |].
  exact (C7_results_added_raw_kept Toy.start Toy.bound (notebook Toy.start).2
           toy_adds_only Hrun).
Defined.

(** * Further properties of the code *)

(** ** Rounding the data coordinates of a click *)

(** [round] returns an integer that is at most one half away. *)
Lemma round_nearest (q : Q) :
  - Z.pos (Qden q) ≤ 2 * (Py.round q * Z.pos (Qden q) - Qnum q) ≤ Z.pos (Qden q).
Proof.
  unfold Py.round. destruct q as [a d]. cbn [Qnum Qden].
  pose proof (Z.div_mod a (Z.pos d) ltac:(lia)) as Hdm.
  pose proof (Z.mod_pos_bound a (Z.pos d) ltac:(lia)) as Hbound.
  set (f := a `div` Z.pos d) in *. set (r := a `mod` Z.pos d) in *.
  destruct (Z.compare_spec (2 * r) (Z.pos d)); [destruct (Z.even f) |..]; nia.
Qed.

(** X1: a data coordinate that lies within the extent of an axis of [n]
    pixels, from one half before the first pixel centre to one half after the
    last, rounds to the index of one of the [n] pixels. *)
Theorem X1_round_in_extent (q : Q) (n : Z) :
  (- (1 # 2) <= q)%Q →
  (q < inject_Z n - (1 # 2))%Q →
  0 ≤ Py.round q ≤ n - 1.
Proof.
  intros Hlo Hhi. pose proof (round_nearest q) as Hnear. revert Hnear.
  unfold Qle, Qlt in *. unfold Py.round. destruct q as [a d]. cbn in *.
  pose proof (Z.div_mod a (Z.pos d) ltac:(lia)) as Hdm.
  pose proof (Z.mod_pos_bound a (Z.pos d) ltac:(lia)) as Hbound.
  set (f := a `div` Z.pos d) in *. set (r := a `mod` Z.pos d) in *.
  assert (Heven : Z.even (-1) = false) by reflexivity.
  destruct (Z.compare_spec (2 * r) (Z.pos d)) as [Heq | Hlt | Hgt].
  - destruct (Z.even f) eqn:Hf; intros _.
    + assert (f ≠ -1) by (intros ->; congruence). nia.
    + nia.
  - intros _. nia.
  - intros _. nia.
Qed.

Lemma X1_round_in_extent_witness :
  (- (1 # 2) <= 5 # 2)%Q ∧ (5 # 2 < inject_Z 4 - (1 # 2))%Q ∧
  0 ≤ Py.round (5 # 2) ≤ 4 - 1.
Proof.
  assert (Hlo : (- (1 # 2) <= 5 # 2)%Q) by (vm_compute; discriminate).
  assert (Hhi : (5 # 2 < inject_Z 4 - (1 # 2))%Q) by reflexivity.
  split; [exact Hlo |]. split; [exact Hhi |].
  exact (X1_round_in_extent (5 # 2) 4 Hlo Hhi).
Defined.

(** ** The click callback, forwards *)

Section CallbackRuns.

Context {num : Type} `{L : Library num}.

Implicit Types w : world num.

Lemma read_item_holds ds i d w :
  holds w ds d →
  read_item ds i w = (index0 (ds_array d) i, log (OpRead ds) w).
Proof.
  intros (name & mode & f & [Hh Hd] & Hds).
  unfold read_item, deref, current_file, emit, lift, effect, mbind, M_bind, mret, M_ret.
  cbn. rewrite Hh, Hd, Hds. by destruct (index0 (ds_array d) i).
Qed.

Lemma read_item_closed ds i w :
  handle w = None →
  read_item ds i w = (Raise ValueError, log (OpRead ds) w).
Proof.
  intros Hh.
  unfold read_item, deref, current_file, emit, lift, effect, mbind, M_bind.
  cbn. by rewrite Hh.
Qed.

Lemma move_zoom_box_inside r fig ev x y w :
  lib_in_axes w ev = true →
  ev_xdata ev = Some x →
  ev_ydata ev = Some y →
  move_zoom_box r fig ev w
  = show_ronchigram r fig (Py.round y * num_rows r + Py.round x)
      (crosshair_at (Py.round x) (Py.round y) w).
Proof.
  intros Hin Hx Hy. unfold move_zoom_box, in_axes.
  erewrite bind_step by reflexivity. rewrite Hin, Hx, Hy. cbn [negb Py.int_round].
  erewrite bind_step by reflexivity. erewrite bind_step by reflexivity.
  erewrite bind_step by reflexivity. erewrite bind_step by reflexivity.
  reflexivity.
Qed.

(** What [index0] does within and beyond the first axis. *)
Lemma index0_beyond (a : ndarray num) (n i : Z) rest :
  shape a = n :: rest → n ≤ i → index0 a i = Raise IndexError.
Proof.
  intros Hs Hi. unfold index0. rewrite Hs.
  destruct (Z.ltb_spec i 0).
  - by replace (0 <=? n + i) with false by (symmetry; apply Z.leb_gt; lia).
  - replace (i <? n) with false by (symmetry; apply Z.ltb_ge; lia).
    by rewrite andb_false_r.
Qed.

Lemma index0_within (a : ndarray num) (n i : Z) rest :
  shape a = n :: rest → 0 ≤ i < n →
  index0 a i = Ok (mk_array rest
                     (take (Z.to_nat (prodZ rest))
                           (drop (Z.to_nat (i * prodZ rest)) (flat a)))).
Proof.
  intros Hs Hi. unfold index0. rewrite Hs.
  destruct (Z.ltb_spec i 0); [lia |].
  destruct (Z.leb_spec 0 i); [| lia].
  destruct (Z.ltb_spec i n); [| lia]. done.
Qed.

End CallbackRuns.

Section CallbackEdges.

Context {num : Type} `{L : Library num}.

Implicit Types w : world num.

Lemma np_reshape_2d_Ok (a : ndarray num) (n m : Z) :
  0 ≤ n → 0 ≤ m → n * m = size a →
  np_reshape a [n; m] = Ok (mk_array [n; m] (flat a)).
Proof.
  intros Hn Hm Hsize. unfold np_reshape. cbn.
  repeat case_decide; cbn; try lia.
  destruct (Z.leb_spec 0 n); [| lia]. destruct (Z.leb_spec 0 m); [| lia].
  cbn. rewrite Z.mul_1_r. by destruct (Z.eqb_spec (n * m) (size a)).
Qed.

(** The display after the callback has shown a ronchigram. *)
Lemma show_ronchigram_Ok r fig pos d row w :
  holds w (usid_path (h5_main r)) d →
  index0 (ds_array d) pos = Ok row →
  0 ≤ num_sensor_rows r → 0 ≤ num_sensor_cols r →
  num_sensor_rows r * num_sensor_cols r = size row →
  show_ronchigram r fig pos w
  = (Ok tt,
     with_screen
       (redraw fig
          (show_zoom (mk_array [num_sensor_rows r; num_sensor_cols r] (flat row))
             (screen w)))
       (logs [OpRead (usid_path (h5_main r)); OpSetData; OpDraw fig] w)).
Proof.
  intros Hd Hrow Hsr Hsc Hsize. unfold show_ronchigram.
  erewrite bind_step
    by (rewrite (read_item_holds _ _ d) by done; rewrite Hrow; reflexivity).
  rewrite np_reshape_2d_Ok by done.
  erewrite bind_step by reflexivity. erewrite bind_step by reflexivity.
  reflexivity.
Qed.

Lemma show_ronchigram_Raise r fig pos d e w :
  holds w (usid_path (h5_main r)) d →
  index0 (ds_array d) pos = Raise e →
  show_ronchigram r fig pos w = (Raise e, log (OpRead (usid_path (h5_main r))) w).
Proof.
  intros Hd Hrow. unfold show_ronchigram.
  apply bind_Raise. rewrite (read_item_holds _ _ d) by done. by rewrite Hrow.
Qed.

Lemma holds_crosshair x y ds d w :
  holds w ds d → holds (crosshair_at x y w) ds d.
Proof. by apply holds_same. Qed.

End CallbackEdges.

(** X2: on a square scan grid, a click inside the map that the callback
    handles to the end leaves in the zoomed panel the ronchigram of the
    clicked position (row-major index of the rounded row and column) and the
    crosshair on that row and column. *)
Theorem X2_square_grid_click {num : Type} `{L : Library num}
    (r : raw_info) (fig : nat) (ev : mouse_event) (w w' : world num) :
  num_rows r = num_cols r →
  lib_in_axes w ev = true →
  move_zoom_box r fig ev w = (Ok tt, w') →
  ∃ x y d zoom,
    ev_xdata ev = Some x ∧ ev_ydata ev = Some y ∧
    holds w (usid_path (h5_main r)) d ∧
    ronchigram_at r (ds_array d) (clicked_position r (Py.round y) (Py.round x))
      = Ok zoom ∧
    img_zoom (screen w') = Some zoom ∧
    main_vert_line (screen w') = Some (Py.round x) ∧
    main_hor_line (screen w') = Some (Py.round y).
Proof.
  intros Hsquare Hin Hrun.
  destruct (move_zoom_box_shows _ _ _ _ _ Hin Hrun)
    as (x & y & d & zoom & Hx & Hy & Hd & Hz & Hzoom & Hv & Hh & _).
  exists x, y, d, zoom. rewrite <- square_grid_position by done. done.
Qed.

Lemma grid_holds (nr nc : N) :
  holds (Grid.opened nr nc) Toy.raw_new (Grid.raw_dataset nr nc).
Proof.
  exists "stem.h5", "r+", (Grid.file nr nc).
  split; [split; [reflexivity | apply lookup_singleton_eq] |].
  apply lookup_singleton_eq.
Qed.

Lemma X2_square_grid_witness :
  num_rows (Grid.info 2 2) = num_cols (Grid.info 2 2) ∧
  lib_in_axes (Grid.opened 2 2) (Grid.click 1 0) = true ∧
  move_zoom_box (Grid.info 2 2) 1 (Grid.click 1 0) (Grid.opened 2 2)
    = (Ok tt, (move_zoom_box (Grid.info 2 2) 1 (Grid.click 1 0) (Grid.opened 2 2)).2) ∧
  ∃ x y d zoom,
    ev_xdata (Grid.click 1 0) = Some x ∧ ev_ydata (Grid.click 1 0) = Some y ∧
    holds (Grid.opened 2 2) (usid_path (h5_main (Grid.info 2 2))) d ∧
    ronchigram_at (Grid.info 2 2) (ds_array d)
      (clicked_position (Grid.info 2 2) (Py.round y) (Py.round x)) = Ok zoom ∧
    img_zoom (screen (move_zoom_box (Grid.info 2 2) 1 (Grid.click 1 0)
                        (Grid.opened 2 2)).2) = Some zoom ∧
    main_vert_line (screen (move_zoom_box (Grid.info 2 2) 1 (Grid.click 1 0)
                              (Grid.opened 2 2)).2) = Some (Py.round x) ∧
    main_hor_line (screen (move_zoom_box (Grid.info 2 2) 1 (Grid.click 1 0)
                             (Grid.opened 2 2)).2) = Some (Py.round y).
Proof.
  assert (Hrun : move_zoom_box (Grid.info 2 2) 1 (Grid.click 1 0) (Grid.opened 2 2)
                 = (Ok tt, (move_zoom_box (Grid.info 2 2) 1 (Grid.click 1 0)
                              (Grid.opened 2 2)).2))
    by (apply run_eq; vm_compute; reflexivity).
  split; [reflexivity |]. split; [reflexivity |]. split; [exact Hrun |].
  exact (X2_square_grid_click (Grid.info 2 2) 1 (Grid.click 1 0) (Grid.opened 2 2) _
           eq_refl eq_refl Hrun).
Defined.

(** X3: on a scan grid with no more rows than columns, over a dataset that
    has one row of sensor-rows x sensor-columns values per position, a click
    on any pixel of the map is handled to the end: the index
    [row * num_rows + col] is within the positions, the read and the reshape
    return, and the zoomed panel shows that row of the matrix. *)
Theorem X3_wide_grid_click_returns {num : Type} `{L : Library num}
    (r : raw_info) (fig : nat) (ev : mouse_event) (x y : Q) (d : dataset num)
    (w : world num) :
  lib_in_axes w ev = true →
  ev_xdata ev = Some x →
  ev_ydata ev = Some y →
  holds w (usid_path (h5_main r)) d →
  well_formed (ds_array d) →
  shape (ds_array d)
    = [num_rows r * num_cols r; num_sensor_rows r * num_sensor_cols r] →
  0 ≤ num_sensor_rows r →
  0 ≤ num_sensor_cols r →
  0 ≤ Py.round y < num_rows r →
  0 ≤ Py.round x < num_cols r →
  num_rows r ≤ num_cols r →
  0 ≤ Py.round y * num_rows r + Py.round x < num_rows r * num_cols r ∧
  ∃ w' zoom,
    move_zoom_box r fig ev w = (Ok tt, w') ∧
    ronchigram_at r (ds_array d) (Py.round y * num_rows r + Py.round x) = Ok zoom ∧
    img_zoom (screen w') = Some zoom ∧
    main_vert_line (screen w') = Some (Py.round x) ∧
    main_hor_line (screen w') = Some (Py.round y).
Proof.
  intros Hin Hx Hy Hd [Hpos Hlen] Hshape Hsr Hsc Hrow Hcol Hwide.
  set (pos := Py.round y * num_rows r + Py.round x).
  set (p := num_sensor_rows r * num_sensor_cols r) in *.
  assert (Hrange : 0 ≤ pos < num_rows r * num_cols r) by (unfold pos; nia).
  split; [done |].
  pose proof (index0_within _ _ _ _ Hshape Hrange) as Hread.
  set (row := mk_array _ _) in Hread.
  assert (Hp : 0 ≤ p) by (unfold p; nia).
  assert (Hsize : p = size row).
  { unfold size, row. cbn [flat prodZ foldr].
    rewrite Hshape in Hlen. cbn [prodZ foldr] in Hlen.
    rewrite length_take, length_drop, Hlen. nia. }
  eexists _, _. split.
  { rewrite (move_zoom_box_inside _ _ _ x y) by done.
    apply (show_ronchigram_Ok _ _ _ d row);
      first [done | by apply holds_crosshair]. }
  split_and!; try done.
  unfold ronchigram_at. fold pos. rewrite Hread.
  by apply np_reshape_2d_Ok.
Qed.

Lemma grid_well_formed_2_3 : well_formed (ds_array (Grid.raw_dataset 2 3)).
Proof. split; [repeat constructor; lia | reflexivity]. Qed.

Lemma X3_wide_grid_witness :
  let r := Grid.info 2 3 in
  let ev := Grid.click 1 2 in
  let w := Grid.opened 2 3 in
  let d := Grid.raw_dataset 2 3 in
  lib_in_axes w ev = true ∧
  ev_xdata ev = Some (inject_Z 2) ∧
  ev_ydata ev = Some (inject_Z 1) ∧
  holds w (usid_path (h5_main r)) d ∧
  well_formed (ds_array d) ∧
  shape (ds_array d)
    = [num_rows r * num_cols r; num_sensor_rows r * num_sensor_cols r] ∧
  0 ≤ num_sensor_rows r ∧
  0 ≤ num_sensor_cols r ∧
  0 ≤ Py.round (inject_Z 1) < num_rows r ∧
  0 ≤ Py.round (inject_Z 2) < num_cols r ∧
  num_rows r ≤ num_cols r ∧
  0 ≤ Py.round (inject_Z 1) * num_rows r + Py.round (inject_Z 2)
    < num_rows r * num_cols r ∧
  ∃ w' zoom,
    move_zoom_box r 1 ev w = (Ok tt, w') ∧
    ronchigram_at r (ds_array d)
      (Py.round (inject_Z 1) * num_rows r + Py.round (inject_Z 2)) = Ok zoom ∧
    img_zoom (screen w') = Some zoom ∧
    main_vert_line (screen w') = Some (Py.round (inject_Z 2)) ∧
    main_hor_line (screen w') = Some (Py.round (inject_Z 1)).
Proof.
  intros r ev w d.
  assert (H1 : 0 ≤ num_sensor_rows r) by (cbn; lia).
  assert (H2 : 0 ≤ num_sensor_cols r) by (cbn; lia).
  assert (H3 : 0 ≤ Py.round (inject_Z 1) < num_rows r)
    by (vm_compute; split; [discriminate | reflexivity]).
  assert (H4 : 0 ≤ Py.round (inject_Z 2) < num_cols r)
    by (vm_compute; split; [discriminate | reflexivity]).
  assert (H5 : num_rows r ≤ num_cols r) by (cbn; lia).
  assert (Hin : lib_in_axes w ev = true) by reflexivity.
  assert (Hshape : shape (ds_array d)
            = [num_rows r * num_cols r; num_sensor_rows r * num_sensor_cols r])
    by reflexivity.
  split; [exact Hin |]. do 2 (split; [reflexivity |]).
  split; [apply grid_holds |].
  split; [apply grid_well_formed_2_3 |]. split; [exact Hshape |].
  split; [exact H1 |]. split; [exact H2 |]. split; [exact H3 |].
  split; [exact H4 |]. split; [exact H5 |].
  exact (X3_wide_grid_click_returns r 1 ev (inject_Z 2) (inject_Z 1) d w
           Hin eq_refl eq_refl (grid_holds 2 3) grid_well_formed_2_3
           Hshape H1 H2 H3 H4 H5).
Defined.

(** X4: on a scan grid with more rows than columns, a click on the last
    pixel of the map makes the callback read beyond the last position: the
    read raises IndexError after the crosshair has been moved, and the zoomed
    panel keeps the ronchigram it showed. *)
Theorem X4_tall_grid_click_raises {num : Type} `{L : Library num}
    (r : raw_info) (fig : nat) (ev : mouse_event) (x y : Q) (d : dataset num)
    (rest : list Z) (w : world num) :
  lib_in_axes w ev = true →
  ev_xdata ev = Some x →
  ev_ydata ev = Some y →
  holds w (usid_path (h5_main r)) d →
  shape (ds_array d) = num_rows r * num_cols r :: rest →
  Py.round y = num_rows r - 1 →
  Py.round x = num_cols r - 1 →
  1 ≤ num_cols r < num_rows r →
  ∃ w',
    move_zoom_box r fig ev w = (Raise IndexError, w') ∧
    main_vert_line (screen w') = Some (num_cols r - 1) ∧
    main_hor_line (screen w') = Some (num_rows r - 1) ∧
    img_zoom (screen w') = img_zoom (screen w) ∧
    drawn (screen w') = drawn (screen w) ∧
    trace w' = trace w ++ [OpSetXData (num_cols r - 1); OpSetYData (num_rows r - 1);
                           OpRead (usid_path (h5_main r))].
Proof.
  intros Hin Hx Hy Hd Hshape Hrow Hcol Htall.
  eexists. split.
  { rewrite (move_zoom_box_inside _ _ _ x y) by done.
    apply (show_ronchigram_Raise _ _ _ d); [by apply holds_crosshair |].
    apply (index0_beyond _ _ _ _ Hshape). rewrite Hrow, Hcol. nia. }
  rewrite Hrow, Hcol. cbn. by rewrite <- !app_assoc.
Qed.

Lemma X4_tall_grid_witness :
  let r := Grid.info 3 2 in
  let ev := Grid.click 2 1 in
  let w := Grid.opened 3 2 in
  let d := Grid.raw_dataset 3 2 in
  lib_in_axes w ev = true ∧
  ev_xdata ev = Some (inject_Z 1) ∧
  ev_ydata ev = Some (inject_Z 2) ∧
  holds w (usid_path (h5_main r)) d ∧
  shape (ds_array d) = num_rows r * num_cols r :: [4] ∧
  Py.round (inject_Z 2) = num_rows r - 1 ∧
  Py.round (inject_Z 1) = num_cols r - 1 ∧
  1 ≤ num_cols r < num_rows r ∧
  ∃ w',
    move_zoom_box r 1 ev w = (Raise IndexError, w') ∧
    main_vert_line (screen w') = Some (num_cols r - 1) ∧
    main_hor_line (screen w') = Some (num_rows r - 1) ∧
    img_zoom (screen w') = img_zoom (screen w) ∧
    drawn (screen w') = drawn (screen w) ∧
    trace w' = trace w ++ [OpSetXData (num_cols r - 1); OpSetYData (num_rows r - 1);
                           OpRead (usid_path (h5_main r))].
Proof.
  intros r ev w d.
  assert (H1 : 1 ≤ num_cols r < num_rows r) by (cbn; lia).
  assert (Hin : lib_in_axes w ev = true) by reflexivity.
  assert (Hshape : shape (ds_array d) = num_rows r * num_cols r :: [4])
    by reflexivity.
  assert (Hrow : Py.round (inject_Z 2) = num_rows r - 1) by reflexivity.
  assert (Hcol : Py.round (inject_Z 1) = num_cols r - 1) by reflexivity.
  split; [exact Hin |]. do 2 (split; [reflexivity |]).
  split; [apply grid_holds |]. split; [exact Hshape |].
  split; [exact Hrow |]. split; [exact Hcol |]. split; [exact H1 |].
  exact (X4_tall_grid_click_raises r 1 ev (inject_Z 1) (inject_Z 2) d [4] w
           Hin eq_refl eq_refl (grid_holds 3 2) Hshape Hrow Hcol H1).
Defined.

(** X5: once the handle is closed, a click inside the map moves the
    crosshair and then fails at the read with ValueError; the zoomed panel
    keeps its image and no figure is redrawn. *)
Theorem X5_click_on_closed_file {num : Type} `{L : Library num}
    (r : raw_info) (fig : nat) (ev : mouse_event) (x y : Q) (w : world num) :
  handle w = None →
  lib_in_axes w ev = true →
  ev_xdata ev = Some x →
  ev_ydata ev = Some y →
  ∃ w',
    move_zoom_box r fig ev w = (Raise ValueError, w') ∧
    main_vert_line (screen w') = Some (Py.round x) ∧
    main_hor_line (screen w') = Some (Py.round y) ∧
    img_zoom (screen w') = img_zoom (screen w) ∧
    drawn (screen w') = drawn (screen w) ∧
    trace w' = trace w ++ [OpSetXData (Py.round x); OpSetYData (Py.round y);
                           OpRead (usid_path (h5_main r))].
Proof.
  intros Hclosed Hin Hx Hy. eexists. split.
  { rewrite (move_zoom_box_inside _ _ _ x y) by done.
    unfold show_ronchigram. apply bind_Raise. by apply read_item_closed. }
  cbn. by rewrite <- !app_assoc.
Qed.

Lemma X5_click_on_closed_witness :
  let r := Grid.info 2 2 in
  let ev := Grid.click 1 0 in
  let w := Grid.closed 2 2 in
  handle w = None ∧
  lib_in_axes w ev = true ∧
  ev_xdata ev = Some (inject_Z 0) ∧
  ev_ydata ev = Some (inject_Z 1) ∧
  ∃ w',
    move_zoom_box r 1 ev w = (Raise ValueError, w') ∧
    main_vert_line (screen w') = Some (Py.round (inject_Z 0)) ∧
    main_hor_line (screen w') = Some (Py.round (inject_Z 1)) ∧
    img_zoom (screen w') = img_zoom (screen w) ∧
    drawn (screen w') = drawn (screen w) ∧
    trace w' = trace w ++ [OpSetXData (Py.round (inject_Z 0));
                           OpSetYData (Py.round (inject_Z 1));
                           OpRead (usid_path (h5_main r))].
Proof.
  intros r ev w.
  assert (Hin : lib_in_axes w ev = true) by reflexivity.
  split; [reflexivity |]. split; [exact Hin |]. do 2 (split; [reflexivity |]).
  exact (X5_click_on_closed_file r 1 ev (inject_Z 0) (inject_Z 1) w
           eq_refl Hin eq_refl eq_refl).
Defined.

(** ** What the callback leaves alone *)

Section Quiet.

Context {num : Type} `{L : Library num}.

Implicit Types w : world num.

Lemma same_session_refl w : same_session w w.
Proof. by split_and!. Qed.

Lemma same_session_trans w1 w2 w3 :
  same_session w1 w2 → same_session w2 w3 → same_session w1 w3.
Proof.
  intros (Hd1 & Hh1 & Hm1 & Hf1 & Ht1) (Hd2 & Hh2 & Hm2 & Hf2 & Ht2).
  split_and!; try congruence. by etrans.
Qed.

Lemma quiet_bind {A B} (m : M num A) (k : A → M num B) :
  quiet m → (∀ a, quiet (k a)) → quiet (m ≫= k).
Proof.
  intros Hm Hk w. specialize (Hm w).
  unfold mbind, M_bind. destruct (m w) as [[a | e] w1]; cbn in *; [| done].
  eapply same_session_trans; [exact Hm | apply Hk].
Qed.

Lemma quiet_ret {A} (a : A) : quiet (mret (M := M num) a).
Proof. intros w. apply same_session_refl. Qed.

Lemma quiet_lift {A} (o : outcome A) : quiet (lift (num := num) o).
Proof. intros w. apply same_session_refl. Qed.

Lemma quiet_emit o : quiet (emit (num := num) o).
Proof. intros w. split_and!; try done. by apply prefix_app_r. Qed.

Lemma quiet_update_screen (f : display num → display num) :
  (∀ s, main_map (f s) = main_map s ∧ figures (f s) = figures s) →
  quiet (update_screen f).
Proof. intros Hf w. destruct (Hf (screen w)). by split_and!. Qed.

Lemma quiet_in_axes ev : quiet (in_axes ev).
Proof. intros w. apply same_session_refl. Qed.

Lemma quiet_read_item ds i : quiet (read_item (num := num) ds i).
Proof.
  unfold read_item, deref. apply quiet_bind; [apply quiet_emit | intros _].
  apply quiet_bind; [| intros d; apply quiet_lift].
  apply quiet_bind.
  - intros w. unfold current_file, effect.
    destruct (handle w) as [[name mode] |]; [| apply same_session_refl].
    destruct (disk w !! name); apply same_session_refl.
  - intros f. destruct (f !! ds) as [[| d] |];
      first [apply quiet_ret | apply quiet_lift].
Qed.

End Quiet.

(** X6: whatever the event and whether the callback returns or raises, it
    stays within the session: the files on disk, the handle, the
    mean-response map and the number of figures are as before, and the
    history of calls is only extended. *)
Theorem X6_callback_stays_in_session {num : Type} `{L : Library num}
    (r : raw_info) (fig : nat) (ev : mouse_event) (w : world num) :
  same_session w (move_zoom_box r fig ev w).2.
Proof.
  revert w. change (quiet (move_zoom_box r fig ev)). unfold move_zoom_box.
  apply quiet_bind; [apply quiet_in_axes | intros inside].
  destruct inside; cbn [negb]; [| apply quiet_ret].
  apply quiet_bind; [apply quiet_lift | intros col].
  apply quiet_bind; [apply quiet_lift | intros row].
  unfold set_xdata, set_ydata, set_data, canvas_draw.
  repeat first
    [ apply quiet_read_item | apply quiet_emit | apply quiet_lift
    | by apply quiet_update_screen
    | apply quiet_bind; [| intros ?] ].
Qed.

(** ** The cells, forwards *)

Lemma getitem_last {A} (l : list A) (x : A) :
  list.last l = Some x → Py.getitem l (-1) = Ok x.
Proof. intros [l' ->]%last_Some. apply getitem_minus_one. Qed.

Lemma unpack2_Raise {A} (l : list A) :
  length l ≠ 2%nat → Py.unpack2 l = Raise ValueError.
Proof. by destruct l as [| x [| y [| z l]]]. Qed.

Section CellsForwards.

Context {num : Type} `{L : Library num}.

Implicit Types w : world num.

Lemma external_runs o w :
  lib_raises o w = None → external o w = (Ok tt, log o w).
Proof. unfold external, effect. by intros ->. Qed.

Lemma external_fails o e w :
  lib_raises o w = Some e → external o w = (Raise e, log o w).
Proof. unfold external, effect. by intros ->. Qed.

Lemma find_dataset_runs h name w file mode f :
  file_at w file mode f →
  lib_raises (OpFindDataset name) w = None →
  find_dataset h name w = (Ok (lib_find_dataset f name), log (OpFindDataset name) w).
Proof.
  intros [Hh Hd] Hr. unfold find_dataset.
  erewrite bind_step by by apply external_runs.
  unfold current_file, effect, mbind, M_bind. cbn. by rewrite Hh, Hd.
Qed.

Lemma USIDataset_runs p w file mode f d pos spec :
  file_at w file mode f →
  lib_raises (OpUSIDataset p) w = None →
  f !! p = Some (H5Dataset d) →
  ds_usid d = Some (pos, spec) →
  USIDataset p w
  = (Ok {| usid_path := p; pos_dim_sizes := Z.of_N <$> pos;
           spec_dim_sizes := Z.of_N <$> spec |},
     log (OpUSIDataset p) w).
Proof.
  intros [Hh Hd] Hr Hp Hu. unfold USIDataset.
  erewrite bind_step by by apply external_runs.
  unfold deref, current_file, effect, mbind, M_bind. cbn.
  rewrite Hh, Hd, Hp. cbn. by rewrite Hu.
Qed.

Lemma group_getitem_missing grp name w file mode f :
  file_at w file mode f →
  f !! (grp ++ [name]) = None →
  group_getitem grp name w = (Raise (KeyError name), log (OpGetItem grp name) w).
Proof.
  intros [Hh Hd] Hp.
  unfold group_getitem, current_file, emit, effect, mbind, M_bind. cbn.
  by rewrite Hh, Hd, Hp.
Qed.

Lemma group_getitem_runs grp name w file mode f :
  file_at w file mode f →
  is_Some (f !! (grp ++ [name])) →
  group_getitem grp name w = (Ok (grp ++ [name]), log (OpGetItem grp name) w).
Proof.
  intros [Hh Hd] [o Hp].
  unfold group_getitem, current_file, emit, effect, mbind, M_bind. cbn.
  by rewrite Hh, Hd, Hp.
Qed.

End CellsForwards.

(** X7: the cell that binds the raw dataset needs exactly two position
    dimensions and two spectroscopic dimensions: with any other number the
    tuple unpacking raises ValueError, after the search and the upgrade to a
    USID dataset were made. *)
Theorem X7_scan_must_be_two_by_two {num : Type} `{L : Library num}
    (h : string) (w : world num) (file mode : string)
    (f : gmap path (h5obj num)) (p : path) (d : dataset num) (pos spec : list N) :
  file_at w file mode f →
  lib_raises (OpFindDataset "Raw_Data") w = None →
  list.last (lib_find_dataset f "Raw_Data") = Some p →
  lib_raises (OpUSIDataset p) (log (OpFindDataset "Raw_Data") w) = None →
  f !! p = Some (H5Dataset d) →
  ds_usid d = Some (pos, spec) →
  length pos ≠ 2%nat ∨ length spec ≠ 2%nat →
  cell_get_raw h w = (Raise ValueError, logs (get_raw_ops p) w).
Proof.
  intros Hf Hr1 Hlast Hr2 Hp Hu Hdims. unfold cell_get_raw.
  erewrite bind_step by by eapply find_dataset_runs.
  erewrite bind_step by (unfold lift, effect; by rewrite (getitem_last _ _ Hlast)).
  erewrite bind_step by by eapply (USIDataset_runs p _ file mode f d pos spec).
  cbn [pos_dim_sizes spec_dim_sizes].
  destruct (decide (length pos = 2%nat)) as [Hpos | Hpos].
  - destruct pos as [| a [| b [| c pos]]]; try done.
    destruct Hdims as [? | Hspec]; [done |].
    erewrite bind_step by reflexivity. cbn beta iota.
    apply bind_Raise. unfold lift, effect.
    by rewrite unpack2_Raise by by rewrite length_fmap.
  - apply bind_Raise. unfold lift, effect.
    by rewrite unpack2_Raise by by rewrite length_fmap.
Qed.

Lemma X7_line_scan_witness :
  let w := Grid.line_scan 6 in
  let f := {[ Toy.raw_new := H5Dataset (Grid.line_dataset 6) ]} in
  file_at w "stem.h5" "r+" f ∧
  lib_raises (OpFindDataset "Raw_Data") w = None ∧
  list.last (lib_find_dataset f "Raw_Data") = Some Toy.raw_new ∧
  lib_raises (OpUSIDataset Toy.raw_new) (log (OpFindDataset "Raw_Data") w) = None ∧
  f !! Toy.raw_new = Some (H5Dataset (Grid.line_dataset 6)) ∧
  ds_usid (Grid.line_dataset 6) = Some ([6]%N, [2; 2]%N) ∧
  (length [6%N] ≠ 2%nat ∨ length [2%N; 2%N] ≠ 2%nat) ∧
  cell_get_raw "stem.h5" w = (Raise ValueError, logs (get_raw_ops Toy.raw_new) w).
Proof.
  intros w f.
  assert (Hf : file_at w "stem.h5" "r+" f)
    by (split; [reflexivity | apply lookup_singleton_eq]).
  assert (Hlast : list.last (lib_find_dataset f "Raw_Data") = Some Toy.raw_new)
    by (vm_compute; reflexivity).
  assert (Hp : f !! Toy.raw_new = Some (H5Dataset (Grid.line_dataset 6)))
    by apply lookup_singleton_eq.
  assert (Hdims : length [6%N] ≠ 2%nat ∨ length [2%N; 2%N] ≠ 2%nat)
    by (left; discriminate).
  split; [exact Hf |]. split; [reflexivity |]. split; [exact Hlast |].
  split; [reflexivity |]. split; [exact Hp |]. split; [reflexivity |].
  split; [exact Hdims |].
  exact (X7_scan_must_be_two_by_two "stem.h5" w "stem.h5" "r+" f Toy.raw_new
           (Grid.line_dataset 6) [6%N] [2%N; 2%N]
           Hf eq_refl Hlast eq_refl Hp eq_refl Hdims).
Defined.

(** X8: when the search finds no dataset named Raw_Data, the index [-1]
    on the empty list raises IndexError right after the search; nothing
    else is called. *)
Theorem X8_no_raw_data {num : Type} `{L : Library num}
    (h : string) (w : world num) (file mode : string) (f : gmap path (h5obj num)) :
  file_at w file mode f →
  lib_raises (OpFindDataset "Raw_Data") w = None →
  lib_find_dataset f "Raw_Data" = [] →
  cell_get_raw h w = (Raise IndexError, log (OpFindDataset "Raw_Data") w).
Proof.
  intros Hf Hr Hnone. unfold cell_get_raw.
  erewrite bind_step by by eapply find_dataset_runs.
  apply bind_Raise. unfold lift, effect. by rewrite Hnone, getitem_nil.
Qed.

Lemma X8_no_raw_data_witness :
  let w := with_handle (Some ("stem.h5", "r+")) Toy.start_empty in
  file_at w "stem.h5" "r+" ∅ ∧
  lib_raises (OpFindDataset "Raw_Data") w = None ∧
  lib_find_dataset (∅ : gmap path (h5obj Z)) "Raw_Data" = [] ∧
  cell_get_raw "stem.h5" w = (Raise IndexError, log (OpFindDataset "Raw_Data") w).
Proof.
  intros w.
  assert (Hf : file_at w "stem.h5" "r+" ∅)
    by (split; [reflexivity | apply lookup_singleton_eq]).
  assert (Hnone : lib_find_dataset (∅ : gmap path (h5obj Z)) "Raw_Data" = [])
    by (vm_compute; reflexivity).
  split; [exact Hf |]. split; [reflexivity |]. split; [exact Hnone |].
  exact (X8_no_raw_data "stem.h5" w "stem.h5" "r+" ∅ Hf eq_refl Hnone).
Defined.

(** X9: when the path the user picks names no file, opening it in mode r+
    raises OSError: no file is created, no handle is bound, and the dialog,
    the print and the open are the only calls. *)
Theorem X9_open_missing_file {num : Type} `{L : Library num} (w : world num) :
  lib_raises OpFileDialog w = None →
  disk w !! lib_file_dialog (log OpFileDialog w) = None →
  ∃ w',
    cell_open w = (Raise OSError, w') ∧
    disk w' = disk w ∧
    handle w' = handle w ∧
    screen w' = screen w ∧
    trace w' = trace w ++ open_ops (lib_file_dialog (log OpFileDialog w)).
Proof.
  intros Hr Hnone. eexists. split.
  { unfold cell_open, file_dialog.
    erewrite bind_step; cycle 1.
    { erewrite bind_step by by apply external_runs. reflexivity. }
    erewrite bind_step by reflexivity.
    unfold h5py_File. erewrite bind_step by reflexivity.
    unfold effect. cbn. rewrite Hnone. reflexivity. }
  cbn. split_and!; try done. by rewrite <- !app_assoc.
Qed.

Lemma X9_open_missing_witness :
  let w := Grid.no_such_file in
  lib_raises OpFileDialog w = None ∧
  disk w !! lib_file_dialog (log OpFileDialog w) = None ∧
  ∃ w',
    cell_open w = (Raise OSError, w') ∧
    disk w' = disk w ∧
    handle w' = handle w ∧
    screen w' = screen w ∧
    trace w' = trace w ++ open_ops (lib_file_dialog (log OpFileDialog w)).
Proof.
  intros w.
  assert (Hnone : disk w !! lib_file_dialog (log OpFileDialog w) = None)
    by apply lookup_empty.
  split; [reflexivity |]. split; [exact Hnone |].
  exact (X9_open_missing_file w eq_refl Hnone).
Defined.

(** X10: when the group that the SVD computation returns has a member U
    but no member V, the SVD cell raises KeyError for V; S is never asked
    for, and what the computation wrote stays in the file. *)
Theorem X10_svd_group_without_v {num : Type} `{L : Library num}
    (r : raw_info) (w : world num) (file mode : string)
    (f f' : gmap path (h5obj num)) (g : path) :
  file_at w file mode f →
  String.eqb mode "r" = false →
  lib_raises (OpInit (SVD (usid_path (h5_main r)) 256)) w = None →
  lib_compute (SVD (usid_path (h5_main r)) 256) f = (Ok g, f') →
  is_Some (f' !! (g ++ ["U"])) →
  f' !! (g ++ ["V"]) = None →
  ∃ w',
    cell_svd r w = (Raise (KeyError "V"), w') ∧
    disk w' = <[file := f']> (disk w) ∧
    handle w' = handle w ∧
    trace w' = trace w ++ [OpInit (SVD (usid_path (h5_main r)) 256);
                           OpCompute (SVD (usid_path (h5_main r)) 256);
                           OpGetItem g "U"; OpGetItem g "V"].
Proof.
  intros [Hh Hd] Hmode Hr Hc Hu Hv. eexists. split.
  { unfold cell_svd, init.
    erewrite bind_step; cycle 1.
    { erewrite bind_step by by apply external_runs. reflexivity. }
    erewrite bind_step; cycle 1.
    { unfold compute. erewrite bind_step by reflexivity.
      unfold effect. cbn. rewrite Hh, Hmode, Hd.
      change num_svd_comps with 256. rewrite Hc. reflexivity. }
    erewrite bind_step; cycle 1.
    { apply (group_getitem_runs _ _ _ file mode f'); [| done].
      split; [done | apply lookup_insert_eq]. }
    apply bind_Raise.
    apply (group_getitem_missing _ _ _ file mode f'); [| done].
    split; [done | apply lookup_insert_eq]. }
  cbn. split_and!; try done. by rewrite <- !app_assoc.
Qed.

Lemma X10_svd_group_witness :
  let r := Grid.info 2 2 in
  let w := Grid.opened 2 2 in
  let f := Grid.file 2 2 in
  let f' := Grid.svd_without_v f in
  let g := Toy.svd_group in
  file_at w "stem.h5" "r+" f ∧
  String.eqb "r+" "r" = false ∧
  @lib_raises _ Grid.library_without_v
    (OpInit (SVD (usid_path (h5_main r)) 256)) w = None ∧
  @lib_compute _ Grid.library_without_v
    (SVD (usid_path (h5_main r)) 256) f = (Ok g, f') ∧
  is_Some (f' !! (g ++ ["U"])) ∧
  f' !! (g ++ ["V"]) = None ∧
  ∃ w',
    cell_svd (L := Grid.library_without_v) r w = (Raise (KeyError "V"), w') ∧
    disk w' = <[ "stem.h5" := f']> (disk w) ∧
    handle w' = handle w ∧
    trace w' = trace w ++ [OpInit (SVD (usid_path (h5_main r)) 256);
                           OpCompute (SVD (usid_path (h5_main r)) 256);
                           OpGetItem g "U"; OpGetItem g "V"].
Proof.
  intros r w f f' g.
  assert (Hf : file_at w "stem.h5" "r+" f)
    by (split; [reflexivity | apply lookup_singleton_eq]).
  assert (Hu : is_Some (f' !! (g ++ ["U"]))) by (vm_compute; eauto).
  assert (Hv : f' !! (g ++ ["V"]) = None) by (vm_compute; reflexivity).
  split; [exact Hf |]. do 3 (split; [reflexivity |]).
  split; [exact Hu |]. split; [exact Hv |].
  exact (X10_svd_group_without_v (L := Grid.library_without_v)
           r w "stem.h5" "r+" f f' g Hf eq_refl eq_refl eq_refl Hu Hv).
Defined.

(** X11: when the visualization cell returns, the crosshair is on column
    [int(0.5 * num_cols)] and row [int(0.5 * num_rows)], and the zoomed panel
    shows the ronchigram at index row * num_rows + column; on a square grid
    that is the position under the crosshair. *)
Theorem X11_first_view {num : Type} `{L : Library num}
    (r : raw_info) (fig : nat) (w w' : world num) :
  cell_visualize r w = (Ok fig, w') →
  ∃ d zoom,
    holds w (usid_path (h5_main r)) d ∧
    ronchigram_at r (ds_array d)
      (Py.int_half (num_rows r) * num_rows r + Py.int_half (num_cols r)) = Ok zoom ∧
    img_zoom (screen w') = Some zoom ∧
    main_vert_line (screen w') = Some (Py.int_half (num_cols r)) ∧
    main_hor_line (screen w') = Some (Py.int_half (num_rows r)) ∧
    (num_rows r = num_cols r →
     ronchigram_at r (ds_array d)
       (clicked_position r (Py.int_half (num_rows r)) (Py.int_half (num_cols r)))
     = Ok zoom).
Proof.
  intros H.
  apply cell_visualize_Ok in H
    as (d & row & zoom & d_mean & mean_map & Hd & Hrow & Hzoom & _ & _ & _ & ->).
  assert (Hshown : ronchigram_at r (ds_array d)
            (Py.int_half (num_rows r) * num_rows r + Py.int_half (num_cols r))
          = Ok zoom)
    by (unfold ronchigram_at; rewrite Hrow; exact Hzoom).
  exists d, zoom. split_and!; try done.
  intros Hsquare. unfold clicked_position. rewrite <- Hshown. by rewrite Hsquare.
Qed.

Lemma X11_first_view_witness :
  let w := Grid.toy_opened in
  let w' := (cell_visualize Toy.raw_bound w).2 in
  let r := Toy.raw_bound in
  cell_visualize r w = (Ok 1%nat, w') ∧
  ∃ d zoom,
    holds w (usid_path (h5_main r)) d ∧
    ronchigram_at r (ds_array d)
      (Py.int_half (num_rows r) * num_rows r + Py.int_half (num_cols r)) = Ok zoom ∧
    img_zoom (screen w') = Some zoom ∧
    main_vert_line (screen w') = Some (Py.int_half (num_cols r)) ∧
    main_hor_line (screen w') = Some (Py.int_half (num_rows r)) ∧
    (num_rows r = num_cols r →
     ronchigram_at r (ds_array d)
       (clicked_position r (Py.int_half (num_rows r)) (Py.int_half (num_cols r)))
     = Ok zoom).
Proof.
  intros w w' r.
  assert (Hrun : cell_visualize r w = (Ok 1%nat, w'))
    by (apply run_eq; vm_compute; reflexivity).
  split; [exact Hrun |].
  exact (X11_first_view r 1%nat w w' Hrun).
Defined.

(** X12: on a scan with at least twice as many rows as columns, the index
    row * num_rows + column of the first ronchigram lies beyond the last
    position: the visualization cell raises IndexError at its first read,
    before any figure is created. *)
Theorem X12_tall_grid_has_no_first_view {num : Type} `{L : Library num}
    (r : raw_info) (d : dataset num) (rest : list Z) (w : world num) :
  holds w (usid_path (h5_main r)) d →
  shape (ds_array d) = num_rows r * num_cols r :: rest →
  1 ≤ num_cols r →
  2 * num_cols r ≤ num_rows r →
  cell_visualize r w = (Raise IndexError, log (OpRead (usid_path (h5_main r))) w).
Proof.
  intros Hd Hshape Hcols Htall. unfold cell_visualize.
  apply bind_Raise. rewrite (read_item_holds _ _ d) by done.
  rewrite (index0_beyond _ _ _ _ Hshape); [done |].
  unfold Py.int_half.
  pose proof (Z.quot_pos (num_cols r) 2 ltac:(lia) ltac:(lia)).
  assert (num_cols r ≤ num_rows r ÷ 2) by (apply Z.quot_le_lower_bound; lia).
  nia.
Qed.

Lemma X12_tall_grid_witness :
  let r := Grid.info 4 2 in
  let w := Grid.opened 4 2 in
  let d := Grid.raw_dataset 4 2 in
  holds w (usid_path (h5_main r)) d ∧
  shape (ds_array d) = num_rows r * num_cols r :: [4] ∧
  1 ≤ num_cols r ∧
  2 * num_cols r ≤ num_rows r ∧
  cell_visualize r w = (Raise IndexError, log (OpRead (usid_path (h5_main r))) w).
Proof.
  intros r w d.
  assert (Hshape : shape (ds_array d) = num_rows r * num_cols r :: [4])
    by reflexivity.
  assert (H1 : 1 ≤ num_cols r) by (cbn; lia).
  assert (H2 : 2 * num_cols r ≤ num_rows r) by (cbn; lia).
  split; [apply grid_holds |]. split; [exact Hshape |].
  split; [exact H1 |]. split; [exact H2 |].
  exact (X12_tall_grid_has_no_first_view r d [4] w (grid_holds 4 2) Hshape H1 H2).
Defined.

(** X13: each plotting cell binds the name [fig] anew.  In a run that
    reaches its end the two-panel figure is the first figure created, while
    [fig], which the callback redraws, ends bound to the sixth, the
    dendrogram. *)
Theorem X13_fig_is_rebound {num : Type} `{L : Library num}
    (w : world num) (g : globals) (w' : world num) :
  notebook w = (Ok g, w') →
  (∃ w1, through_visualize w = (Ok (raw g, S (figures (screen w))), w1)) ∧
  fig g = (6 + figures (screen w))%nat ∧
  figures (screen w') = fig g.
Proof.
  unfold notebook. intros H.
  peel H. pose proof Hstep as Hinstall. apply cell_install_Ok in Hstep as ->.
  peel H. pose proof Hstep as Himports. apply cell_imports_Ok in Hstep as ->.
  peel H. pose proof Hstep as Hopen. apply cell_open_Ok in Hstep as (_ & _ & ->).
  peel H. pose proof Hstep as Hraw. apply cell_get_raw_Ok in Hstep as (_ & ->).
  peel H. pose proof Hstep as Hview.
  apply cell_visualize_Ok in Hstep
    as (? & ? & ? & ? & ? & _ & _ & _ & _ & _ & Hfig & ->).
  peel H. apply cell_svd_Ok in Hstep as (? & ? & ? & ? & ? & _ & _ & _ & _ & _ & _ & _ & ->).
  peel H. apply cell_plot_scree_Ok in Hstep as ->.
  peel H. apply cell_plot_abundance_Ok in Hstep as ->.
  peel H. apply cell_plot_endmembers_Ok in Hstep as ->.
  peel H.
  apply cell_cluster_Ok in Hstep
    as (? & ? & ? & ? & ? & ? & _ & _ & _ & _ & _ & _ & _ & _ & ->).
  peel H.
  match goal with
  | Hl : cell_plot_labels _ _ _ = (Ok ?p, _) |- _ => destruct p as [label_mat fig5]
  end.
  apply cell_plot_labels_Ok in Hstep as (_ & _ & ->).
  peel H. apply cell_plot_dendrogram_Ok in Hstep as [Hlast ->].
  peel H. apply cell_close_Ok in Hstep as ->.
  apply ret_Ok in H as [-> ->]. cbn in *.
  split_and!; [| exact Hlast | by rewrite Hlast].
  eexists. unfold through_visualize.
  erewrite bind_step by exact Hinstall. erewrite bind_step by exact Himports.
  erewrite bind_step by exact Hopen. erewrite bind_step by exact Hraw.
  erewrite bind_step by exact Hview. by rewrite Hfig.
Qed.

Lemma X13_fig_witness :
  notebook Toy.start = (Ok Toy.bound, (notebook Toy.start).2) ∧
  (∃ w1, through_visualize Toy.start
         = (Ok (raw Toy.bound, S (figures (screen Toy.start))), w1)) ∧
  fig Toy.bound = (6 + figures (screen Toy.start))%nat ∧
  figures (screen (notebook Toy.start).2) = fig Toy.bound.
Proof.
  assert (Hrun : notebook Toy.start = (Ok Toy.bound, (notebook Toy.start).2))
    by (apply run_eq; vm_compute; reflexivity).
  split; [exact Hrun |].
  exact (X13_fig_is_rebound Toy.start Toy.bound (notebook Toy.start).2 Hrun).
Defined.

(** X14: in a run that reaches its end, the number of components passed to
    the dendrogram plot is the second extent of the stored Mean_Response
    dataset of the clustering group, and the numbers of clusters passed are
    both 32; the call is the last before the close. *)
Theorem X14_dendrogram_arguments {num : Type} `{L : Library num}
    (w : world num) (g : globals) (w' : world num) :
  notebook w = (Ok g, w') →
  ∃ (f : gmap path (h5obj num)) (d : dataset num) (n : Z) (ops : list op),
    disk w' !! h5_file g = Some f ∧
    f !! h5_centroids (clusters g) = Some (H5Dataset d) ∧
    shape (ds_array d) !! 1%nat = Some n ∧
    trace w' = trace w ++ ops ++ [OpPlotClusterDendrogram n 32 32; OpFileClose].
Proof.
  intros H. complete_run H.
  exists f2, d_centroids, (num_comps_for_clustering (clusters g)).
  exists (install_ops ++ imports_ops ++ open_ops (h5_file g)
          ++ get_raw_ops (raw_path g) ++ visualize_ops (raw g)
          ++ svd_ops (raw g) gs ++ svd_plot_ops (svd g)
          ++ cluster_ops (svd g) gk
          ++ [OpRead (h5_labels (clusters g)); OpPlotClusterLabels 32;
              OpRead (h5_u (svd g))]).
  split_and!.
  - match goal with E : disk w' = _ |- _ => rewrite E end.
    apply lookup_insert_eq.
  - match goal with E : h5_centroids _ = _ |- _ => by rewrite E end.
  - match goal with E : shape_at _ _ = Ok _ |- _ => unfold shape_at in E end.
    destruct (shape (ds_array d_centroids) !! 1%nat); by simplify_eq.
  - match goal with E : trace w' = _ |- _ => rewrite E end.
    unfold notebook_ops, before_close, cluster_plot_ops.
    by rewrite <- !app_assoc.
Qed.

Lemma X14_dendrogram_witness :
  notebook Toy.start = (Ok Toy.bound, (notebook Toy.start).2) ∧
  ∃ (f : gmap path (h5obj Z)) (d : dataset Z) (n : Z) (ops : list op),
    disk (notebook Toy.start).2 !! h5_file Toy.bound = Some f ∧
    f !! h5_centroids (clusters Toy.bound) = Some (H5Dataset d) ∧
    shape (ds_array d) !! 1%nat = Some n ∧
    trace (notebook Toy.start).2
    = trace Toy.start ++ ops ++ [OpPlotClusterDendrogram n 32 32; OpFileClose].
Proof.
  assert (Hrun : notebook Toy.start = (Ok Toy.bound, (notebook Toy.start).2))
    by (apply run_eq; vm_compute; reflexivity).
  split; [exact Hrun |].
  exact (X14_dendrogram_arguments Toy.start Toy.bound (notebook Toy.start).2 Hrun).
Defined.

Lemma toy_calm : calm (L := Toy.library).
Proof. by intros o w. Qed.

(** X15: when the group of the raw dataset has no member
    Spectroscopic_Mean, the visualization cell raises KeyError for it after
    the two-panel figure was created: the figure stays, with neither the
    mean-response map nor the ronchigram in it. *)
Theorem X15_mean_map_missing {num : Type} `{L : Library num}
    (r : raw_info) (d : dataset num) (zoom : ndarray num) (w : world num)
    (file mode : string) (f : gmap path (h5obj num)) :
  calm →
  file_at w file mode f →
  f !! usid_path (h5_main r) = Some (H5Dataset d) →
  ronchigram_at r (ds_array d)
    (Py.int_half (num_rows r) * num_rows r + Py.int_half (num_cols r)) = Ok zoom →
  f !! (parent (usid_path (h5_main r)) ++ ["Spectroscopic_Mean"]) = None →
  ∃ w',
    cell_visualize r w = (Raise (KeyError "Spectroscopic_Mean"), w') ∧
    figures (screen w') = S (figures (screen w)) ∧
    main_map (screen w') = main_map (screen w) ∧
    img_zoom (screen w') = img_zoom (screen w) ∧
    trace w' = trace w ++ [OpRead (usid_path (h5_main r)); OpSubplots; OpHold 0;
                           OpSetTitle 0 "Mean Response";
                           OpGetItem (parent (usid_path (h5_main r)))
                             "Spectroscopic_Mean"].
Proof.
  intros Hcalm Hf Hd Hzoom Hnone. unfold ronchigram_at in Hzoom.
  destruct (index0 _ _) as [row |] eqn:Hrow; [| done].
  eexists. split.
  { unfold cell_visualize.
    erewrite bind_step; cycle 1.
    { rewrite (read_item_holds _ _ d) by (by exists file, mode, f).
      by rewrite Hrow. }
    erewrite bind_step by (unfold lift, effect; by rewrite Hzoom).
    erewrite bind_step; cycle 1.
    { unfold new_figure. erewrite bind_step by (apply external_runs, Hcalm).
      reflexivity. }
    erewrite bind_step by (apply external_runs, Hcalm).
    erewrite bind_step by (apply external_runs, Hcalm).
    apply bind_Raise.
    apply (group_getitem_missing _ _ _ file mode f); [| done].
    destruct Hf. by split. }
  cbn. split_and!; try done. by rewrite <- !app_assoc.
Qed.

Lemma X15_mean_map_witness :
  let r := Grid.info 2 2 in
  let w := Grid.opened 2 2 in
  let f := Grid.file 2 2 in
  let d := Grid.raw_dataset 2 2 in
  let zoom := mk_array [2; 2] [30; 31; 32; 33] in
  calm (L := Toy.library) ∧
  file_at w "stem.h5" "r+" f ∧
  f !! usid_path (h5_main r) = Some (H5Dataset d) ∧
  ronchigram_at r (ds_array d)
    (Py.int_half (num_rows r) * num_rows r + Py.int_half (num_cols r)) = Ok zoom ∧
  f !! (parent (usid_path (h5_main r)) ++ ["Spectroscopic_Mean"]) = None ∧
  ∃ w',
    cell_visualize r w = (Raise (KeyError "Spectroscopic_Mean"), w') ∧
    figures (screen w') = S (figures (screen w)) ∧
    main_map (screen w') = main_map (screen w) ∧
    img_zoom (screen w') = img_zoom (screen w) ∧
    trace w' = trace w ++ [OpRead (usid_path (h5_main r)); OpSubplots; OpHold 0;
                           OpSetTitle 0 "Mean Response";
                           OpGetItem (parent (usid_path (h5_main r)))
                             "Spectroscopic_Mean"].
Proof.
  intros r w f d zoom.
  assert (Hf : file_at w "stem.h5" "r+" f)
    by (split; [reflexivity | apply lookup_singleton_eq]).
  assert (Hd : f !! usid_path (h5_main r) = Some (H5Dataset d))
    by apply lookup_singleton_eq.
  assert (Hzoom : ronchigram_at r (ds_array d)
            (Py.int_half (num_rows r) * num_rows r + Py.int_half (num_cols r))
          = Ok zoom) by (vm_compute; reflexivity).
  assert (Hnone : f !! (parent (usid_path (h5_main r)) ++ ["Spectroscopic_Mean"]) = None)
    by (vm_compute; reflexivity).
  split; [exact toy_calm |]. split; [exact Hf |]. split; [exact Hd |].
  split; [exact Hzoom |]. split; [exact Hnone |].
  exact (X15_mean_map_missing r d zoom w "stem.h5" "r+" f toy_calm Hf Hd Hzoom Hnone).
Defined.

(** ** Slices and reshapes of the plotting cells *)

Section Slices.

Context {num : Type}.

Lemma length_chunks_taken (n m k : nat) (l : list num) :
  (k ≤ m)%nat → length l = (n * m)%nat →
  length (concat (map (take k) (chunks n m l))) = (n * k)%nat.
Proof.
  intros Hk. revert l. induction n as [| n IH]; intros l Hl; [done |].
  cbn [chunks map concat]. rewrite length_app, !length_take.
  rewrite IH by (rewrite length_drop; lia). lia.
Qed.

(** [a[:, :k]] of a well-formed matrix has all rows and the first columns. *)
Lemma take_cols_matrix (a : ndarray num) (n m k : Z) :
  well_formed a → shape a = [n; m] →
  ∃ b, take_cols a k = Ok b ∧
       shape b = [n; Z.min (Z.max k 0) m] ∧
       size b = n * Z.min (Z.max k 0) m.
Proof.
  intros [Hpos Hlen] Hshape. rewrite Hshape in Hpos, Hlen.
  apply Forall_cons_1 in Hpos as [Hn [Hm _]%Forall_cons_1].
  cbn [prodZ foldr] in Hlen.
  unfold take_cols. rewrite Hshape. eexists. split; [reflexivity |].
  split; [done |]. unfold size. cbn [flat prodZ foldr].
  rewrite (length_chunks_taken (Z.to_nat n) (Z.to_nat (m * 1))
             (Z.to_nat (Z.min (Z.max k 0) m * 1))) by (rewrite ?Hlen; nia).
  nia.
Qed.

(** [a[:k]] of a well-formed matrix has the first rows, whole. *)
Lemma take_rows_matrix (a : ndarray num) (n m k : Z) :
  well_formed a → shape a = [n; m] →
  ∃ b, take_rows a k = Ok b ∧
       shape b = [Z.min (Z.max k 0) n; m] ∧
       size b = Z.min (Z.max k 0) n * m.
Proof.
  intros [Hpos Hlen] Hshape. rewrite Hshape in Hpos, Hlen.
  apply Forall_cons_1 in Hpos as [Hn [Hm _]%Forall_cons_1].
  cbn [prodZ foldr] in Hlen.
  unfold take_rows. rewrite Hshape. eexists. split; [reflexivity |].
  split; [done |]. unfold size. cbn [flat prodZ foldr].
  rewrite length_take, Hlen. nia.
Qed.

(** A reshape to (n, m, -1) infers the last extent. *)
Lemma np_reshape_last_inferred (a : ndarray num) (n m k : Z) :
  0 < n → 0 < m → size a = n * m * k →
  np_reshape a [n; m; -1] = Ok (mk_array [n; m; k] (flat a)).
Proof.
  intros Hn Hm Hsize. unfold np_reshape. cbn.
  repeat case_decide; cbn; try lia.
  destruct (Z.leb_spec 0 n); [| lia]. destruct (Z.leb_spec 0 m); [| lia]. cbn.
  rewrite Z.mul_1_r.
  destruct (Z.eqb_spec (n * m) 0); [nia |].
  rewrite Hsize, (Z.mul_comm (n * m) k), Z.mod_mul, Z.div_mul by done.
  done.
Qed.

(** A reshape to (-1, n, m) infers the first extent. *)
Lemma np_reshape_first_inferred (a : ndarray num) (n m k : Z) :
  0 < n → 0 < m → size a = k * (n * m) →
  np_reshape a [-1; n; m] = Ok (mk_array [k; n; m] (flat a)).
Proof.
  intros Hn Hm Hsize. unfold np_reshape. cbn.
  repeat case_decide; cbn; try lia.
  destruct (Z.leb_spec 0 n); [| lia]. destruct (Z.leb_spec 0 m); [| lia]. cbn.
  rewrite Z.mul_1_r.
  destruct (Z.eqb_spec (n * m) 0); [nia |].
  rewrite Hsize, Z.mod_mul, Z.div_mul by done.
  done.
Qed.

End Slices.

Section PlotCells.

Context {num : Type} `{L : Library num}.

Implicit Types w : world num.

Lemma read_cols_holds ds k d w :
  holds w ds d →
  read_cols ds k w = (take_cols (ds_array d) k, log (OpRead ds) w).
Proof.
  intros (name & mode & f & [Hh Hd] & Hds).
  unfold read_cols, deref, current_file, emit, lift, effect, mbind, M_bind, mret, M_ret.
  cbn. rewrite Hh, Hd, Hds. by destruct (take_cols (ds_array d) k).
Qed.

Lemma read_rows_holds ds k d w :
  holds w ds d →
  read_rows ds k w = (take_rows (ds_array d) k, log (OpRead ds) w).
Proof.
  intros (name & mode & f & [Hh Hd] & Hds).
  unfold read_rows, deref, current_file, emit, lift, effect, mbind, M_bind, mret, M_ret.
  cbn. rewrite Hh, Hd, Hds. by destruct (take_rows (ds_array d) k).
Qed.

Lemma new_figure_runs o w :
  calm →
  new_figure o w = (Ok (S (figures (screen w))),
                    with_screen (add_figure (screen w)) (log o w)).
Proof.
  intros Hcalm. unfold new_figure.
  erewrite bind_step by (apply external_runs, Hcalm). reflexivity.
Qed.

End PlotCells.

(** X16: over a stored U that is a well-formed matrix with one row per
    scan position of a non-empty scan, whatever its number of columns, the
    abundance-map cell returns: the slice of the first 16 columns, the
    reshape to (rows, columns, -1) and the transposition succeed, and the
    cell creates one figure. *)
Theorem X16_abundance_maps_return {num : Type} `{L : Library num}
    (r : raw_info) (s : svd_info) (d : dataset num) (m : Z) (w : world num) :
  calm →
  holds w (h5_u s) d →
  well_formed (ds_array d) →
  shape (ds_array d) = [num_rows r * num_cols r; m] →
  0 < num_rows r →
  0 < num_cols r →
  cell_plot_abundance r s w
  = (Ok (S (figures (screen w))),
     with_screen (add_figure (screen w))
       (logs [OpRead (h5_u s); OpCmap; OpPlotMapStack "Abundance Maps" 16] w)).
Proof.
  intros Hcalm Hd Hwf Hshape Hrows Hcols.
  destruct (take_cols_matrix _ _ _ num_plot_comps Hwf Hshape)
    as (u & Hu & Hushape & Husize).
  unfold cell_plot_abundance.
  erewrite bind_step
    by (rewrite (read_cols_holds _ _ d) by done; by rewrite Hu).
  erewrite bind_step; cycle 1.
  { unfold lift, effect.
    by rewrite (np_reshape_last_inferred u _ _ _ Hrows Hcols Husize). }
  erewrite bind_step by reflexivity.
  erewrite bind_step by (apply external_runs, Hcalm).
  by rewrite new_figure_runs.
Qed.

Lemma X16_abundance_witness :
  let r := Toy.raw_bound in
  let s := svd Toy.bound in
  let w := with_disk {[ "stem.h5" := Toy.svd_results Toy.stem_file ]} Grid.toy_opened in
  let d := Toy.plain (mk_array [6; 2] [1; 2; 3; 4; 5; 6; 7; 8; 9; 10; 11; 12]) in
  calm (L := Toy.library) ∧
  holds w (h5_u s) d ∧
  well_formed (ds_array d) ∧
  shape (ds_array d) = [num_rows r * num_cols r; 2] ∧
  0 < num_rows r ∧
  0 < num_cols r ∧
  cell_plot_abundance r s w
  = (Ok (S (figures (screen w))),
     with_screen (add_figure (screen w))
       (logs [OpRead (h5_u s); OpCmap; OpPlotMapStack "Abundance Maps" 16] w)).
Proof.
  intros r s w d.
  assert (Hd : holds w (h5_u s) d).
  { exists "stem.h5", "r+", (Toy.svd_results Toy.stem_file).
    split; [split; [reflexivity | apply lookup_singleton_eq] |].
    vm_compute. reflexivity. }
  assert (Hwf : well_formed (ds_array d))
    by (split; [repeat constructor; lia | reflexivity]).
  assert (Hshape : shape (ds_array d) = [num_rows r * num_cols r; 2]) by reflexivity.
  assert (H1 : 0 < num_rows r) by reflexivity.
  assert (H2 : 0 < num_cols r) by reflexivity.
  split; [exact toy_calm |]. split; [exact Hd |]. split; [exact Hwf |].
  split; [exact Hshape |]. split; [exact H1 |]. split; [exact H2 |].
  exact (X16_abundance_maps_return r s d 2 w toy_calm Hd Hwf Hshape H1 H2).
Defined.

(** X17: over a stored V that is a well-formed matrix with one column per
    sensor pixel of a non-empty sensor, whatever its number of rows, the
    endmember cell returns: the slice of the first 16 rows and the reshape to
    (-1, sensor rows, sensor columns) succeed, and the cell creates one
    figure. *)
Theorem X17_endmembers_return {num : Type} `{L : Library num}
    (r : raw_info) (s : svd_info) (d : dataset num) (n : Z) (w : world num) :
  calm →
  holds w (h5_v s) d →
  well_formed (ds_array d) →
  shape (ds_array d) = [n; num_sensor_rows r * num_sensor_cols r] →
  0 < num_sensor_rows r →
  0 < num_sensor_cols r →
  cell_plot_endmembers r s w
  = (Ok (S (figures (screen w))),
     with_screen (add_figure (screen w))
       (logs [OpRead (h5_v s); OpCmap; OpPlotMapStack "Endmembers" 16] w)).
Proof.
  intros Hcalm Hd Hwf Hshape Hrows Hcols.
  destruct (take_rows_matrix _ _ _ num_plot_comps Hwf Hshape)
    as (v & Hv & Hvshape & Hvsize).
  unfold cell_plot_endmembers.
  erewrite bind_step
    by (rewrite (read_rows_holds _ _ d) by done; by rewrite Hv).
  erewrite bind_step; cycle 1.
  { unfold lift, effect.
    by rewrite (np_reshape_first_inferred v _ _ _ Hrows Hcols Hvsize). }
  erewrite bind_step by (apply external_runs, Hcalm).
  by rewrite new_figure_runs.
Qed.

Lemma X17_endmembers_witness :
  let r := Toy.raw_bound in
  let s := svd Toy.bound in
  let w := with_disk {[ "stem.h5" := Toy.svd_results Toy.stem_file ]} Grid.toy_opened in
  let d := Toy.plain (mk_array [2; 4] [1; 0; 0; 0; 0; 1; 0; 0]) in
  calm (L := Toy.library) ∧
  holds w (h5_v s) d ∧
  well_formed (ds_array d) ∧
  shape (ds_array d) = [2; num_sensor_rows r * num_sensor_cols r] ∧
  0 < num_sensor_rows r ∧
  0 < num_sensor_cols r ∧
  cell_plot_endmembers r s w
  = (Ok (S (figures (screen w))),
     with_screen (add_figure (screen w))
       (logs [OpRead (h5_v s); OpCmap; OpPlotMapStack "Endmembers" 16] w)).
Proof.
  intros r s w d.
  assert (Hd : holds w (h5_v s) d).
  { exists "stem.h5", "r+", (Toy.svd_results Toy.stem_file).
    split; [split; [reflexivity | apply lookup_singleton_eq] |].
    vm_compute. reflexivity. }
  assert (Hwf : well_formed (ds_array d))
    by (split; [repeat constructor; lia | reflexivity]).
  assert (Hshape : shape (ds_array d) = [2; num_sensor_rows r * num_sensor_cols r])
    by reflexivity.
  assert (H1 : 0 < num_sensor_rows r) by reflexivity.
  assert (H2 : 0 < num_sensor_cols r) by reflexivity.
  split; [exact toy_calm |]. split; [exact Hd |]. split; [exact Hwf |].
  split; [exact Hshape |]. split; [exact H1 |]. split; [exact H2 |].
  exact (X17_endmembers_return r s d 2 w toy_calm Hd Hwf Hshape H1 H2).
Defined.

(** X18: once every cell has run, the handle the callback reads through
    is closed: every later click inside the map moves the crosshair and then
    fails with ValueError, and the zoomed panel keeps the ronchigram of the
    first view. *)
Theorem X18_click_after_complete_run {num : Type} `{L : Library num}
    (w : world num) (g : globals) (w' : world num) (ev : mouse_event) (x y : Q) :
  notebook w = (Ok g, w') →
  lib_in_axes w' ev = true →
  ev_xdata ev = Some x →
  ev_ydata ev = Some y →
  ∃ w'',
    move_zoom_box (raw g) (fig g) ev w' = (Raise ValueError, w'') ∧
    main_vert_line (screen w'') = Some (Py.round x) ∧
    main_hor_line (screen w'') = Some (Py.round y) ∧
    img_zoom (screen w'') = img_zoom (screen w') ∧
    drawn (screen w'') = drawn (screen w').
Proof.
  intros H Hin Hx Hy.
  apply notebook_Ok in H
    as (f0 & f1 & f2 & gs & gk & d_raw & d_mean & d_labels & d_centroids
        & row & zoom & mean_map & label_mat & H).
  pose proof (run_handle _ _ _ _ _ _ _ _ _ _ _ _ _ _ _ _ H) as Hclosed.
  eexists. split.
  { rewrite (move_zoom_box_inside _ _ _ x y) by done.
    unfold show_ronchigram. apply bind_Raise. by apply read_item_closed. }
  by cbn.
Qed.

Lemma X18_click_after_run_witness :
  let ev := Toy.click_row1_col0 in
  notebook Toy.start = (Ok Toy.bound, (notebook Toy.start).2) ∧
  lib_in_axes (notebook Toy.start).2 ev = true ∧
  ev_xdata ev = Some (0 # 1)%Q ∧
  ev_ydata ev = Some (1 # 1)%Q ∧
  ∃ w'',
    move_zoom_box (raw Toy.bound) (fig Toy.bound) ev (notebook Toy.start).2
      = (Raise ValueError, w'') ∧
    main_vert_line (screen w'') = Some (Py.round (0 # 1)) ∧
    main_hor_line (screen w'') = Some (Py.round (1 # 1)) ∧
    img_zoom (screen w'') = img_zoom (screen (notebook Toy.start).2) ∧
    drawn (screen w'') = drawn (screen (notebook Toy.start).2).
Proof.
  intros ev.
  assert (Hrun : notebook Toy.start = (Ok Toy.bound, (notebook Toy.start).2))
    by (apply run_eq; vm_compute; reflexivity).
  assert (Hin : lib_in_axes (notebook Toy.start).2 ev = true)
    by (cbv beta iota delta [lib_in_axes Toy.library]; reflexivity).
  split; [exact Hrun |]. split; [exact Hin |]. do 2 (split; [reflexivity |]).
  exact (X18_click_after_complete_run Toy.start Toy.bound (notebook Toy.start).2
           ev (0 # 1) (1 # 1) Hrun Hin eq_refl eq_refl).
Defined.

(** X19: on a scan with at least one row and no more rows than columns,
    over a well-formed dataset with one row of sensor-rows x sensor-columns
    values per position, the index of the first view,
    [int(0.5 * num_rows) * num_rows + int(0.5 * num_cols)], is within the
    positions and its ronchigram has the shape of the sensor. *)
Theorem X19_first_view_in_range {num : Type}
    (r : raw_info) (a : ndarray num) :
  well_formed a →
  shape a = [num_rows r * num_cols r; num_sensor_rows r * num_sensor_cols r] →
  0 ≤ num_sensor_rows r →
  0 ≤ num_sensor_cols r →
  1 ≤ num_rows r ≤ num_cols r →
  0 ≤ Py.int_half (num_rows r) * num_rows r + Py.int_half (num_cols r)
    < num_rows r * num_cols r ∧
  ∃ zoom,
    ronchigram_at r a
      (Py.int_half (num_rows r) * num_rows r + Py.int_half (num_cols r)) = Ok zoom ∧
    shape zoom = [num_sensor_rows r; num_sensor_cols r].
Proof.
  intros [Hpos Hlen] Hshape Hsr Hsc Hgrid.
  set (nr := num_rows r) in *. set (nc := num_cols r) in *.
  set (p := num_sensor_rows r * num_sensor_cols r) in *.
  unfold Py.int_half.
  pose proof (Z.quot_pos nr 2 ltac:(lia) ltac:(lia)) as Hr0.
  pose proof (Z.quot_pos nc 2 ltac:(lia) ltac:(lia)) as Hc0.
  pose proof (Z.mul_quot_le nr 2 ltac:(lia) ltac:(lia)) as Hr2.
  pose proof (Z.mul_quot_le nc 2 ltac:(lia) ltac:(lia)) as Hc2.
  assert (Hrange : 0 ≤ nr ÷ 2 * nr + nc ÷ 2 < nr * nc) by nia.
  split; [done |].
  pose proof (index0_within _ _ _ _ Hshape Hrange) as Hread.
  set (row := mk_array _ _) in Hread.
  assert (Hp : 0 ≤ p) by (unfold p; nia).
  assert (Hsize : p = size row).
  { unfold size, row. cbn [flat prodZ foldr].
    rewrite Hshape in Hlen. cbn [prodZ foldr] in Hlen.
    rewrite length_take, length_drop, Hlen. nia. }
  eexists. unfold ronchigram_at. rewrite Hread.
  rewrite np_reshape_2d_Ok by done. done.
Qed.

Lemma X19_first_view_witness :
  let r := Grid.info 2 3 in
  let a := ds_array (Grid.raw_dataset 2 3) in
  well_formed a ∧
  shape a = [num_rows r * num_cols r; num_sensor_rows r * num_sensor_cols r] ∧
  0 ≤ num_sensor_rows r ∧
  0 ≤ num_sensor_cols r ∧
  1 ≤ num_rows r ≤ num_cols r ∧
  0 ≤ Py.int_half (num_rows r) * num_rows r + Py.int_half (num_cols r)
    < num_rows r * num_cols r ∧
  ∃ zoom,
    ronchigram_at r a
      (Py.int_half (num_rows r) * num_rows r + Py.int_half (num_cols r)) = Ok zoom ∧
    shape zoom = [num_sensor_rows r; num_sensor_cols r].
Proof.
  intros r a.
  assert (Hshape : shape a
            = [num_rows r * num_cols r; num_sensor_rows r * num_sensor_cols r])
    by reflexivity.
  assert (H1 : 0 ≤ num_sensor_rows r) by (cbn; lia).
  assert (H2 : 0 ≤ num_sensor_cols r) by (cbn; lia).
  assert (H3 : 1 ≤ num_rows r ≤ num_cols r) by (cbn; lia).
  split; [apply grid_well_formed_2_3 |]. split; [exact Hshape |].
  split; [exact H1 |]. split; [exact H2 |]. split; [exact H3 |].
  exact (X19_first_view_in_range r a grid_well_formed_2_3 Hshape H1 H2 H3).
Defined.
